(** * Availability and booking/payment reconciliation of the hotel backend

    A shallow embedding of the route handlers that decide room availability,
    create and edit bookings, and reconcile payments:

    - [routes/bookings.js]      helpers, POST /bookings, PUT /bookings/:id
    - [routes/availability.js]  POST /api/v1/availability, with the
                                database that [server.js] gives it
    - payments router           PUT /payments/:id, POST /payments/initiate,
                                POST /payments/webhook
    - rooms router              PUT /rooms/:id, GET /rooms/:id,
                                DELETE /rooms/:id
    - [routes/bookings.js]      POST /bookings/:id/cancel, findOrCreateUser

    Conventions of the embedding.

    - Instants ([Date], Firestore [Timestamp]) are [Z] milliseconds since the
      epoch, the value of [getTime()].
    - A Firestore collection is an association list from document ids to
      document data, in the order in which a query returns the documents, so
      that [limit(1)] is the head of the filtered list.
    - A handler is a computation over the store that may throw; every
      successful [update], [add] or [batch.commit()] is one atomic commit
      and is recorded in a log, so that the states a concurrent reader can
      observe are exactly the initial store and the logged ones.
    - [update] of a document that does not exist throws, and a batch one of
      whose updates throws commits nothing.
    - Request fields that are absent ([undefined]) are [None]. The Firestore
      client of [config/firebase.js] is created without
      [ignoreUndefinedProperties], so a write whose data holds an
      [undefined] field throws before anything is sent ([stored]); so does
      an [update] with no field at all.
    - A string is a sequence of code units below 256.
    - Prices are integers, and the arithmetic on prices and instants is that
      of the integers: it is the arithmetic of the JavaScript numbers as
      long as the values stay within [exact].
    - The authentication middleware has run: handlers receive the uid of the
      caller. The identity provider, the user lookup and the payment
      gateway are outside the code and enter as arguments; the users
      collection is not part of the store. *)

From Stdlib Require Import ZArith List String Ascii Bool Lia.
From Stdlib Require Import DecimalString.
Import ListNotations.

Local Open Scope string_scope.
Local Open Scope list_scope.
Local Open Scope Z_scope.

Set Implicit Arguments.

(** ** JavaScript values *)

(** Strict equality of two strings. *)
Notation "a === b" := (String.eqb a b) (at level 70, no associativity).

(** Concatenation of two strings. *)
Notation "a +++ b" := (String.append a b) (at level 60, right associativity).

Definition dquote : string := String (ascii_of_N 34) EmptyString.

(** Document ids are strings, and instants are integers. *)
Abbreviation DocId := string (only parsing).
Abbreviation Instant := Z (only parsing).

(** [!!s] for an optional string: [undefined], [null] and [''] are falsy. *)
Definition truthy (s : option string) : bool :=
  match s with
  | Some s => negb (s === "")
  | None => false
  end.

(** [a || b] on strings. *)
Definition or_else (a : option string) (b : string) : string :=
  match a with
  | Some s => if s === "" then b else s
  | None => b
  end.

(** [a === b] between an optional request field and a string literal. *)
Definition is_str (a : option string) (b : string) : bool :=
  match a with
  | Some s => s === b
  | None => false
  end.

(** [String.prototype.toLowerCase] on the code units below 256: the
    letters A to Z and the accented capitals, the multiplication sign
    between them apart. *)
Definition lower_ascii (c : ascii) : ascii :=
  let n := N_of_ascii c in
  if (((65 <=? n) && (n <=? 90))
      || ((192 <=? n) && (n <=? 222) && negb (n =? 215)))%N
  then ascii_of_N (n + 32) else c.

Fixpoint toLowerCase (s : string) : string :=
  match s with
  | EmptyString => EmptyString
  | String c r => String (lower_ascii c) (toLowerCase r)
  end.

(** ** Documents *)

Module Booking.
Record t := mk {
  roomId : string;
  userId : string;
  guestName : option string;
  guestPhone : option string;
  guestEmail : string;
  guests : Z;
  checkIn : Instant;
  checkOut : Instant;
  totalPrice : Z;
  status : string;
  paymentStatus : string;
  paymentMethod : string;
  paymentPhone : option string;
  receivedBy : option string;
  createdAt : Instant;
  createdBy : string;
  updatedAt : option Instant
}.

Definition set_roomId v b :=
  mk v (userId b) (guestName b) (guestPhone b) (guestEmail b) (guests b)
     (checkIn b) (checkOut b) (totalPrice b) (status b) (paymentStatus b)
     (paymentMethod b) (paymentPhone b) (receivedBy b) (createdAt b)
     (createdBy b) (updatedAt b).
Definition set_guestName v b :=
  mk (roomId b) (userId b) v (guestPhone b) (guestEmail b) (guests b)
     (checkIn b) (checkOut b) (totalPrice b) (status b) (paymentStatus b)
     (paymentMethod b) (paymentPhone b) (receivedBy b) (createdAt b)
     (createdBy b) (updatedAt b).
Definition set_guestPhone v b :=
  mk (roomId b) (userId b) (guestName b) v (guestEmail b) (guests b)
     (checkIn b) (checkOut b) (totalPrice b) (status b) (paymentStatus b)
     (paymentMethod b) (paymentPhone b) (receivedBy b) (createdAt b)
     (createdBy b) (updatedAt b).
Definition set_checkIn v b :=
  mk (roomId b) (userId b) (guestName b) (guestPhone b) (guestEmail b)
     (guests b) v (checkOut b) (totalPrice b) (status b) (paymentStatus b)
     (paymentMethod b) (paymentPhone b) (receivedBy b) (createdAt b)
     (createdBy b) (updatedAt b).
Definition set_checkOut v b :=
  mk (roomId b) (userId b) (guestName b) (guestPhone b) (guestEmail b)
     (guests b) (checkIn b) v (totalPrice b) (status b) (paymentStatus b)
     (paymentMethod b) (paymentPhone b) (receivedBy b) (createdAt b)
     (createdBy b) (updatedAt b).
Definition set_status v b :=
  mk (roomId b) (userId b) (guestName b) (guestPhone b) (guestEmail b)
     (guests b) (checkIn b) (checkOut b) (totalPrice b) v (paymentStatus b)
     (paymentMethod b) (paymentPhone b) (receivedBy b) (createdAt b)
     (createdBy b) (updatedAt b).
Definition set_paymentStatus v b :=
  mk (roomId b) (userId b) (guestName b) (guestPhone b) (guestEmail b)
     (guests b) (checkIn b) (checkOut b) (totalPrice b) (status b) v
     (paymentMethod b) (paymentPhone b) (receivedBy b) (createdAt b)
     (createdBy b) (updatedAt b).
Definition set_paymentMethod v b :=
  mk (roomId b) (userId b) (guestName b) (guestPhone b) (guestEmail b)
     (guests b) (checkIn b) (checkOut b) (totalPrice b) (status b)
     (paymentStatus b) v (paymentPhone b) (receivedBy b) (createdAt b)
     (createdBy b) (updatedAt b).
Definition set_paymentPhone v b :=
  mk (roomId b) (userId b) (guestName b) (guestPhone b) (guestEmail b)
     (guests b) (checkIn b) (checkOut b) (totalPrice b) (status b)
     (paymentStatus b) (paymentMethod b) v (receivedBy b) (createdAt b)
     (createdBy b) (updatedAt b).
Definition set_receivedBy v b :=
  mk (roomId b) (userId b) (guestName b) (guestPhone b) (guestEmail b)
     (guests b) (checkIn b) (checkOut b) (totalPrice b) (status b)
     (paymentStatus b) (paymentMethod b) (paymentPhone b) v (createdAt b)
     (createdBy b) (updatedAt b).
Definition set_updatedAt v b :=
  mk (roomId b) (userId b) (guestName b) (guestPhone b) (guestEmail b)
     (guests b) (checkIn b) (checkOut b) (totalPrice b) (status b)
     (paymentStatus b) (paymentMethod b) (paymentPhone b) (receivedBy b)
     (createdAt b) (createdBy b) v.
End Booking.

(** ** Collections *)

Definition Coll (A : Type) := list (DocId * A).

Section Collections.
Variable A : Type.

  (** [collection.doc(id).get()]: the data when the document exists. *)
Fixpoint doc_get (c : Coll A) (id : DocId) : option A :=
    match c with
    | [] => None
    | (i, a) :: rest => if i === id then Some a else doc_get rest id
    end.

Definition doc_set (id : DocId) (f : A -> A) (d : DocId * A) : DocId * A :=
    if fst d === id then (fst d, f (snd d)) else d.

  (** [collection.doc(id).update(fields)]: [f] overwrites the given fields;
      [None] when no such document exists (the update is rejected). *)
Definition doc_update (c : Coll A) (id : DocId) (f : A -> A)
    : option (Coll A) :=
    match doc_get c id with
    | Some _ => Some (map (doc_set id f) c)
    | None => None
    end.

  (** [collection.add(data)], the store having chosen [id]. *)
Definition doc_add (c : Coll A) (id : DocId) (a : A) : Coll A :=
    c ++ [(id, a)].
End Collections.

Module Payment.
Record t := mk {
  bookingId : string;
  userId : string;
  amount : Z;
  currency : string;
  provider : option string;
  phone : option string;
  status : string;
  customer_reference : string;
  externalReference : option string;
  createdAt : Instant;
  updatedAt : option Instant;
  paidAt : option Instant;
  failureReason : option string
}.

Definition set_status v p :=
  mk (bookingId p) (userId p) (amount p) (currency p) (provider p) (phone p)
     v (customer_reference p) (externalReference p) (createdAt p)
     (updatedAt p) (paidAt p) (failureReason p).
Definition set_externalReference v p :=
  mk (bookingId p) (userId p) (amount p) (currency p) (provider p) (phone p)
     (status p) (customer_reference p) v (createdAt p) (updatedAt p)
     (paidAt p) (failureReason p).
Definition set_updatedAt v p :=
  mk (bookingId p) (userId p) (amount p) (currency p) (provider p) (phone p)
     (status p) (customer_reference p) (externalReference p) (createdAt p) v
     (paidAt p) (failureReason p).
Definition set_paidAt v p :=
  mk (bookingId p) (userId p) (amount p) (currency p) (provider p) (phone p)
     (status p) (customer_reference p) (externalReference p) (createdAt p)
     (updatedAt p) v (failureReason p).
Definition set_failureReason v p :=
  mk (bookingId p) (userId p) (amount p) (currency p) (provider p) (phone p)
     (status p) (customer_reference p) (externalReference p) (createdAt p)
     (updatedAt p) (paidAt p) v.
End Payment.

(** A room document. [isActive], [capacity] and [pricePerNight] are read by
    the availability search only; the rooms router never writes them. *)
Module Room.
Record t := mk {
  roomNumber : string;
  type : string;
  price : Z;
  status : string;
  amenities : list string;
  description : string;
  isActive : option bool;
  capacity : option Z;
  pricePerNight : option Z;
  updatedAt : option Instant;
  updatedBy : option string
}.

Definition set_roomNumber v r :=
  mk v (type r) (price r) (status r) (amenities r) (description r)
     (isActive r) (capacity r) (pricePerNight r) (updatedAt r) (updatedBy r).
Definition set_type v r :=
  mk (roomNumber r) v (price r) (status r) (amenities r) (description r)
     (isActive r) (capacity r) (pricePerNight r) (updatedAt r) (updatedBy r).
Definition set_price v r :=
  mk (roomNumber r) (type r) v (status r) (amenities r) (description r)
     (isActive r) (capacity r) (pricePerNight r) (updatedAt r) (updatedBy r).
Definition set_status v r :=
  mk (roomNumber r) (type r) (price r) v (amenities r) (description r)
     (isActive r) (capacity r) (pricePerNight r) (updatedAt r) (updatedBy r).
Definition set_amenities v r :=
  mk (roomNumber r) (type r) (price r) (status r) v (description r)
     (isActive r) (capacity r) (pricePerNight r) (updatedAt r) (updatedBy r).
Definition set_description v r :=
  mk (roomNumber r) (type r) (price r) (status r) (amenities r) v
     (isActive r) (capacity r) (pricePerNight r) (updatedAt r) (updatedBy r).
Definition set_updated at_ by_ r :=
  mk (roomNumber r) (type r) (price r) (status r) (amenities r)
     (description r) (isActive r) (capacity r) (pricePerNight r) at_ by_.
End Room.

(** ** The store and the handler monad *)

Record Store := mkStore {
  rooms : Coll Room.t;
  bookings : Coll Booking.t;
  payments : Coll Payment.t
}.

(** One document write of a batch. *)
Inductive Write :=
| UpdateRoom (id : DocId) (f : Room.t -> Room.t)
| UpdateBooking (id : DocId) (f : Booking.t -> Booking.t)
| UpdatePayment (id : DocId) (f : Payment.t -> Payment.t)
| AddBooking (id : DocId) (b : Booking.t)
| AddPayment (id : DocId) (p : Payment.t).

Definition apply_write (s : Store) (w : Write) : option Store :=
  match w with
  | UpdateRoom id f =>
      option_map (fun c => mkStore c (bookings s) (payments s))
                 (doc_update (rooms s) id f)
  | UpdateBooking id f =>
      option_map (fun c => mkStore (rooms s) c (payments s))
                 (doc_update (bookings s) id f)
  | UpdatePayment id f =>
      option_map (fun c => mkStore (rooms s) (bookings s) c)
                 (doc_update (payments s) id f)
  | AddBooking id b =>
      Some (mkStore (rooms s) (doc_add (bookings s) id b) (payments s))
  | AddPayment id p =>
      Some (mkStore (rooms s) (bookings s) (doc_add (payments s) id p))
  end.

(** All writes of a batch, or none. *)
Fixpoint apply_writes (s : Store) (ws : list Write) : option Store :=
  match ws with
  | [] => Some s
  | w :: rest =>
      match apply_write s w with
      | Some s' => apply_writes s' rest
      | None => None
      end
  end.

Inductive outcome (A : Type) :=
| Done (a : A)
| Thrown (e : string).
Arguments Done {A} a.
Arguments Thrown {A} e.

(** The store as the request sees it, and the states it has committed so
    far, newest first. *)
Record World := mkWorld {
  current : Store;
  committed : list Store
}.

Definition Handler (A : Type) := World -> outcome A * World.

Definition ret {A} (a : A) : Handler A := fun w => (Done a, w).

Definition bind {A B} (m : Handler A) (k : A -> Handler B) : Handler B :=
  fun w =>
    match m w with
    | (Done a, w') => k a w'
    | (Thrown e, w') => (Thrown e, w')
    end.

Definition throw {A} (e : string) : Handler A := fun w => (Thrown e, w).

(** [try { m } catch (e) { h e }]: what [m] committed before it threw
    stays committed. *)
Definition try_catch {A} (m : Handler A) (h : string -> Handler A)
  : Handler A :=
  fun w =>
    match m w with
    | (Done a, w') => (Done a, w')
    | (Thrown e, w') => h e w'
    end.

(** A read of the current store. *)
Definition snapshot {A} (q : Store -> A) : Handler A :=
  fun w => (Done (q (current w)), w).

(** One atomic commit of the writes [ws]. *)
Definition commit (ws : list Write) : Handler unit :=
  fun w =>
    match apply_writes (current w) ws with
    | Some s' => (Done tt, mkWorld s' (s' :: committed w))
    | None => (Thrown "NOT_FOUND", w)
    end.

(** [collection.doc(id)]: an empty or absent id is rejected. *)
Definition doc_ref (id : string) : Handler DocId :=
  if id === "" then throw "INVALID_ARGUMENT" else ret id.

(** The validation of a field that a write is about to store as it came
    with the request: [undefined] is not a Firestore value, and the write
    throws without sending anything. *)
Definition stored {A} (v : option A) : Handler unit :=
  match v with
  | Some _ => ret tt
  | None => throw "INVALID_ARGUMENT"
  end.

(** The outcome of an awaited call made outside the store. *)
Definition await {A} (r : outcome A) : Handler A :=
  match r with
  | Done a => ret a
  | Thrown e => throw e
  end.

Notation "x <- m ;; k" := (bind m (fun x => k))
  (at level 61, m at next level, right associativity).
Notation "m ;;; k" := (bind m (fun _ => k))
  (at level 61, right associativity).

(** Running a handler on a store: the outcome, the final store, and the
    states that were observable while it ran, in order. *)
Definition run {A} (h : Handler A) (s : Store) : outcome A * World :=
  h (mkWorld s []).

Definition result {A} (h : Handler A) (s : Store) : outcome A :=
  fst (run h s).

Definition final {A} (h : Handler A) (s : Store) : Store :=
  current (snd (run h s)).

Definition observable {A} (h : Handler A) (s : Store) : list Store :=
  s :: rev (committed (snd (run h s))).

(** ** Requests, responses and the environment of a request *)

Inductive JVal :=
| JStr (s : string)
| JBool (b : bool)
| JNum (n : Z)
| JNull.

(** The room entries of an availability search result. *)
Record AvailableRoom := mkAvailableRoom {
  ar_id : DocId;
  ar_room : Room.t;
  ar_totalPrice : option Z;
  ar_nights : option Z
}.

Inductive Body :=
| Text (s : string)
| Json (fields : list (string * JVal))
| Search (message : string) (found : list AvailableRoom).

Record Response := mkResponse {
  code : Z;
  body : Body
}.

(** What a request reads from outside the store. *)
Record Env := mkEnv {
  uid : string;              (* req.user.uid *)
  now : Instant;             (* new Date(), Date.now() *)
  today : Instant;           (* local midnight before [now] *)
  serverTime : Instant;      (* FieldValue.serverTimestamp() *)
  random : Z;                (* Math.floor(Math.random() * 1000) *)
  bookingDocId : DocId;      (* id given by bookings.add *)
  paymentDocId : DocId;      (* id given by payments.add *)
  resolvedUser : outcome string; (* what findOrCreateUser returns or throws *)
  gatewayAccepts : bool      (* axios.post resolves rather than throws *)
}.

(** A date field of a request body: absent or empty (falsy), a string that
    [new Date] cannot parse, or a string it parses to an instant. *)
Inductive DateField :=
| Absent
| Unparsable
| Parsed (ms : Instant).

Definition given (d : DateField) : bool :=
  match d with
  | Absent => false
  | _ => true
  end.

(** [new Date(d).getTime()], [None] standing for NaN. *)
Definition getTime (d : DateField) : option Instant :=
  match d with
  | Parsed ms => Some ms
  | _ => None
  end.

Definition string_of_Z (n : Z) : string :=
  NilZero.string_of_int (Z.to_int n).

Definition generateReference (e : Env) : string :=
  "TX-" +++ string_of_Z (now e) +++ "-" +++ string_of_Z (random e).

(** The class [\s] on the code units below 256: tab to carriage return,
    the space and the no-break space. *)
Definition is_space (c : ascii) : bool :=
  let n := N_of_ascii c in
  ((n =? 32) || ((9 <=? n) && (n <=? 13)) || (n =? 160))%N.

(** [phone.replace(/[\s\-\(\)]/g, '')] *)
Fixpoint strip_phone (s : string) : string :=
  match s with
  | EmptyString => EmptyString
  | String c r =>
      if is_space c || Ascii.eqb c "-" || Ascii.eqb c "(" || Ascii.eqb c ")"
      then strip_phone r
      else String c (strip_phone r)
  end.

Definition formatPhoneNumber (phone : option string) : option string :=
  if negb (truthy phone) then None
  else
    match phone with
    | None => None
    | Some p =>
        match strip_phone p with
        | String "0" r => Some ("+256" +++ r)
        | String "+" r => Some (String "+" r)
        | cleanPhone => Some ("+256" +++ cleanPhone)
        end
    end.

Definition formatMsisdn := formatPhoneNumber.

(** ** The payments router *)

Module Payments.

Record WebhookBody := mkWebhookBody {
  status : option string;
  customer_reference : option string;
  provider_transaction_id : option string;
  message : option string
}.

(** [where('customer_reference', '==', ref).limit(1)] *)
Definition find_by_reference (ref : string) (s : Store)
  : list (DocId * Payment.t) :=
  firstn 1 (filter (fun d => Payment.customer_reference (snd d) === ref)
                   (payments s)).

Definition is_success (status : option string) : bool :=
  match status with
  | Some st => negb (st === "") && (toLowerCase st === "success")
  | None => false
  end.

(** The fields written to the payment on success; the batch takes
    [externalReference] as the request has it. *)
Definition markSuccess (e : Env) (req : WebhookBody)
  : Payment.t -> Payment.t :=
  fun p =>
    Payment.set_paidAt (Some (serverTime e))
      (Payment.set_externalReference (provider_transaction_id req)
         (Payment.set_status "success" p)).

(** The fields written to the booking on success. *)
Definition confirmBooking (e : Env) : Booking.t -> Booking.t :=
  fun b =>
    Booking.set_updatedAt (Some (serverTime e))
      (Booking.set_status "confirmed" (Booking.set_paymentStatus "paid" b)).

(** The fields written to the payment otherwise; the update takes
    [failureReason] as the request has it. *)
Definition markFailed (req : WebhookBody) : Payment.t -> Payment.t :=
  fun p =>
    Payment.set_failureReason (message req) (Payment.set_status "failed" p).

(** The batch of the success branch: the payment and its booking. *)
Definition successBatch (e : Env) (req : WebhookBody) (doc_id : DocId)
           (bookingRef : DocId) : list Write :=
  [ UpdatePayment doc_id (markSuccess e req);
    UpdateBooking bookingRef (confirmBooking e) ].

(** The single update of the other branch. *)
Definition failureUpdate (req : WebhookBody) (doc_id : DocId) : list Write :=
  [ UpdatePayment doc_id (markFailed req) ].

(** POST /webhook *)
Definition webhook (e : Env) (req : WebhookBody) : Handler Response :=
  try_catch
    (if negb (truthy (customer_reference req))
     then ret (mkResponse 400 (Text "Missing Ref"))
     else
       q <- snapshot (find_by_reference
                        (or_else (customer_reference req) EmptyString)) ;;
       match q with
       | [] => ret (mkResponse 200 (Text "OK"))
       | (doc_id, data) :: _ =>
           (if is_success (status req)
            then
              stored (provider_transaction_id req) ;;;
              bookingRef <- doc_ref (Payment.bookingId data) ;;
              commit (successBatch e req doc_id bookingRef)
            else
              stored (message req) ;;;
              commit (failureUpdate req doc_id)) ;;;
           ret (mkResponse 200 (Text "OK"))
       end)
    (fun _ => ret (mkResponse 500 (Text "Error"))).

(** The fields that PUT /:id writes to the booking of the payment; for a
    status other than success, paid or failed the update object is empty. *)
Definition bookingUpdates (status : string) : Booking.t -> Booking.t :=
  if (status === "success") || (status === "paid")
  then fun b => Booking.set_status "confirmed"
                  (Booking.set_paymentStatus "paid" b)
  else if status === "failed"
  then Booking.set_paymentStatus "failed"
  else fun b => b.

(** Whether [bookingUpdates] has a field. *)
Definition syncs (status : string) : bool :=
  (status === "success") || (status === "paid") || (status === "failed").

(** PUT /:id, the body carrying [status]. An update object without fields
    is rejected by [update]. *)
Definition put_payment (e : Env) (id : DocId) (status : option string)
  : Handler Response :=
  try_catch
    (if negb (truthy status)
     then ret (mkResponse 400 (Json [("error", JStr "Status is required")]))
     else
       let status := or_else status "" in
       paymentRef <- doc_ref id ;;
       paymentDoc <- snapshot (fun s => doc_get (payments s) paymentRef) ;;
       match paymentDoc with
       | None => ret (mkResponse 404 (Json [("error", JStr "Payment not found")]))
       | Some data =>
           commit
             [ UpdatePayment paymentRef
                 (fun p =>
                    Payment.set_updatedAt (Some (serverTime e))
                      (Payment.set_status status p)) ] ;;;
           (let bookingId := Payment.bookingId data in
            if negb (bookingId === "")
            then
              if syncs status
              then commit [ UpdateBooking bookingId (bookingUpdates status) ]
              else throw "INVALID_ARGUMENT"
            else ret tt) ;;;
           ret (mkResponse 200
                  (Json [("success", JBool true);
                         ("message", JStr "Payment status updated")]))
       end)
    (fun err => ret (mkResponse 500 (Json [("error", JStr err)]))).

Record InitiateBody := mkInitiateBody {
  bookingId : option string;
  phoneNumber : option string;
  amount : option Z
}.

(** POST /initiate *)
Definition initiate (e : Env) (req : InitiateBody) : Handler Response :=
  try_catch
    (match bookingId req, amount req with
     | Some bid, Some amt =>
         if (bid === "") || negb (truthy (phoneNumber req)) || (amt =? 0)
         then ret (mkResponse 400 (Json [("error", JStr "Missing details")]))
         else
           let formattedPhone := formatMsisdn (phoneNumber req) in
           let internalReference := generateReference e in
           let paymentData :=
             Payment.mk bid (uid e) amt "UGX" (Some "mobile_money")
               formattedPhone "pending" internalReference None
               (serverTime e) None None None in
           commit [ AddPayment (paymentDocId e) paymentData ] ;;;
           if gatewayAccepts e
           then ret (mkResponse 200
                       (Json [("success", JBool true);
                              ("message", JStr "Payment prompt sent")]))
           else
             commit
               [ UpdatePayment (paymentDocId e)
                   (fun p =>
                      Payment.set_failureReason (Some "API Call Failed")
                        (Payment.set_status "failed" p)) ] ;;;
             ret (mkResponse 502
                    (Json [("error",
                            JStr "Failed to trigger mobile money prompt")]))
     | _, _ => ret (mkResponse 400 (Json [("error", JStr "Missing details")]))
     end)
    (fun err => ret (mkResponse 500 (Json [("error", JStr err)]))).

End Payments.

(** ** The bookings router *)

Definition MS_PER_DAY : Z := 1000 * 60 * 60 * 24.

(** [Math.ceil(a / b)] for a positive [b]. *)
Definition ceil_div (a b : Z) : Z := - ((- a) / b).

Definition calculateTotalPrice (pricePerNight : Z) (checkIn checkOut : Instant)
  : Z :=
  if pricePerNight =? 0 then 0
  else
    let diffTime := checkOut - checkIn in
    let diffNights := ceil_div diffTime MS_PER_DAY in
    pricePerNight * (if diffNights >? 0 then diffNights else 1).

(** [if (v) updates.field = v] for a string field. *)
Definition assign_str {B} (v : option string) (set : string -> B -> B)
  : B -> B :=
  if truthy v then set (or_else v "") else fun b => b.

(** The same for a field stored as optional. *)
Definition assign_opt {A B} (v : option A) (set : option A -> B -> B)
  : B -> B :=
  match v with
  | Some _ => set v
  | None => fun b => b
  end.

(** [Timestamp.fromDate(new Date(d))] under [if (d)]: an invalid date is
    rejected by the timestamp constructor. *)
Definition fromDate (d : DateField) : Handler (option Instant) :=
  match d with
  | Absent => ret None
  | Unparsable => throw "INVALID_ARGUMENT"
  | Parsed ms => ret (Some ms)
  end.

(** The overlap checker. *)

Definition blocking_status (s : string) : bool :=
  (s === "confirmed") || (s === "pending").

(** The body of the [for] loop over [snapshot.docs]. *)
Fixpoint scan_overlap (docs : Coll Booking.t) (newStart newEnd : Instant)
         (excludeBookingId : option DocId) : bool :=
  match docs with
  | [] => true
  | (id, data) :: rest =>
      if truthy excludeBookingId && is_str excludeBookingId id
      then scan_overlap rest newStart newEnd excludeBookingId
      else
        let existingStart := Booking.checkIn data in
        let existingEnd := Booking.checkOut data in
        if (newStart <? existingEnd) && (newEnd >? existingStart)
        then false
        else scan_overlap rest newStart newEnd excludeBookingId
  end.

Definition checkAvailability (bookings : Coll Booking.t) (roomId : DocId)
           (checkIn checkOut : Instant) (excludeBookingId : option DocId)
  : bool :=
  let snapshot :=
    filter (fun d => (Booking.roomId (snd d) === roomId)
                     && blocking_status (Booking.status (snd d)))
           bookings in
  scan_overlap snapshot checkIn checkOut excludeBookingId.

Module Bookings.

Record CreateBody := mkCreateBody {
  roomId : option string;
  checkIn : DateField;
  checkOut : DateField;
  guestName : option string;
  guestPhone : option string;
  guestEmail : option string;
  guests : option Z;
  status : option string;
  paymentMethod : option string;
  paymentStatus : option string;
  receivedBy : option string;
  paymentPhone : option string
}.

Definition error (c : Z) (msg : string) : Response :=
  mkResponse c (Json [("error", JStr msg)]).

(** POST /. The booking document takes [guestName] and the payment
    document takes [paymentMethod] (as [provider]) as the request has
    them. *)
Definition post_booking (e : Env) (req : CreateBody) : Handler Response :=
  try_catch
    (match getTime (checkIn req), getTime (checkOut req) with
     | Some start, Some end_ =>
         if start >=? end_
         then ret (error 400 "Check-out must be after check-in")
         else if is_str (paymentMethod req) "Cash"
                 && negb (truthy (receivedBy req))
         then ret (error 400 ("Cash payment requires " +++ dquote +++ "receivedBy"
                            +++ dquote +++ " staff."))
         else
           roomRef <- doc_ref (or_else (roomId req) "") ;;
           roomDoc <- snapshot (fun s => doc_get (rooms s) roomRef) ;;
           match roomDoc with
           | None => ret (error 404 "Room not found")
           | Some roomData =>
               isAvailable <-
                 snapshot (fun s =>
                   checkAvailability (bookings s) roomRef start end_ None) ;;
               if negb isAvailable
               then ret (error 409 "Room is unavailable")
               else
                 userId <- await (resolvedUser e) ;;
                 let totalPrice :=
                   calculateTotalPrice (Room.price roomData) start end_ in
                 let formattedPaymentPhone :=
                   if is_str (paymentMethod req) "Mobile Money"
                   then formatPhoneNumber (paymentPhone req)
                   else None in
                 let newBooking :=
                   Booking.mk roomRef userId (guestName req)
                     (formatPhoneNumber (guestPhone req))
                     (or_else (guestEmail req) "")
                     (match guests req with
                      | Some 0 | None => 1
                      | Some n => n
                      end)
                     start end_ totalPrice
                     (or_else (status req) "pending")
                     (or_else (paymentStatus req) "unpaid")
                     (or_else (paymentMethod req) "Mobile Money")
                     formattedPaymentPhone
                     (if is_str (paymentMethod req) "Cash"
                      then receivedBy req else None)
                     (serverTime e) (uid e) None in
                 stored (guestName req) ;;;
                 commit [ AddBooking (bookingDocId e) newBooking ] ;;;
                 let bookingId := bookingDocId e in
                 let myReference := generateReference e in
                 let paymentData :=
                   Payment.mk bookingId userId totalPrice "UGX"
                     (paymentMethod req)
                     (if truthy formattedPaymentPhone
                      then formattedPaymentPhone
                      else formatPhoneNumber (guestPhone req))
                     (or_else (paymentStatus req) "pending")
                     myReference None (serverTime e) None None None in
                 stored (paymentMethod req) ;;;
                 commit [ AddPayment (paymentDocId e) paymentData ] ;;;
                 let paymentMessage :=
                   if is_str (paymentMethod req) "Mobile Money"
                      && truthy formattedPaymentPhone
                   then
                     if gatewayAccepts e
                     then "Booking created. Payment prompt sent to phone."
                     else "Booking created, but payment prompt failed. Try manually."
                   else "Booking created successfully." in
                 ret (mkResponse 201
                        (Json [("success", JBool true);
                               ("id", JStr bookingId);
                               ("message", JStr paymentMessage)]))
           end
     | _, _ => ret (error 400 "Invalid dates")
     end)
    (fun err => ret (error 500 err)).

Record UpdateBody := mkUpdateBody {
  u_roomId : option string;
  u_checkIn : DateField;
  u_checkOut : DateField;
  u_guestName : option string;
  u_guestPhone : option string;
  u_status : option string;
  u_paymentMethod : option string;
  u_paymentStatus : option string;
  u_receivedBy : option string;
  u_paymentPhone : option string
}.

(** The [updates] object of PUT /:id, as the fields it overwrites. *)
Definition updates (e : Env) (req : UpdateBody) (start end_ : option Instant)
  : Booking.t -> Booking.t :=
  fun b =>
    (if truthy (u_paymentPhone req)
     then Booking.set_paymentPhone (formatPhoneNumber (u_paymentPhone req))
     else fun b => b)
      (assign_opt (u_receivedBy req) Booking.set_receivedBy
         (assign_str (u_paymentStatus req) Booking.set_paymentStatus
            (assign_str (u_paymentMethod req) Booking.set_paymentMethod
               (assign_str (u_roomId req) Booking.set_roomId
                  (assign_str (u_status req) Booking.set_status
                     ((if truthy (u_guestPhone req)
                       then Booking.set_guestPhone
                              (formatPhoneNumber (u_guestPhone req))
                       else fun b => b)
                        (assign_str (u_guestName req)
                                    (fun v => Booking.set_guestName (Some v))
                           (match end_ with
                            | Some v => Booking.set_checkOut v
                            | None => fun b => b
                            end
                              (match start with
                               | Some v => Booking.set_checkIn v
                               | None => fun b => b
                               end
                                 (Booking.set_updatedAt
                                    (Some (serverTime e)) b)))))))))).

(** PUT /:id *)
Definition put_booking (e : Env) (id : DocId) (req : UpdateBody)
  : Handler Response :=
  try_catch
    (start <- fromDate (u_checkIn req) ;;
     end_ <- fromDate (u_checkOut req) ;;
     isAvailable <-
       (if truthy (u_roomId req) || given (u_checkIn req)
           || given (u_checkOut req)
        then
          match start, end_ with
          | Some st, Some en =>
              if truthy (u_roomId req)
              then snapshot (fun s =>
                     checkAvailability (bookings s)
                       (or_else (u_roomId req) "") st en (Some id))
              else ret true
          | _, _ => ret true
          end
        else ret true) ;;
     if negb isAvailable
     then ret (error 409 "Room is unavailable")
     else
       bookingRef <- doc_ref id ;;
       commit [ UpdateBooking bookingRef (updates e req start end_) ] ;;;
       ret (mkResponse 200 (Json [("success", JBool true)])))
    (fun err => ret (error 500 err)).

End Bookings.

(** ** The availability search of [routes/availability.js] *)

(** The search takes its database from the server module,
    [const { db, admin } = require('../server')], and [server.js] ends in
    [module.exports = { app }], its own Firestore set-up being commented
    out: in [routes/availability.js] the name [db] is [undefined]. The
    routers of the bookings, the payments and the rooms read
    [../config/firebase] instead, which exports a client. *)
Module Server.
Inductive Firestore := Client.
Definition db : option Firestore := None.
End Server.

(** [db.collection(...)...get()] through the name [db] of a module: the
    read of the store, or the [TypeError] of a property access on
    [undefined]. *)
Definition query {A} (db : option Server.Firestore) (q : Store -> A)
  : Handler A :=
  match db with
  | Some _ => snapshot q
  | None => throw "TypeError"
  end.

Module Availability.

Record SearchBody := mkSearchBody {
  checkIn : DateField;
  checkOut : DateField;
  guests : option Z
}.

(** Comparisons of two dates, either of which may be invalid (NaN): every
    comparison with an invalid date is false. *)
Definition date_lt (a b : option Instant) : bool :=
  match a, b with
  | Some x, Some y => x <? y
  | _, _ => false
  end.

Definition date_le (a b : option Instant) : bool :=
  match a, b with
  | Some x, Some y => x <=? y
  | _, _ => false
  end.

(** The date overlap test of the search, against one stored booking. *)
Definition overlaps (checkInDate checkOutDate : option Instant)
           (booking : Booking.t) : bool :=
  let bookingCheckIn := Some (Booking.checkIn booking) in
  let bookingCheckOut := Some (Booking.checkOut booking) in
  (date_le bookingCheckIn checkInDate && date_lt checkInDate bookingCheckOut)
  || (date_lt bookingCheckIn checkOutDate
      && date_le checkOutDate bookingCheckOut)
  || (date_le checkInDate bookingCheckIn
      && date_le bookingCheckOut checkOutDate).

Definition failure (c : Z) (msg code_ : string) : Response :=
  mkResponse c (Json [("success", JBool false); ("message", JStr msg);
                      ("data", JNull); ("error", JStr code_)]).

(** The ids of the rooms that the search takes as booked. *)
Definition bookedRoomIds (s : Store) (roomIds : list DocId)
           (checkInDate checkOutDate : option Instant) : list DocId :=
  let bookingsSnapshot :=
    filter (fun d => (Booking.status (snd d) === "confirmed")
                     && existsb (String.eqb (Booking.roomId (snd d))) roomIds)
           (bookings s) in
  map (fun d => Booking.roomId (snd d))
      (filter (fun d => overlaps checkInDate checkOutDate (snd d))
              bookingsSnapshot).

(** [roomData.capacity >= guests] under [!guests ||]. *)
Definition fits (guests : option Z) (room : Room.t) : bool :=
  match guests with
  | None | Some 0 => true
  | Some g => date_le (Some g) (Room.capacity room)
  end.

(** POST / *)
Definition search (e : Env) (req : SearchBody) : Handler Response :=
  try_catch
    (if negb (given (checkIn req)) || negb (given (checkOut req))
     then ret (failure 400 "Check-in and check-out dates are required"
                       "VALIDATION_ERROR")
     else
       let checkInDate := getTime (checkIn req) in
       let checkOutDate := getTime (checkOut req) in
       if date_lt checkInDate (Some (today e))
       then ret (failure 400 "Check-in date cannot be in the past"
                         "INVALID_CHECKIN")
       else if date_le checkOutDate checkInDate
       then ret (failure 400 "Check-out date must be after check-in date"
                         "INVALID_CHECKOUT")
       else
         roomsSnapshot <-
           query Server.db (fun s =>
             filter (fun d => match Room.isActive (snd d) with
                              | Some true => true
                              | _ => false
                              end) (rooms s)) ;;
         match roomsSnapshot with
         | [] => ret (mkResponse 200 (Search "No rooms available" []))
         | _ =>
             let roomIds := map fst roomsSnapshot in
             booked <-
               query Server.db (fun s =>
                 bookedRoomIds s roomIds checkInDate checkOutDate) ;;
             let nights :=
               match checkInDate, checkOutDate with
               | Some i, Some o => Some (ceil_div (o - i) MS_PER_DAY)
               | _, _ => None
               end in
             let availableRooms :=
               map (fun d =>
                      mkAvailableRoom (fst d) (snd d)
                        (match Room.pricePerNight (snd d), nights with
                         | Some p, Some n => Some (p * n)
                         | _, _ => None
                         end)
                        nights)
                   (filter (fun d => negb (existsb (String.eqb (fst d)) booked)
                                     && fits (guests req) (snd d))
                           roomsSnapshot) in
             ret (mkResponse 200
                    (Search ("Found "
                             +++ string_of_Z (Z.of_nat (List.length availableRooms))
                             +++ " available room(s)")
                            availableRooms))
         end)
    (fun _ => ret (failure 500 "Failed to check availability"
                           "AVAILABILITY_CHECK_FAILED")).

(** Whether a search response lists the room [id] among the available
    rooms. *)
Definition lists_room (r : outcome Response) (id : DocId) : bool :=
  match r with
  | Done (mkResponse 200 (Search _ found)) =>
      existsb (fun a => ar_id a === id) found
  | _ => false
  end.

End Availability.

(** ** The rooms router *)

Module Rooms.

Record UpdateBody := mkUpdateBody {
  roomNumber : option string;
  type : option string;
  price : option Z;
  status : option string;
  amenities : option (list string);
  description : option string
}.

Definition failure (c : Z) (msg : string) : Response :=
  mkResponse c (Json [("success", JBool false); ("message", JStr msg)]).

(** The fields of [cleanUpdates]. *)
Definition cleanUpdates (e : Env) (req : UpdateBody) : Room.t -> Room.t :=
  fun r =>
    Room.set_updated (Some (serverTime e)) (Some (uid e))
      (assign_str (description req) Room.set_description
         (match amenities req with
          | Some a => Room.set_amenities a
          | None => fun r => r
          end
            (assign_str (status req) Room.set_status
               (match price req with
                | Some 0 | None => fun r => r
                | Some p => Room.set_price p
                end
                  (assign_str (type req) Room.set_type
                     (assign_str (roomNumber req) Room.set_roomNumber r)))))).

(** The bookings of room [id] that the forced end queries: pending or
    confirmed, with a check-out after [now]. *)
Definition activeBookings (id : DocId) (now_ : Instant) (s : Store)
  : Coll Booking.t :=
  filter (fun d => (Booking.roomId (snd d) === id)
                   && blocking_status (Booking.status (snd d))
                   && (Booking.checkOut (snd d) >? now_))
         (bookings s).

(** The fields written to a booking that is ended by force. *)
Definition endNow (e : Env) : Booking.t -> Booking.t :=
  fun b => Booking.set_updatedAt (Some (serverTime e))
             (Booking.set_checkOut (now e) b).

(** The batch of the forced end: one update per queried booking that has
    started. *)
Definition forceEndBatch (e : Env) (active : Coll Booking.t) : list Write :=
  map (fun d => UpdateBooking (fst d) (endNow e))
      (filter (fun d => Booking.checkIn (snd d) <=? now e) active).

(** The check for another room with the requested number. *)
Definition duplicateNumber (req : UpdateBody) (room : Room.t) (s : Store)
  : bool :=
  truthy (roomNumber req)
  && negb (or_else (roomNumber req) EmptyString === Room.roomNumber room)
  && existsb (fun d => Room.roomNumber (snd d)
                       === or_else (roomNumber req) EmptyString)
             (rooms s).

Definition updated : Response :=
  mkResponse 200 (Json [("success", JBool true);
                        ("message", JStr "Room updated successfully")]).

(** PUT /:id *)
Definition put_room (e : Env) (id : DocId) (req : UpdateBody)
  : Handler Response :=
  try_catch
    (roomRef <- doc_ref id ;;
     roomDoc <- snapshot (fun s => doc_get (rooms s) roomRef) ;;
     match roomDoc with
     | None => ret (failure 404 "Room not found")
     | Some room =>
         duplicate <- snapshot (duplicateNumber req room) ;;
         if duplicate
         then ret (failure 409 ("Room " +++ or_else (roomNumber req) EmptyString
                                +++ " already exists."))
         else
           (if is_str (status req) "Available"
               || is_str (status req) "Maintenance"
            then
              active <- snapshot (activeBookings roomRef (now e)) ;;
              let batch := forceEndBatch e active in
              if (0 <? Z.of_nat (List.length batch))
              then commit batch
              else ret tt
            else ret tt) ;;;
           commit [ UpdateRoom roomRef (cleanUpdates e req) ] ;;;
           ret updated
     end)
    (fun err => ret (mkResponse 500 (Json [("success", JBool false);
                                           ("error", JStr err)]))).

(** A booking of room [id] that is in progress at the instant [t]: pending
    or confirmed, with check-in <= t < check-out. *)
Definition in_progress (id : DocId) (t : Instant) (b : Booking.t) : bool :=
  (Booking.roomId b === id)
  && blocking_status (Booking.status b)
  && (Booking.checkIn b <=? t)
  && (t <? Booking.checkOut b).

(** The forced end as one pass over the bookings: those in progress are
    ended now, the others are kept. *)
Definition force_end (e : Env) (id : DocId) (d : DocId * Booking.t)
  : DocId * Booking.t :=
  if in_progress id (now e) (snd d) then (fst d, endNow e (snd d)) else d.

End Rooms.

(** ** Views of the store used in the statements *)

(** The store with the times written by a payment confirmation erased: the
    [paidAt] of every payment and the [updatedAt] of every booking. *)
Definition without_times (s : Store) : Store :=
  mkStore (rooms s)
          (map (fun d => (fst d, Booking.set_updatedAt None (snd d)))
               (bookings s))
          (map (fun d => (fst d, Payment.set_paidAt None (snd d)))
               (payments s)).

(** The status of the payment [id], when it exists. *)
Definition payment_status (s : Store) (id : DocId) : option string :=
  option_map Payment.status (doc_get (payments s) id).

(** The lifecycle and payment status of the booking [id]. *)
Definition booking_status (s : Store) (id : DocId)
  : option (string * string) :=
  option_map (fun b => (Booking.status b, Booking.paymentStatus b))
             (doc_get (bookings s) id).

(** The stay of the booking [id]: its check-in and check-out. *)
Definition booking_stay (s : Store) (id : DocId)
  : option (Instant * Instant) :=
  option_map (fun b => (Booking.checkIn b, Booking.checkOut b))
             (doc_get (bookings s) id).

(** The manual status of the room [id]. *)
Definition room_status (s : Store) (id : DocId) : option string :=
  option_map Room.status (doc_get (rooms s) id).

(** ** A concrete hotel, for the examples *)

Module Scenario.

(** Midnight UTC of day [d] of January 2025. *)
Definition jan (d : Z) : Instant := 1735689600000 + (d - 1) * MS_PER_DAY.

Definition room101 : Room.t :=
  Room.mk "101" "Deluxe" 100 "Available" ["wifi"] "Sea view"
          (Some true) (Some 2) (Some 100) None None.

Definition stay (roomId status paymentStatus : string) (from to : Instant)
  : Booking.t :=
  Booking.mk roomId "u1" (Some "Ada") (Some "+256700000001") "ada@example.com"
             2 from to 200 status paymentStatus "Mobile Money"
             (Some "+256700000001") None (jan 1) "u1" None.

Definition charge (bookingId status reference : string) : Payment.t :=
  Payment.mk bookingId "u1" 200 "UGX" (Some "Mobile Money")
             (Some "+256700000001") status reference None (jan 1)
             None None None.

(** A request made at the instant [t] by the administrator. *)
Definition env (t : Instant) (accepts : bool) : Env :=
  mkEnv "admin1" t (t - t mod MS_PER_DAY) t 7 "b9" "p9" (Done "u1") accepts.

(** Room 101 with nothing booked. *)
Definition empty_hotel : Store := mkStore [("r1", room101)] [] [].

(** Room 101 with one pending, unpaid booking for [Jan 10, Jan 12) and its
    pending payment. *)
Definition one_pending : Store :=
  mkStore [("r1", room101)]
          [("b1", stay "r1" "pending" "unpaid" (jan 10) (jan 12))]
          [("p1", charge "b1" "pending" "TX-1-1")].

(** Room 101 with two back-to-back pending bookings. *)
Definition back_to_back : Store :=
  mkStore [("r1", room101)]
          [("b1", stay "r1" "pending" "unpaid" (jan 10) (jan 12));
           ("b2", stay "r1" "confirmed" "paid" (jan 12) (jan 14))]
          [].

Definition success_delivery : Payments.WebhookBody :=
  Payments.mkWebhookBody (Some "success") (Some "TX-1-1") (Some "MTN-77")
                         (Some "Paid").

Definition failed_delivery : Payments.WebhookBody :=
  Payments.mkWebhookBody (Some "failed") (Some "TX-1-1") (Some "MTN-77")
                         (Some "Insufficient funds").

Definition unknown_delivery : Payments.WebhookBody :=
  Payments.mkWebhookBody (Some "success") (Some "TX-0-0") (Some "MTN-78")
                         (Some "Paid").

Definition no_reference_delivery : Payments.WebhookBody :=
  Payments.mkWebhookBody (Some "success") None (Some "MTN-79") (Some "Paid").

(** A reservation of room 101 for [Jan 10, Jan 12), paid by mobile money,
    with no status in the request. *)
Definition reservation : Bookings.CreateBody :=
  Bookings.mkCreateBody (Some "r1") (Parsed (jan 10)) (Parsed (jan 12))
    (Some "Ada") (Some "0700000001") (Some "ada@example.com") (Some 2)
    None (Some "Mobile Money") None None (Some "0700000001").

Definition search_for (from to : Instant) : Availability.SearchBody :=
  Availability.mkSearchBody (Parsed from) (Parsed to) (Some 2).

(** The confirmation of the payment that [reservation] creates at
    [env (jan 6)]. *)
Definition reservation_paid : Payments.WebhookBody :=
  Payments.mkWebhookBody (Some "success") (Some "TX-1736121600000-7")
                         (Some "MTN-80") (Some "Paid").

(** An edit of a booking that names the room and a new check-out only. *)
Definition extend_to (to : Instant) : Bookings.UpdateBody :=
  Bookings.mkUpdateBody (Some "r1") Absent (Parsed to)
                        None None None None None None None.

(** The same edit with the check-in repeated. *)
Definition move_to (from to : Instant) : Bookings.UpdateBody :=
  Bookings.mkUpdateBody (Some "r1") (Parsed from) (Parsed to)
                        None None None None None None None.

Definition retry : Payments.InitiateBody :=
  Payments.mkInitiateBody (Some "b1") (Some "0700000001") (Some 200).

(** Room 101 on Jan 6 at noon, with a confirmed stay in progress, a later
    pending booking, a cancelled booking over the same days, and a stay in
    progress in another room. *)
Definition noon_jan_6 : Instant := jan 6 + 12 * 60 * 60 * 1000.

Definition mid_stay : Store :=
  mkStore [("r1", room101)]
          [("b1", stay "r1" "confirmed" "paid" (jan 5) (jan 8));
           ("b2", stay "r1" "pending" "unpaid" (jan 10) (jan 12));
           ("b3", stay "r1" "cancelled" "unpaid" (jan 5) (jan 8));
           ("b4", stay "r2" "confirmed" "paid" (jan 5) (jan 8))]
          [].

Definition to_maintenance : Rooms.UpdateBody :=
  Rooms.mkUpdateBody None None None (Some "Maintenance") None None.

End Scenario.

(** ** Further routes of the same routers *)

(** POST /bookings/:id/cancel, for a caller with the role claim [role]. *)
Definition cancel_booking (e : Env) (role : option string) (id : DocId)
  : Handler Response :=
  try_catch
    (bookingRef <- doc_ref id ;;
     booking <- snapshot (fun s => doc_get (bookings s) bookingRef) ;;
     match booking with
     | None => ret (Bookings.error 404 "Booking not found")
     | Some data =>
         if negb (is_str role "admin") && negb (is_str role "manager")
            && negb (Booking.userId data === uid e)
         then ret (Bookings.error 403 "Unauthorized")
         else
           commit [ UpdateBooking bookingRef
                      (fun b => Booking.set_updatedAt (Some (serverTime e))
                                  (Booking.set_status "cancelled" b)) ] ;;;
           ret (mkResponse 200 (Json [("success", JBool true)]))
     end)
    (fun err => ret (Bookings.error 500 err)).

(** [orderBy('checkIn', 'asc')]: a stable sort of the matching documents by
    check-in. *)
Fixpoint insert_by_checkIn (d : DocId * Booking.t) (l : Coll Booking.t)
  : Coll Booking.t :=
  match l with
  | [] => [d]
  | x :: rest =>
      if Booking.checkIn (snd d) <=? Booking.checkIn (snd x)
      then d :: l
      else x :: insert_by_checkIn d rest
  end.

Definition orderBy_checkIn (l : Coll Booking.t) : Coll Booking.t :=
  fold_right insert_by_checkIn [] l.

(** The answer of GET /rooms/:id: the room with its status as reported and
    the instant at which it is next available, if any. *)
Inductive RoomAnswer :=
| RoomFound (id : DocId) (data : Room.t) (nextAvailable : option Instant)
| RoomNotFound
| RoomError (e : string).

(** GET /rooms/:id *)
Definition get_room (e : Env) (id : DocId) : Handler RoomAnswer :=
  try_catch
    (roomRef <- doc_ref id ;;
     roomDoc <- snapshot (fun s => doc_get (rooms s) roomRef) ;;
     match roomDoc with
     | None => ret RoomNotFound
     | Some roomData =>
         bookingsSnapshot <-
           snapshot (fun s =>
             orderBy_checkIn (Rooms.activeBookings roomRef (now e) s)) ;;
         if negb (Room.status roomData === "Maintenance")
         then
           match find (fun d => (Booking.checkIn (snd d) <=? now e)
                                && (now e <? Booking.checkOut (snd d)))
                      bookingsSnapshot with
           | Some d =>
               ret (RoomFound roomRef (Room.set_status "Occupied" roomData)
                              (Some (Booking.checkOut (snd d))))
           | None =>
               ret (RoomFound roomRef (Room.set_status "Available" roomData)
                              None)
           end
         else ret (RoomFound roomRef roomData None)
     end)
    (fun err => ret (RoomError err)).

(** [doc(id).delete()] on the rooms: one commit, whether or not the
    document exists. *)
Definition delete_room_doc (id : DocId) : Handler unit :=
  fun w =>
    let s := current w in
    let s' := mkStore (filter (fun d => negb (fst d === id)) (rooms s))
                      (bookings s) (payments s) in
    (Done tt, mkWorld s' (s' :: committed w)).

(** DELETE /rooms/:id *)
Definition delete_room (id : DocId) : Handler Response :=
  try_catch
    (roomRef <- doc_ref id ;;
     roomDoc <- snapshot (fun s => doc_get (rooms s) roomRef) ;;
     match roomDoc with
     | None => ret (Rooms.failure 404 "Room not found")
     | Some _ =>
         delete_room_doc roomRef ;;;
         ret (mkResponse 200
                (Json [("success", JBool true);
                       ("message", JStr "Room deleted successfully")]))
     end)
    (fun err => ret (mkResponse 500 (Json [("success", JBool false);
                                           ("error", JStr err)]))).

(** ** The user lookup of [routes/bookings.js] *)

Module Users.

Record t := mk {
  name : option string;
  email : option string;
  phoneNumber : option string;
  role : string;
  createdAt : Instant
}.

(** What the identity provider does when asked to create the account:
    [createUser] creates the account [uid] and [setCustomUserClaims]
    accepts its role; or the account is created and the role refused; or
    [createUser] fails because the phone number or the email belongs to
    the account that the lookup by that key then returns; or it fails
    otherwise. *)
Inductive createUser :=
| Created (uid : string)
| ClaimsRefused (uid : string) (e : string)
| PhoneNumberExists (uid : string)
| EmailExists (uid : string)
| Failed (e : string).

(** [where(field, '==', v).limit(1)] on the users. *)
Definition first_with (key : t -> option string) (v : string)
           (users : Coll t) : option DocId :=
  option_map fst
    (find (fun d => match key (snd d) with
                    | Some x => x === v
                    | None => false
                    end) users).

(** [doc(uid).set(data)]: the document is created or replaced. *)
Fixpoint doc_put (users : Coll t) (uid : DocId) (data : t) : Coll t :=
  match users with
  | [] => [(uid, data)]
  | (i, x) :: rest =>
      if i === uid then (i, data) :: rest
      else (i, x) :: doc_put rest uid data
  end.

(** [findOrCreateUser]: the uid or the error thrown, and the users after
    the call. The user document takes [name] as the caller gave it: an
    [undefined] name makes [set] throw, after the account was created, and
    the [catch] rethrows what is no error of the identity provider. *)
Definition findOrCreateUser (auth : createUser) (serverTime : Instant)
           (users : Coll t) (name phone email : option string)
  : outcome string * Coll t :=
  let formattedPhone := formatPhoneNumber phone in
  match (if truthy formattedPhone
         then first_with phoneNumber (or_else formattedPhone EmptyString)
                         users
         else None) with
  | Some id => (Done id, users)
  | None =>
      match (if truthy email
             then first_with Users.email (or_else email EmptyString) users
             else None) with
      | Some id => (Done id, users)
      | None =>
          match auth with
          | Created uid =>
              match name with
              | Some _ =>
                  (Done uid,
                   doc_put users uid
                     (mk name (if truthy email then email else None)
                         formattedPhone "customer" serverTime))
              | None => (Thrown "INVALID_ARGUMENT", users)
              end
          | ClaimsRefused uid err =>
              match name with
              | Some _ =>
                  (Thrown err,
                   doc_put users uid
                     (mk name (if truthy email then email else None)
                         formattedPhone "customer" serverTime))
              | None => (Thrown "INVALID_ARGUMENT", users)
              end
          | PhoneNumberExists uid => (Done uid, users)
          | EmailExists uid => (Done uid, users)
          | Failed err => (Thrown err, users)
          end
      end
  end.

End Users.

(** ** Predicates of the statements *)

(** A string in which [strip_phone] finds nothing to remove. *)
Fixpoint unseparated (s : string) : bool :=
  match s with
  | EmptyString => true
  | String c r =>
      negb (is_space c || Ascii.eqb c "-" || Ascii.eqb c "(" || Ascii.eqb c ")")
      && unseparated r
  end.

(** A list of bookings in which no booking checks in before an earlier
    one. *)
Fixpoint by_checkIn (l : Coll Booking.t) : Prop :=
  match l with
  | [] => True
  | x :: rest =>
      (forall y, In y rest ->
                 Booking.checkIn (snd x) <= Booking.checkIn (snd y))
      /\ by_checkIn rest
  end.

(** ** The booking invariant *)

(** Two stays overlap when each starts before the other ends. *)
Definition overlap (a b : Booking.t) : Prop :=
  Booking.checkIn a < Booking.checkOut b
  /\ Booking.checkOut a > Booking.checkIn b.

(** No two pending or confirmed bookings of one room overlap. *)
Definition no_double_booking (c : Coll Booking.t) : Prop :=
  forall i j a b,
    In (i, a) c -> In (j, b) c -> i <> j ->
    Booking.roomId a = Booking.roomId b ->
    blocking_status (Booking.status a) = true ->
    blocking_status (Booking.status b) = true ->
    ~ overlap a b.

(** No two rooms carry the same room number. *)
Definition unique_room_numbers (c : Coll Room.t) : Prop :=
  forall i j a b,
    In (i, a) c -> In (j, b) c -> i <> j ->
    Room.roomNumber a <> Room.roomNumber b.

(** The ids and references of the payments, in order. *)
Definition references (s : Store) : list (DocId * string) :=
  map (fun d => (fst d, Payment.customer_reference (snd d))) (payments s).

(** The integers that a JavaScript number holds exactly, every integer
    between them included: as long as the operands and the result of a sum,
    a difference or a product stay in this range, nothing is rounded. *)
Definition exact (z : Z) : Prop := Z.abs z <= 2 ^ 53.

(** The HTTP status of an answer, 0 for an escaped exception. *)
Definition code_of (r : outcome Response) : Z :=
  match r with
  | Done r => code r
  | Thrown _ => 0
  end.

(** ** Further stores, for the examples *)

Module Examples.

(** A payment whose booking is not in the store. *)
Definition orphan_payment : Store :=
  mkStore [("r1", Scenario.room101)] []
          [("p1", Scenario.charge "b1" "pending" "TX-1-1")].

Definition to_available : Rooms.UpdateBody :=
  Rooms.mkUpdateBody None None None (Some "Available") None None.

Definition to_occupied : Rooms.UpdateBody :=
  Rooms.mkUpdateBody (Some "102") None (Some 120) (Some "Occupied") None None.

(** Rooms 101 and 102. *)
Definition room102 : Room.t :=
  Room.mk "102" "Standard" 80 "Available" ["wifi"] "Garden view"
          (Some true) (Some 2) (Some 80) None None.

Definition two_rooms : Store :=
  mkStore [("r1", Scenario.room101); ("r2", room102)] [] [].

(** A request that gives a room the number 103. *)
Definition renumber : Rooms.UpdateBody :=
  Rooms.mkUpdateBody (Some "103") None None None None None.

(** A reservation of room 101 for [Jan 14, Jan 16), right after the stays
    of [Scenario.back_to_back]. *)
Definition later_reservation : Bookings.CreateBody :=
  Bookings.mkCreateBody (Some "r1") (Parsed (Scenario.jan 14))
    (Parsed (Scenario.jan 16))
    (Some "Bob") (Some "0700000002") (Some "bob@example.com") (Some 1)
    None (Some "Mobile Money") None None (Some "0700000002").


(** Deliveries that lack the field their branch stores. *)
Definition success_without_transaction : Payments.WebhookBody :=
  Payments.mkWebhookBody (Some "success") (Some "TX-1-1") None (Some "Paid").

Definition failed_without_message : Payments.WebhookBody :=
  Payments.mkWebhookBody (Some "failed") (Some "TX-1-1") (Some "MTN-77") None.

(** The users before Bob books. *)
Definition one_user : Coll Users.t :=
  [("u1", Users.mk (Some "Ada") (Some "ada@example.com")
                   (Some "+256700000001") "customer" (Scenario.jan 1))].

End Examples.

(** * Properties *)

Unset Implicit Arguments.

(** ** Strings and truthiness *)

Lemma truthy_some (x : string) : truthy (Some x) = true <-> x <> "".
Proof.
  unfold truthy. destruct (String.eqb_spec x ""); simpl; split;
    congruence.
Qed.

Lemma or_else_some (x d : string) : x <> "" -> or_else (Some x) d = x.
Proof.
  intros H. unfold or_else. destruct (String.eqb_spec x ""); congruence.
Qed.

Lemma is_str_true (a : option string) (b : string) :
  is_str a b = true <-> a = Some b.
Proof.
  destruct a as [x|]; simpl.
  - rewrite String.eqb_eq. split; congruence.
  - split; discriminate.
Qed.

Lemma blocking_status_true (s : string) :
  blocking_status s = true <-> s = "pending" \/ s = "confirmed".
Proof.
  unfold blocking_status. rewrite orb_true_iff, !String.eqb_eq. tauto.
Qed.

(** ** The overlap checker *)

(** The exclusion test of the loop skips exactly the excluded id, for an
    exclusion that is absent or a proper id. *)
Lemma skip_iff (ex : option DocId) (id : DocId) :
  ex <> Some "" ->
  (truthy ex && is_str ex id = true <-> ex = Some id).
Proof.
  intros Hex. rewrite andb_true_iff, is_str_true. split.
  - tauto.
  - intros Heq. subst ex. split; [|reflexivity].
    apply truthy_some. intros Hid. apply Hex. now rewrite Hid.
Qed.

Lemma scan_overlap_false (docs : Coll Booking.t) (s e : Instant)
      (ex : option DocId) :
  ex <> Some "" ->
  (scan_overlap docs s e ex = false <->
   exists id b, In (id, b) docs /\ ex <> Some id
                /\ s < Booking.checkOut b /\ e > Booking.checkIn b).
Proof.
  intros Hex. induction docs as [|[id b] rest IH]; simpl.
  - split; [discriminate | intros (? & ? & [] & _)].
  - pose proof (skip_iff ex id Hex) as Hskip.
    destruct (truthy ex && is_str ex id) eqn:Eskip.
    + rewrite IH. split.
      * intros (i & b' & Hin & H). exists i, b'. tauto.
      * intros (i & b' & [Heq | Hin] & Hne & H).
        -- inversion Heq; subst. exfalso. apply Hne. now apply Hskip.
        -- exists i, b'. tauto.
    + destruct ((s <? Booking.checkOut b) && (e >? Booking.checkIn b))
        eqn:Eov.
      * split; [intros _ | reflexivity].
        apply andb_true_iff in Eov as [H1 H2].
        apply Z.ltb_lt in H1. apply Z.gtb_lt in H2.
        exists id, b. repeat split; auto; try lia.
        intros Heq. apply Hskip in Heq. discriminate.
      * rewrite IH. split.
        -- intros (i & b' & Hin & H). exists i, b'. tauto.
        -- intros (i & b' & [Heq | Hin] & Hne & H1 & H2).
           ++ inversion Heq; subst. exfalso.
              apply andb_false_iff in Eov as [H | H].
              ** apply Z.ltb_ge in H. lia.
              ** rewrite Z.gtb_ltb in H. apply Z.ltb_ge in H. lia.
           ++ exists i, b'. tauto.
Qed.

(** C2. [checkAvailability] answers false exactly when a pending or
    confirmed booking of the room, other than the excluded one, overlaps
    the candidate interval in the half-open sense; bookings that only touch
    the candidate at an endpoint leave the room available. *)
Theorem checkAvailability_false_iff_overlap
        (stored : Coll Booking.t) (roomId : DocId)
        (candidateStart candidateEnd : Instant)
        (excludeBookingId : option DocId) :
  excludeBookingId <> Some "" ->
  (checkAvailability stored roomId candidateStart candidateEnd
                     excludeBookingId = false
   <-> exists id b,
         In (id, b) stored
         /\ Booking.roomId b = roomId
         /\ (Booking.status b = "pending" \/ Booking.status b = "confirmed")
         /\ excludeBookingId <> Some id
         /\ candidateStart < Booking.checkOut b
         /\ candidateEnd > Booking.checkIn b)
  /\ ((forall id b, In (id, b) stored ->
         candidateStart = Booking.checkOut b
         \/ candidateEnd = Booking.checkIn b) ->
      checkAvailability stored roomId candidateStart candidateEnd
                        excludeBookingId = true).
Proof.
  intros Hex.
  assert (Hiff :
    checkAvailability stored roomId candidateStart candidateEnd
                      excludeBookingId = false
    <-> exists id b,
          In (id, b) stored
          /\ Booking.roomId b = roomId
          /\ (Booking.status b = "pending" \/ Booking.status b = "confirmed")
          /\ excludeBookingId <> Some id
          /\ candidateStart < Booking.checkOut b
          /\ candidateEnd > Booking.checkIn b).
  { unfold checkAvailability. rewrite (scan_overlap_false _ _ _ _ Hex). split.
    - intros (id & b & Hin & Hne & H1 & H2).
      apply filter_In in Hin as [Hin Hq]. simpl in Hq.
      apply andb_true_iff in Hq as [Hr Hs].
      apply String.eqb_eq in Hr. apply blocking_status_true in Hs.
      exists id, b. tauto.
    - intros (id & b & Hin & Hr & Hs & Hne & H1 & H2).
      exists id, b. repeat split; auto.
      apply filter_In. split; [assumption|]. simpl.
      apply andb_true_iff. split.
      + now apply String.eqb_eq.
      + now apply blocking_status_true. }
  split; [exact Hiff|].
  intros Htouch.
  apply not_false_is_true. intros E.
  apply Hiff in E as (id & b & Hin & _ & _ & _ & H1 & H2).
  destruct (Htouch id b Hin); lia.
Qed.

(** The theorem at the back-to-back bookings of room 101, editing the
    first of them. *)
Lemma checkAvailability_false_iff_overlap_witness :
  let stored := bookings Scenario.back_to_back in
  (checkAvailability stored "r1" (Scenario.jan 10) (Scenario.jan 13)
                     (Some "b1") = false
   <-> exists id b,
         In (id, b) stored
         /\ Booking.roomId b = "r1"
         /\ (Booking.status b = "pending" \/ Booking.status b = "confirmed")
         /\ Some "b1" <> Some id
         /\ Scenario.jan 10 < Booking.checkOut b
         /\ Scenario.jan 13 > Booking.checkIn b)
  /\ ((forall id b, In (id, b) stored ->
         Scenario.jan 10 = Booking.checkOut b
         \/ Scenario.jan 13 = Booking.checkIn b) ->
      checkAvailability stored "r1" (Scenario.jan 10) (Scenario.jan 13)
                        (Some "b1") = true).
Proof.
  apply (@checkAvailability_false_iff_overlap
           (bookings Scenario.back_to_back) "r1"
           (Scenario.jan 10) (Scenario.jan 13) (Some "b1")).
  discriminate.
Defined.

(** ** The webhook: unknown and missing references *)

(** Unfolding of the handler monad. *)
Ltac unfold_handler :=
  unfold result, final, observable;
  unfold run;
  unfold query, stored, await, doc_ref, try_catch, bind, snapshot, commit;
  unfold ret, throw;
  cbn [current committed fst snd].

(** What one delivery does, by cases on the request and the store. *)
Lemma webhook_run (e : Env) (req : Payments.WebhookBody) (s : Store) :
  run (Payments.webhook e req) s =
  if negb (truthy (Payments.customer_reference req))
  then (Done (mkResponse 400 (Text "Missing Ref")), mkWorld s [])
  else
    match Payments.find_by_reference
            (or_else (Payments.customer_reference req) EmptyString) s with
    | [] => (Done (mkResponse 200 (Text "OK")), mkWorld s [])
    | (doc_id, data) :: _ =>
        let writes :=
          if Payments.is_success (Payments.status req)
          then
            match Payments.provider_transaction_id req with
            | Some _ =>
                if Payment.bookingId data === EmptyString then None
                else Some (Payments.successBatch e req doc_id
                                                 (Payment.bookingId data))
            | None => None
            end
          else
            match Payments.message req with
            | Some _ => Some (Payments.failureUpdate req doc_id)
            | None => None
            end in
        match writes with
        | Some ws =>
            match apply_writes s ws with
            | Some s' => (Done (mkResponse 200 (Text "OK")), mkWorld s' [s'])
            | None => (Done (mkResponse 500 (Text "Error")), mkWorld s [])
            end
        | None => (Done (mkResponse 500 (Text "Error")), mkWorld s [])
        end
    end.
Proof.
  unfold Payments.webhook. unfold_handler.
  destruct (negb (truthy (Payments.customer_reference req)));
    [reflexivity|].
  cbn [current committed].
  destruct (Payments.find_by_reference _ s) as [|[doc_id data] rest];
    [reflexivity|].
  destruct (Payments.is_success (Payments.status req)).
  - destruct (Payments.provider_transaction_id req); [|reflexivity].
    destruct (Payment.bookingId data === EmptyString); [reflexivity|].
    cbn [current committed].
    destruct (apply_writes s _); reflexivity.
  - destruct (Payments.message req); [|reflexivity].
    cbn [current committed].
    destruct (apply_writes s _); reflexivity.
Qed.

Lemma find_by_reference_none (ref : string) (s : Store) :
  (forall id p, In (id, p) (payments s) ->
                Payment.customer_reference p <> ref) ->
  Payments.find_by_reference ref s = [].
Proof.
  intros Hnone. unfold Payments.find_by_reference.
  replace (filter (fun d => Payment.customer_reference (snd d) === ref)
                  (payments s)) with (@nil (DocId * Payment.t));
    [reflexivity|].
  symmetry. induction (payments s) as [|[id p] rest IH]; simpl; auto.
  destruct (String.eqb_spec (Payment.customer_reference p) ref) as [E|E].
  - exfalso. apply (Hnone id p); simpl; auto.
  - apply IH. intros i q Hin. apply (Hnone i q). now right.
Qed.

(** C8. A webhook delivery whose reference matches no stored payment is
    acknowledged with 200 OK, commits nothing and leaves the store as it
    was. *)
Theorem webhook_unmatched_reference_acknowledged
        (e : Env) (req : Payments.WebhookBody) (s : Store) (ref : string) :
  Payments.customer_reference req = Some ref ->
  ref <> "" ->
  (forall id p, In (id, p) (payments s) ->
                Payment.customer_reference p <> ref) ->
  result (Payments.webhook e req) s = Done (mkResponse 200 (Text "OK"))
  /\ final (Payments.webhook e req) s = s
  /\ observable (Payments.webhook e req) s = [s].
Proof.
  intros Href Hne Hnone.
  unfold result, final, observable. rewrite webhook_run, Href.
  assert (Ht : truthy (Some ref) = true) by now apply truthy_some.
  rewrite Ht, (or_else_some ref _ Hne).
  rewrite (find_by_reference_none ref s Hnone). simpl. auto.
Qed.

Lemma webhook_unmatched_reference_acknowledged_witness :
  result (Payments.webhook (Scenario.env (Scenario.jan 6) true)
                           Scenario.unknown_delivery) Scenario.one_pending
  = Done (mkResponse 200 (Text "OK"))
  /\ final (Payments.webhook (Scenario.env (Scenario.jan 6) true)
                             Scenario.unknown_delivery) Scenario.one_pending
     = Scenario.one_pending
  /\ observable (Payments.webhook (Scenario.env (Scenario.jan 6) true)
                                  Scenario.unknown_delivery)
                Scenario.one_pending
     = [Scenario.one_pending].
Proof.
  apply (@webhook_unmatched_reference_acknowledged
           (Scenario.env (Scenario.jan 6) true) Scenario.unknown_delivery
           Scenario.one_pending "TX-0-0").
  - reflexivity.
  - discriminate.
  - simpl. intros id p [H | []]. inversion H; subst. simpl. discriminate.
Defined.

(** C10. A webhook request without a customer_reference is answered with
    400 and the text Missing Ref, not with an acknowledgment, and commits
    nothing. *)
Theorem webhook_missing_reference_rejected
        (e : Env) (req : Payments.WebhookBody) (s : Store) :
  Payments.customer_reference req = None ->
  result (Payments.webhook e req) s
  = Done (mkResponse 400 (Text "Missing Ref"))
  /\ final (Payments.webhook e req) s = s
  /\ observable (Payments.webhook e req) s = [s].
Proof.
  intros Href. unfold result, final, observable.
  rewrite webhook_run, Href. simpl. auto.
Qed.

Lemma webhook_missing_reference_rejected_witness :
  result (Payments.webhook (Scenario.env (Scenario.jan 6) true)
                           Scenario.no_reference_delivery)
         Scenario.one_pending
  = Done (mkResponse 400 (Text "Missing Ref"))
  /\ final (Payments.webhook (Scenario.env (Scenario.jan 6) true)
                             Scenario.no_reference_delivery)
           Scenario.one_pending
     = Scenario.one_pending
  /\ observable (Payments.webhook (Scenario.env (Scenario.jan 6) true)
                                  Scenario.no_reference_delivery)
                Scenario.one_pending
     = [Scenario.one_pending].
Proof.
  apply (@webhook_missing_reference_rejected
           (Scenario.env (Scenario.jan 6) true)
           Scenario.no_reference_delivery Scenario.one_pending).
  reflexivity.
Defined.

(** ** Updates of a collection *)

Section CollectionFacts.
Context {A : Type}.
Implicit Types (c : Coll A) (f g : A -> A) (id i : DocId).

Lemma doc_set_id id f (d : DocId * A) : fst (doc_set id f d) = fst d.
Proof. unfold doc_set. destruct (fst d === id); reflexivity. Qed.

Lemma doc_get_map_set c id f i :
  doc_get (map (doc_set id f) c) i
  = option_map (fun a => if i === id then f a else a) (doc_get c i).
Proof.
  induction c as [|[j a] rest IH]; simpl; [reflexivity|].
  unfold doc_set at 1. simpl.
  destruct (String.eqb_spec j id) as [Ej|Ej]; simpl;
    destruct (String.eqb_spec j i) as [Ei|Ei]; simpl; auto.
  - subst. now rewrite String.eqb_refl.
  - subst. destruct (String.eqb_spec i id); congruence.
Qed.

Lemma map_set_set c id f g :
  map (doc_set id g) (map (doc_set id f) c)
  = map (doc_set id (fun a => g (f a))) c.
Proof.
  rewrite map_map. apply map_ext. intros [j a]. unfold doc_set. simpl.
  destruct (j === id) eqn:E; simpl; now rewrite ?E.
Qed.

Lemma map_set_ext c id f g :
  (forall a, f a = g a) -> map (doc_set id f) c = map (doc_set id g) c.
Proof.
  intros H. apply map_ext. intros [j a]. unfold doc_set. simpl.
  now rewrite H.
Qed.

Lemma filter_map_set c id f (keep : DocId * A -> bool) :
  (forall d, keep (doc_set id f d) = keep d) ->
  filter keep (map (doc_set id f) c) = map (doc_set id f) (filter keep c).
Proof.
  intros H. induction c as [|d rest IH]; simpl; [reflexivity|].
  rewrite H. destruct (keep d); simpl; now rewrite IH.
Qed.

Lemma doc_get_in c id a : In (id, a) c -> doc_get c id <> None.
Proof.
  induction c as [|[j b] rest IH]; simpl; [tauto|].
  intros [E | Hin].
  - inversion E; subst. now rewrite String.eqb_refl.
  - destruct (j === id); [discriminate | auto].
Qed.

Lemma doc_update_some c id f :
  doc_get c id <> None -> doc_update c id f = Some (map (doc_set id f) c).
Proof.
  unfold doc_update. destruct (doc_get c id); congruence.
Qed.

Lemma doc_update_none c id f :
  doc_get c id = None -> doc_update c id f = None.
Proof. unfold doc_update. now intros ->. Qed.

Lemma doc_get_map_set_some c id f i :
  doc_get c i <> None -> doc_get (map (doc_set id f) c) i <> None.
Proof.
  rewrite doc_get_map_set. destruct (doc_get c i); simpl; congruence.
Qed.

End CollectionFacts.

(** A batch of one payment update and one booking update commits both
    when both documents exist, and nothing otherwise. *)
Lemma apply_payment_booking (s : Store) (pid bid : DocId)
      (f : Payment.t -> Payment.t) (g : Booking.t -> Booking.t) :
  apply_writes s [UpdatePayment pid f; UpdateBooking bid g]
  = match doc_get (payments s) pid, doc_get (bookings s) bid with
    | Some _, Some _ =>
        Some (mkStore (rooms s) (map (doc_set bid g) (bookings s))
                      (map (doc_set pid f) (payments s)))
    | _, _ => None
    end.
Proof.
  simpl. unfold doc_update.
  destruct (doc_get (payments s) pid); simpl; [|reflexivity].
  destruct (doc_get (bookings s) bid); reflexivity.
Qed.

Lemma apply_payment (s : Store) (pid : DocId) (f : Payment.t -> Payment.t) :
  apply_writes s [UpdatePayment pid f]
  = match doc_get (payments s) pid with
    | Some _ =>
        Some (mkStore (rooms s) (bookings s)
                      (map (doc_set pid f) (payments s)))
    | None => None
    end.
Proof.
  simpl. unfold doc_update.
  destruct (doc_get (payments s) pid); reflexivity.
Qed.

Lemma apply_booking (s : Store) (bid : DocId) (g : Booking.t -> Booking.t) :
  apply_writes s [UpdateBooking bid g]
  = match doc_get (bookings s) bid with
    | Some _ =>
        Some (mkStore (rooms s) (map (doc_set bid g) (bookings s))
                      (payments s))
    | None => None
    end.
Proof.
  simpl. unfold doc_update.
  destruct (doc_get (bookings s) bid); reflexivity.
Qed.

(** The document that a reference finds is a document of the collection. *)
Lemma find_by_reference_in (ref : string) (s : Store) (id : DocId)
      (data : Payment.t) (rest : list (DocId * Payment.t)) :
  Payments.find_by_reference ref s = (id, data) :: rest ->
  In (id, data) (payments s) /\ rest = []
  /\ Payment.customer_reference data = ref.
Proof.
  unfold Payments.find_by_reference. intros H.
  destruct (filter _ (payments s)) as [|d l] eqn:E; [discriminate|].
  simpl in H. inversion H; subst. clear H.
  assert (Hin : In (id, data) (filter
            (fun d => Payment.customer_reference (snd d) === ref)
            (payments s))) by (rewrite E; now left).
  apply filter_In in Hin as [Hin Hq]. simpl in Hq.
  apply String.eqb_eq in Hq. auto.
Qed.

(** An update that keeps the reference of every payment does not change
    which document a reference finds. *)
Lemma find_by_reference_map_set (ref : string) (s : Store) (pid : DocId)
      (f : Payment.t -> Payment.t) (rs : Coll Room.t) (bs : Coll Booking.t) :
  (forall p, Payment.customer_reference (f p) = Payment.customer_reference p) ->
  Payments.find_by_reference ref
    (mkStore rs bs (map (doc_set pid f) (payments s)))
  = map (doc_set pid f) (Payments.find_by_reference ref s).
Proof.
  intros Hf. unfold Payments.find_by_reference. simpl payments.
  rewrite filter_map_set.
  - now rewrite firstn_map.
  - intros [j p]. unfold doc_set. simpl.
    destruct (j === pid); simpl; now rewrite ?Hf.
Qed.

(** ** The webhook: repeated and conflicting deliveries *)

Lemma erase_after_set {A : Type} (c : Coll A) (id : DocId) (f f' h : A -> A) :
  (forall a, h (f a) = h (f' a)) ->
  map (fun d => (fst d, h (snd d))) (map (doc_set id f) c)
  = map (fun d => (fst d, h (snd d))) (map (doc_set id f') c).
Proof.
  intros H. rewrite !map_map. apply map_ext. intros [j a].
  unfold doc_set. simpl. destruct (j === id); simpl; now rewrite ?H.
Qed.

(** The final store of a delivery depends on the time of the delivery only
    in the erased fields. *)
Lemma webhook_final_up_to_times (e1 e2 : Env) (req : Payments.WebhookBody)
      (s : Store) :
  without_times (final (Payments.webhook e1 req) s)
  = without_times (final (Payments.webhook e2 req) s).
Proof.
  unfold final. rewrite !webhook_run.
  destruct (negb (truthy (Payments.customer_reference req)));
    [reflexivity|].
  destruct (Payments.find_by_reference _ s) as [|[doc_id data] rest];
    [reflexivity|].
  destruct (Payments.is_success (Payments.status req)); cbv zeta.
  - destruct (Payments.provider_transaction_id req); [|reflexivity].
    destruct (Payment.bookingId data === EmptyString); [reflexivity|].
    unfold Payments.successBatch. rewrite !apply_payment_booking.
    destruct (doc_get (payments s) doc_id); [|reflexivity].
    destruct (doc_get (bookings s) (Payment.bookingId data));
      [|reflexivity].
    unfold without_times. cbn [current snd rooms bookings payments].
    f_equal; apply erase_after_set; intros []; reflexivity.
  - reflexivity.
Qed.

(** A second success delivery of the same payload ends in the state of a
    single delivery made at the time of the second. *)
Lemma webhook_success_twice (e1 e2 : Env) (req : Payments.WebhookBody)
      (s : Store) :
  Payments.is_success (Payments.status req) = true ->
  final (Payments.webhook e2 req) (final (Payments.webhook e1 req) s)
  = final (Payments.webhook e2 req) s.
Proof.
  intros Hok. unfold final at 2. rewrite webhook_run.
  destruct (negb (truthy (Payments.customer_reference req))) eqn:Eref;
    [reflexivity|].
  destruct (Payments.find_by_reference _ s) as [|[doc_id data] rest] eqn:Eq;
    [reflexivity|].
  rewrite Hok. cbv zeta.
  destruct (Payments.provider_transaction_id req) eqn:Etx; [|reflexivity].
  destruct (Payment.bookingId data === EmptyString) eqn:Ebid; [reflexivity|].
  unfold Payments.successBatch at 1. rewrite apply_payment_booking.
  destruct (doc_get (payments s) doc_id) eqn:Ep; [|reflexivity].
  destruct (doc_get (bookings s) (Payment.bookingId data)) eqn:Eb;
    [|reflexivity].
  cbn [current snd].
  unfold final. rewrite !webhook_run, Eref, Eq, Hok, Etx.
  rewrite find_by_reference_map_set by (intros []; reflexivity).
  rewrite Eq. cbn [map]. unfold doc_set at 1. cbn [fst snd].
  destruct (find_by_reference_in _ _ _ _ _ Eq) as (_ & -> & _).
  rewrite String.eqb_refl.
  change (Payment.bookingId (Payments.markSuccess e1 req data))
    with (Payment.bookingId data).
  rewrite Ebid. cbv zeta.
  unfold Payments.successBatch. rewrite !apply_payment_booking.
  cbn [payments bookings rooms].
  rewrite Ep, Eb.
  rewrite !doc_get_map_set, Ep, Eb. cbn [option_map current snd].
  rewrite !map_set_set. f_equal; apply map_set_ext; intros []; reflexivity.
Qed.

(** C7, as the code has it. Delivering the same success payload twice ends
    in the state of one delivery made at the time of the second: the same
    state as after the first delivery except for the payment's [paidAt] and
    the booking's [updatedAt], which the second delivery rewrites with its
    own server time. *)
Theorem webhook_success_redelivery_same_up_to_times
        (e1 e2 : Env) (req : Payments.WebhookBody) (s : Store) :
  Payments.is_success (Payments.status req) = true ->
  let once := final (Payments.webhook e1 req) s in
  let twice := final (Payments.webhook e2 req) once in
  twice = final (Payments.webhook e2 req) s
  /\ without_times twice = without_times once.
Proof.
  intros Hok once twice. subst once twice.
  rewrite (webhook_success_twice e1 e2 req s Hok). split; [reflexivity|].
  apply webhook_final_up_to_times.
Qed.

Lemma webhook_success_redelivery_same_up_to_times_witness :
  let e1 := Scenario.env (Scenario.jan 6) true in
  let e2 := Scenario.env (Scenario.jan 7) true in
  let once := final (Payments.webhook e1 Scenario.success_delivery)
                    Scenario.one_pending in
  let twice := final (Payments.webhook e2 Scenario.success_delivery) once in
  twice = final (Payments.webhook e2 Scenario.success_delivery)
                Scenario.one_pending
  /\ without_times twice = without_times once.
Proof.
  apply (webhook_success_redelivery_same_up_to_times
           (Scenario.env (Scenario.jan 6) true)
           (Scenario.env (Scenario.jan 7) true)
           Scenario.success_delivery Scenario.one_pending).
  reflexivity.
Defined.

(** C7, as stated, fails: a second delivery one day after the first moves
    the paid timestamp of the payment, so the store after two deliveries is
    not the store after one. *)
Lemma webhook_success_redelivery_moves_paidAt :
  let e1 := Scenario.env (Scenario.jan 6) true in
  let e2 := Scenario.env (Scenario.jan 7) true in
  let once := final (Payments.webhook e1 Scenario.success_delivery)
                    Scenario.one_pending in
  let twice := final (Payments.webhook e2 Scenario.success_delivery) once in
  option_map Payment.paidAt (doc_get (payments once) "p1")
  = Some (Some (Scenario.jan 6))
  /\ option_map Payment.paidAt (doc_get (payments twice) "p1")
     = Some (Some (Scenario.jan 7))
  /\ twice <> once.
Proof.
  intros e1 e2 once twice.
  assert (H1 : option_map Payment.paidAt (doc_get (payments once) "p1")
               = Some (Some (Scenario.jan 6))) by reflexivity.
  assert (H2 : option_map Payment.paidAt (doc_get (payments twice) "p1")
               = Some (Some (Scenario.jan 7))) by reflexivity.
  repeat split; auto.
  intros E. rewrite E, H1 in H2. discriminate.
Qed.

(** C4, as the code has it. The webhook never looks at the status that the
    matched payment already has, so the last delivery wins: a delivery that
    is not a success and carries a message marks the payment failed, with
    that message as reason, and leaves every booking as it was; a success
    delivery that carries a provider transaction id marks the payment
    success and its booking confirmed and paid. Both hold whatever terminal
    status the payment had reached before. A delivery that lacks the field
    its branch stores is answered 500 and changes nothing. *)
Theorem webhook_last_delivery_wins
        (e : Env) (req : Payments.WebhookBody) (s : Store)
        (ref : string) (id : DocId) (data : Payment.t) :
  Payments.customer_reference req = Some ref ->
  ref <> "" ->
  Payments.find_by_reference ref s = [(id, data)] ->
  (Payments.is_success (Payments.status req) = false ->
   Payments.message req <> None ->
   final (Payments.webhook e req) s
   = mkStore (rooms s) (bookings s)
             (map (doc_set id (Payments.markFailed req)) (payments s))
   /\ payment_status (final (Payments.webhook e req) s) id = Some "failed")
  /\ (Payments.is_success (Payments.status req) = true ->
      Payments.provider_transaction_id req <> None ->
      Payment.bookingId data <> "" ->
      doc_get (bookings s) (Payment.bookingId data) <> None ->
      final (Payments.webhook e req) s
      = mkStore (rooms s)
                (map (doc_set (Payment.bookingId data)
                              (Payments.confirmBooking e)) (bookings s))
                (map (doc_set id (Payments.markSuccess e req)) (payments s))
      /\ payment_status (final (Payments.webhook e req) s) id
         = Some "success"
      /\ booking_status (final (Payments.webhook e req) s)
                        (Payment.bookingId data)
         = Some ("confirmed", "paid"))
  /\ ((if Payments.is_success (Payments.status req)
       then Payments.provider_transaction_id req
       else Payments.message req) = None ->
      result (Payments.webhook e req) s
      = Done (mkResponse 500 (Text "Error"))
      /\ final (Payments.webhook e req) s = s
      /\ observable (Payments.webhook e req) s = [s]).
Proof.
  intros Href Hne Hfind.
  assert (Ht : truthy (Some ref) = true) by now apply truthy_some.
  destruct (find_by_reference_in _ _ _ _ _ Hfind) as (Hin & _ & _).
  apply doc_get_in in Hin.
  destruct (doc_get (payments s) id) as [p|] eqn:Ep; [clear Hin|congruence].
  split; [|split].
  - intros Hfail Hmsg.
    destruct (Payments.message req) as [msg|] eqn:Emsg; [clear Hmsg|congruence].
    assert (Hfinal : final (Payments.webhook e req) s
              = mkStore (rooms s) (bookings s)
                  (map (doc_set id (Payments.markFailed req)) (payments s))).
    { unfold final. rewrite webhook_run, Href, Ht, (or_else_some ref _ Hne).
      rewrite Hfind, Hfail, Emsg. cbv zeta. unfold Payments.failureUpdate.
      now rewrite apply_payment, Ep. }
    split; [exact Hfinal|].
    rewrite Hfinal. unfold payment_status. cbn [payments].
    rewrite doc_get_map_set, Ep. cbn [option_map].
    now rewrite String.eqb_refl.
  - intros Hok Htx Hbid Hbooking.
    destruct (Payments.provider_transaction_id req) as [tx|] eqn:Etx;
      [clear Htx|congruence].
    destruct (doc_get (bookings s) (Payment.bookingId data)) as [b|] eqn:Eb;
      [clear Hbooking|congruence].
    assert (Hfinal : final (Payments.webhook e req) s
              = mkStore (rooms s)
                  (map (doc_set (Payment.bookingId data)
                                (Payments.confirmBooking e)) (bookings s))
                  (map (doc_set id (Payments.markSuccess e req))
                       (payments s))).
    { unfold final. rewrite webhook_run, Href, Ht, (or_else_some ref _ Hne).
      rewrite Hfind, Hok, Etx. apply String.eqb_neq in Hbid. rewrite Hbid.
      cbv zeta. unfold Payments.successBatch.
      now rewrite apply_payment_booking, Ep, Eb. }
    split; [exact Hfinal|].
    rewrite Hfinal. unfold payment_status, booking_status.
    cbn [payments bookings].
    rewrite !doc_get_map_set, Ep, Eb. cbn [option_map].
    now rewrite !String.eqb_refl.
  - intros Hmissing. unfold result, final, observable.
    rewrite webhook_run, Href, Ht, (or_else_some ref _ Hne), Hfind.
    destruct (Payments.is_success (Payments.status req));
      rewrite Hmissing; cbn [fst snd current committed rev app]; auto.
Qed.

(** The theorem at a failure delivered one day after the success of the
    same reference. *)
Lemma webhook_last_delivery_wins_witness :
  let e := Scenario.env (Scenario.jan 7) true in
  let req := Scenario.failed_delivery in
  let s := final (Payments.webhook (Scenario.env (Scenario.jan 6) true)
                                   Scenario.success_delivery)
                 Scenario.one_pending in
  payment_status s "p1" = Some "success"
  /\ final (Payments.webhook e req) s
     = mkStore (rooms s) (bookings s)
               (map (doc_set "p1" (Payments.markFailed req)) (payments s))
  /\ payment_status (final (Payments.webhook e req) s) "p1" = Some "failed".
Proof.
  intros e req s. split; [reflexivity|].
  apply (webhook_last_delivery_wins e req s "TX-1-1" "p1"
           (Payments.markSuccess (Scenario.env (Scenario.jan 6) true)
              Scenario.success_delivery
              (Scenario.charge "b1" "pending" "TX-1-1"))).
  - reflexivity.
  - discriminate.
  - reflexivity.
  - reflexivity.
  - discriminate.
Defined.

(** C4, as stated, fails in both orders. A failure delivered after the
    success of the same reference turns the payment from success to failed
    (its booking staying confirmed and paid), and a success delivered after
    a failure turns the payment from failed to success and confirms the
    booking. *)
Lemma webhook_first_terminal_status_overwritten :
  let e1 := Scenario.env (Scenario.jan 6) true in
  let e2 := Scenario.env (Scenario.jan 7) true in
  let paid := final (Payments.webhook e1 Scenario.success_delivery)
                    Scenario.one_pending in
  let paid_then_failed :=
    final (Payments.webhook e2 Scenario.failed_delivery) paid in
  let failed := final (Payments.webhook e1 Scenario.failed_delivery)
                      Scenario.one_pending in
  let failed_then_paid :=
    final (Payments.webhook e2 Scenario.success_delivery) failed in
  (payment_status paid "p1" = Some "success"
   /\ payment_status paid_then_failed "p1" = Some "failed"
   /\ booking_status paid_then_failed "b1" = Some ("confirmed", "paid")
   /\ payments paid_then_failed <> payments paid)
  /\ (payment_status failed "p1" = Some "failed"
      /\ booking_status failed "b1" = Some ("pending", "unpaid")
      /\ payment_status failed_then_paid "p1" = Some "success"
      /\ booking_status failed_then_paid "b1" = Some ("confirmed", "paid")
      /\ payments failed_then_paid <> payments failed
      /\ bookings failed_then_paid <> bookings failed).
Proof.
  intros e1 e2 paid paid_then_failed failed failed_then_paid.
  repeat split; try reflexivity; intros E.
  - assert (H : payment_status paid_then_failed "p1"
                = payment_status paid "p1")
      by (unfold payment_status; now rewrite E).
    vm_compute in H. discriminate.
  - assert (H : payment_status failed_then_paid "p1"
                = payment_status failed "p1")
      by (unfold payment_status; now rewrite E).
    vm_compute in H. discriminate.
  - assert (H : booking_status failed_then_paid "b1"
                = booking_status failed "b1")
      by (unfold booking_status; now rewrite E).
    vm_compute in H. discriminate.
Qed.

(** ** Atomicity of the payment confirmation *)

(** A webhook delivery commits at most once: a reader sees the store
    before the delivery or the store after it, nothing in between. *)
Lemma webhook_single_commit (e : Env) (req : Payments.WebhookBody)
      (s : Store) :
  observable (Payments.webhook e req) s = [s]
  \/ observable (Payments.webhook e req) s
     = [s; final (Payments.webhook e req) s].
Proof.
  unfold observable, final. rewrite webhook_run.
  destruct (negb (truthy (Payments.customer_reference req))); [now left|].
  destruct (Payments.find_by_reference _ s) as [|[doc_id data] rest];
    [now left|].
  cbv zeta.
  match goal with
  | |- context [match ?writes with Some _ => _ | None => _ end] =>
      destruct writes as [ws|]; [|now left]
  end.
  destruct (apply_writes s ws); [now right | now left].
Qed.

Ltac only_initial :=
  simpl; intros [E | []]; left; now symmetry.

(** The success branch of the webhook never shows a payment marked success
    beside a booking that is not yet confirmed: when the delivery changes
    the store, both documents are written in the one commit. *)
Lemma webhook_success_atomic (e : Env) (req : Payments.WebhookBody)
      (s mid : Store) :
  Payments.is_success (Payments.status req) = true ->
  In mid (observable (Payments.webhook e req) s) ->
  mid = s
  \/ exists id bid,
       mid = mkStore (rooms s)
                     (map (doc_set bid (Payments.confirmBooking e))
                          (bookings s))
                     (map (doc_set id (Payments.markSuccess e req))
                          (payments s)).
Proof.
  intros Hok. unfold observable. rewrite webhook_run.
  destruct (negb (truthy (Payments.customer_reference req)));
    [only_initial|].
  destruct (Payments.find_by_reference _ s) as [|[doc_id data] rest];
    [only_initial|].
  rewrite Hok. cbv zeta.
  destruct (Payments.provider_transaction_id req); [|only_initial].
  destruct (Payment.bookingId data === EmptyString); [only_initial|].
  unfold Payments.successBatch. rewrite apply_payment_booking.
  destruct (doc_get (payments s) doc_id); [|only_initial].
  destruct (doc_get (bookings s) (Payment.bookingId data)); [|only_initial].
  simpl. intros [E | [E | []]]; [left; now symmetry|].
  right. exists doc_id, (Payment.bookingId data). now symmetry.
Qed.

(** The status update of PUT /:id commits the payment and then, in a second
    commit, the booking: the store between the two is observable. *)
Lemma put_payment_two_commits (e : Env) (id st : string) (s : Store)
      (data : Payment.t) (b : Booking.t) :
  id <> "" -> st <> "" -> Payments.syncs st = true ->
  doc_get (payments s) id = Some data ->
  Payment.bookingId data <> "" ->
  doc_get (bookings s) (Payment.bookingId data) = Some b ->
  let paymentOnly :=
    mkStore (rooms s) (bookings s)
            (map (doc_set id (fun p => Payment.set_updatedAt
                                         (Some (serverTime e))
                                         (Payment.set_status st p)))
                 (payments s)) in
  observable (Payments.put_payment e id (Some st)) s
  = [s; paymentOnly;
     mkStore (rooms s)
             (map (doc_set (Payment.bookingId data)
                           (Payments.bookingUpdates st)) (bookings s))
             (payments paymentOnly)].
Proof.
  intros Hid Hst Hsync Hp Hbid Hb paymentOnly. subst paymentOnly.
  apply String.eqb_neq in Hid, Hbid.
  unfold Payments.put_payment.
  assert (Ht : truthy (Some st) = true) by now apply truthy_some.
  rewrite Ht, (or_else_some st _ Hst). unfold_handler.
  cbn [negb]. rewrite Hid. cbn [current committed]. rewrite Hp.
  cbn [current committed]. rewrite apply_payment, Hp, Hbid, Hsync.
  cbn [negb current committed]. rewrite apply_booking.
  cbn [bookings]. rewrite Hb. reflexivity.
Qed.

(** C3. The webhook writes the payment and its booking in one batch, but
    the explicit status update does not: at PUT /payments/p1 with status
    success, on a pending payment of a pending booking, the request
    succeeds and a state with the payment already success and the booking
    still pending and unpaid is observable between its two commits; the
    update also leaves the external transaction id and the paid timestamp
    unset. The webhook on the same store shows no such state. *)
Theorem put_payment_success_exposes_split_state :
  let e := Scenario.env (Scenario.jan 6) true in
  let put := Payments.put_payment e "p1" (Some "success") in
  let view := fun s => (payment_status s "p1", booking_status s "b1") in
  result put Scenario.one_pending
  = Done (mkResponse 200 (Json [("success", JBool true);
                                ("message", JStr "Payment status updated")]))
  /\ map view (observable put Scenario.one_pending)
     = [ (Some "pending", Some ("pending", "unpaid"));
         (Some "success", Some ("pending", "unpaid"));
         (Some "success", Some ("confirmed", "paid")) ]
  /\ option_map (fun p => (Payment.externalReference p, Payment.paidAt p))
                (doc_get (payments (final put Scenario.one_pending)) "p1")
     = Some (None, None)
  /\ map view (observable (Payments.webhook e Scenario.success_delivery)
                          Scenario.one_pending)
     = [ (Some "pending", Some ("pending", "unpaid"));
         (Some "success", Some ("confirmed", "paid")) ].
Proof.
  repeat split; reflexivity.
Qed.

(** ** Editing a booking *)

(** An edit that names the room and both dates is checked against the
    other bookings of the room, and refused without any write when the room
    is taken. *)
Lemma put_booking_full_edit_checked (e : Env) (id : DocId)
      (req : Bookings.UpdateBody) (s : Store) (room : string)
      (from to : Instant) :
  Bookings.u_roomId req = Some room -> room <> "" ->
  Bookings.u_checkIn req = Parsed from ->
  Bookings.u_checkOut req = Parsed to ->
  checkAvailability (bookings s) room from to (Some id) = false ->
  run (Bookings.put_booking e id req) s
  = (Done (Bookings.error 409 "Room is unavailable"), mkWorld s []).
Proof.
  intros Hroom Hne Hin Hout Htaken.
  unfold Bookings.put_booking. rewrite Hroom, Hin, Hout.
  assert (Ht : truthy (Some room) = true) by now apply truthy_some.
  rewrite Ht, (or_else_some room _ Hne). unfold fromDate. unfold_handler.
  cbn [orb current committed]. rewrite Htaken. reflexivity.
Qed.

(** An edit that leaves out the check-in is written without any look at
    the other bookings: the stored check-in is not read, and the answer
    does not depend on what else is booked. *)
Lemma put_booking_partial_edit_unchecked (e : Env) (id : DocId)
      (req : Bookings.UpdateBody) (s : Store) (to : Instant) :
  id <> "" ->
  doc_get (bookings s) id <> None ->
  Bookings.u_checkIn req = Absent ->
  Bookings.u_checkOut req = Parsed to ->
  run (Bookings.put_booking e id req) s
  = let s' :=
      mkStore (rooms s)
              (map (doc_set id (Bookings.updates e req None (Some to)))
                   (bookings s))
              (payments s) in
    (Done (mkResponse 200 (Json [("success", JBool true)])),
     mkWorld s' [s']).
Proof.
  intros Hid Hex Hin Hout. apply String.eqb_neq in Hid.
  unfold Bookings.put_booking. rewrite Hin, Hout.
  unfold fromDate. unfold_handler.
  destruct (truthy (Bookings.u_roomId req) || given Absent
            || given (Parsed to));
    cbn [negb]; rewrite Hid; cbn [current committed];
    rewrite apply_booking;
    (destruct (doc_get (bookings s) id); [reflexivity | congruence]).
Qed.

(** C5. The edit re-runs the overlap checker only when the request names
    the room and both dates. At PUT /bookings/b1 with the room and a new
    check-out of Jan 13 only, on a room whose next booking starts on
    Jan 12, the overlap checker with the stored check-in would refuse the
    interval, yet the edit is accepted and stored, leaving two overlapping
    bookings; the same edit with the check-in repeated is refused. *)
Theorem put_booking_partial_dates_bypass_check :
  let e := Scenario.env (Scenario.jan 6) true in
  let s := Scenario.back_to_back in
  let partial := Bookings.put_booking e "b1"
                   (Scenario.extend_to (Scenario.jan 13)) in
  let full := Bookings.put_booking e "b1"
                (Scenario.move_to (Scenario.jan 10) (Scenario.jan 13)) in
  booking_stay s "b1" = Some (Scenario.jan 10, Scenario.jan 12)
  /\ booking_stay s "b2" = Some (Scenario.jan 12, Scenario.jan 14)
  /\ checkAvailability (bookings s) "r1" (Scenario.jan 10) (Scenario.jan 13)
                       (Some "b1") = false
  /\ result partial s = Done (mkResponse 200 (Json [("success", JBool true)]))
  /\ booking_stay (final partial s) "b1"
     = Some (Scenario.jan 10, Scenario.jan 13)
  /\ booking_stay (final partial s) "b2"
     = Some (Scenario.jan 12, Scenario.jan 14)
  /\ result full s = Done (Bookings.error 409 "Room is unavailable")
  /\ final full s = s.
Proof.
  repeat split; reflexivity.
Qed.

(** ** Creating a booking *)

(** The handler never marks the payment it creates as failed: whatever the
    gateway answers, the payment collection is unchanged or gains one
    document with the requested or default status and no failure reason. *)
Lemma post_booking_payment_not_failed (e : Env) (req : Bookings.CreateBody)
      (s : Store) :
  payments (final (Bookings.post_booking e req) s) = payments s
  \/ exists p,
       payments (final (Bookings.post_booking e req) s)
       = doc_add (payments s) (paymentDocId e) p
       /\ Payment.status p = or_else (Bookings.paymentStatus req) "pending"
       /\ Payment.failureReason p = None.
Proof.
  unfold Bookings.post_booking. unfold_handler.
  destruct (getTime (Bookings.checkIn req)) as [start|]; [|now left].
  destruct (getTime (Bookings.checkOut req)) as [end_|]; [|now left].
  destruct (start >=? end_); [now left|].
  destruct (is_str (Bookings.paymentMethod req) "Cash"
            && negb (truthy (Bookings.receivedBy req))); [now left|].
  destruct (or_else (Bookings.roomId req) EmptyString === EmptyString);
    [now left|].
  cbn [current committed].
  destruct (doc_get (rooms s) _) as [roomData|]; [|now left].
  cbn [current committed].
  destruct (checkAvailability (bookings s) _ start end_ None);
    [|now left].
  cbn [negb]. destruct (resolvedUser e) as [userId|]; [|now left].
  destruct (Bookings.guestName req); [|now left].
  cbn [apply_writes apply_write current committed payments snd].
  destruct (Bookings.paymentMethod req); [|now left].
  cbn [apply_writes apply_write current committed payments snd].
  right. eexists. split; [reflexivity|]. split; reflexivity.
Qed.

(** C6. When the gateway rejects the payment request of a new booking, the
    request still answers 201 with the message that the prompt failed and
    the booking is stored pending and unpaid, but the payment record is left
    pending with no failure reason: the handler keeps no reference to it and
    writes nothing in its catch branch. The retry route POST
    /payments/initiate, on the same gateway failure, does mark its payment
    failed with a reason, and answers 502. *)
Theorem post_booking_gateway_failure_leaves_payment_pending :
  let e := Scenario.env (Scenario.jan 6) false in
  let create := Bookings.post_booking e Scenario.reservation in
  let after := final create Scenario.empty_hotel in
  let retry := Payments.initiate e Scenario.retry in
  let payment_view := fun s =>
    option_map (fun p => (Payment.status p, Payment.failureReason p))
               (doc_get (payments s) "p9") in
  result create Scenario.empty_hotel
  = Done (mkResponse 201
            (Json [("success", JBool true); ("id", JStr "b9");
                   ("message",
                    JStr "Booking created, but payment prompt failed. Try manually.")]))
  /\ booking_status after "b9" = Some ("pending", "unpaid")
  /\ payment_view after = Some ("pending", None)
  /\ result retry Scenario.one_pending
     = Done (mkResponse 502
               (Json [("error",
                       JStr "Failed to trigger mobile money prompt")]))
  /\ payment_view (final retry Scenario.one_pending)
     = Some ("failed", Some "API Call Failed").
Proof.
  repeat split; reflexivity.
Qed.

(** ** Booking, then searching *)

(** C1. After POST /bookings stores a booking of room r1 for
    [Jan 10, Jan 12) with the default status, pending and unpaid, the
    availability search reports r1 neither unavailable for
    [Jan 11, Jan 13) nor available for [Jan 12, Jan 14): to both requests it
    answers 500, AVAILABILITY_CHECK_FAILED, and lists no room, because the
    route has no database to query. On the same store the overlap checker of
    the bookings router refuses [Jan 11, Jan 13) and accepts
    [Jan 12, Jan 14). *)
Theorem search_fails_after_pending_booking :
  let e := Scenario.env (Scenario.jan 6) true in
  let create := Bookings.post_booking e Scenario.reservation in
  let after := final create Scenario.empty_hotel in
  let search := fun from to s =>
    result (Availability.search e (Scenario.search_for from to)) s in
  let failed :=
    Done (Availability.failure 500 "Failed to check availability"
                               "AVAILABILITY_CHECK_FAILED") in
  result create Scenario.empty_hotel
  = Done (mkResponse 201
            (Json [("success", JBool true); ("id", JStr "b9");
                   ("message",
                    JStr "Booking created. Payment prompt sent to phone.")]))
  /\ booking_status after "b9" = Some ("pending", "unpaid")
  /\ booking_stay after "b9" = Some (Scenario.jan 10, Scenario.jan 12)
  /\ search (Scenario.jan 11) (Scenario.jan 13) after = failed
  /\ search (Scenario.jan 12) (Scenario.jan 14) after = failed
  /\ Availability.lists_room
       (search (Scenario.jan 12) (Scenario.jan 14) after) "r1" = false
  /\ checkAvailability (bookings after) "r1" (Scenario.jan 11)
                       (Scenario.jan 13) None = false
  /\ checkAvailability (bookings after) "r1" (Scenario.jan 12)
                       (Scenario.jan 14) None = true.
Proof.
  repeat split; reflexivity.
Qed.

(** ** The forced end of stays when a room is set Available or Maintenance *)

Lemma store_eta (s : Store) : mkStore (rooms s) (bookings s) (payments s) = s.
Proof. now destruct s. Qed.

Lemma ids_unique {A : Type} (c : Coll A) (i : DocId) (a b : A) :
  NoDup (map fst c) -> In (i, a) c -> In (i, b) c -> a = b.
Proof.
  induction c as [|[j x] rest IH]; simpl; [tauto|].
  intros Hnd [Ea | Ha] [Eb | Hb]; inversion Hnd as [|? ? Hnotin Hrest]; subst.
  - congruence.
  - inversion Ea; subst. exfalso. apply Hnotin.
    change i with (fst (i, b)). now apply in_map.
  - inversion Eb; subst. exfalso. apply Hnotin.
    change i with (fst (i, a)). now apply in_map.
  - now apply IH.
Qed.

(** A batch with one update [f] per document of [chosen] rewrites exactly
    the documents whose id is chosen. *)
Lemma apply_booking_updates (f : Booking.t -> Booking.t)
      (chosen : Coll Booking.t) :
  (forall b, f (f b) = f b) ->
  forall s,
    (forall q, In q chosen -> doc_get (bookings s) (fst q) <> None) ->
    apply_writes s (map (fun d => UpdateBooking (fst d) f) chosen)
    = Some (mkStore (rooms s)
              (map (fun d => if existsb (fun q => fst q === fst d) chosen
                             then (fst d, f (snd d)) else d)
                   (bookings s))
              (payments s)).
Proof.
  intros Hidem. induction chosen as [|[k b] rest IH]; intros s Hex.
  - simpl. rewrite map_id. now rewrite store_eta.
  - cbn [map apply_writes apply_write fst].
    rewrite doc_update_some by (apply (Hex (k, b)); now left).
    cbn [option_map]. rewrite IH.
    + cbn [rooms bookings payments]. rewrite map_map.
      do 2 f_equal. apply map_ext. intros [j a].
      unfold doc_set. cbn [fst snd existsb].
      rewrite (String.eqb_sym k j).
      destruct (j === k); cbn [fst snd orb].
      * match goal with
        | |- context [existsb ?p rest] => destruct (existsb p rest)
        end; now rewrite ?Hidem.
      * reflexivity.
    + intros q' Hin. cbn [bookings]. apply doc_get_map_set_some.
      apply Hex. now right.
Qed.

Lemma filter_twice {A : Type} (p q : A -> bool) (l : list A) :
  filter q (filter p l) = filter (fun x => p x && q x) l.
Proof.
  induction l as [|x l IH]; simpl; [reflexivity|].
  destruct (p x); simpl; [destruct (q x)|]; now rewrite IH.
Qed.

(** The bookings that the handler ends are those in progress. *)
Lemma forced_end_selection (e : Env) (id : DocId) (s : Store) :
  filter (fun d => Booking.checkIn (snd d) <=? now e)
         (Rooms.activeBookings id (now e) s)
  = filter (fun d => Rooms.in_progress id (now e) (snd d)) (bookings s).
Proof.
  unfold Rooms.activeBookings. rewrite filter_twice.
  apply filter_ext. intros [j b]. unfold Rooms.in_progress. cbn [snd].
  rewrite Z.gtb_ltb.
  destruct (Booking.roomId b === id), (blocking_status (Booking.status b)),
    (now e <? Booking.checkOut b), (Booking.checkIn b <=? now e);
    reflexivity.
Qed.

Lemma id_selected {A : Type} (keep : DocId * A -> bool) (c : Coll A)
      (d : DocId * A) :
  NoDup (map fst c) -> In d c ->
  existsb (fun q => fst q === fst d) (filter keep c) = keep d.
Proof.
  intros Hnd Hin. destruct (keep d) eqn:Ek.
  - apply existsb_exists. exists d. split.
    + apply filter_In. auto.
    + apply String.eqb_refl.
  - apply not_true_is_false. intros Hex.
    apply existsb_exists in Hex as ([j a] & Hq & Heq).
    apply filter_In in Hq as [Hq Hk]. apply String.eqb_eq in Heq.
    destruct d as [i b]. cbn [fst] in Heq. subst j.
    rewrite (ids_unique c i a b Hnd Hq Hin) in Hk. congruence.
Qed.

(** The batch of the forced end, applied to a store with unique ids. *)
Lemma apply_forceEndBatch (e : Env) (id : DocId) (s : Store) :
  NoDup (map fst (bookings s)) ->
  apply_writes s (Rooms.forceEndBatch e (Rooms.activeBookings id (now e) s))
  = Some (mkStore (rooms s) (map (Rooms.force_end e id) (bookings s))
                  (payments s)).
Proof.
  intros Hnd. unfold Rooms.forceEndBatch. rewrite forced_end_selection.
  rewrite apply_booking_updates.
  - do 2 f_equal. apply map_ext_in. intros d Hin.
    rewrite (id_selected _ _ _ Hnd Hin). reflexivity.
  - intros []. reflexivity.
  - intros [j a] Hin. apply filter_In in Hin as [Hin _].
    now apply (doc_get_in _ _ a).
Qed.

(** Without a booking in progress the forced end changes nothing. *)
Lemma force_end_nothing (e : Env) (id : DocId) (c : Coll Booking.t) :
  existsb (fun d => Rooms.in_progress id (now e) (snd d)) c = false ->
  map (Rooms.force_end e id) c = c.
Proof.
  intros Hnone. rewrite <- (map_id c) at 2. apply map_ext_in.
  intros d Hin. unfold Rooms.force_end.
  destruct (Rooms.in_progress id (now e) (snd d)) eqn:E; [|reflexivity].
  assert (existsb (fun d => Rooms.in_progress id (now e) (snd d)) c = true)
    by (apply existsb_exists; eauto).
  congruence.
Qed.

Lemma batch_nonempty (e : Env) (id : DocId) (s : Store) :
  (0 <? Z.of_nat (List.length
                    (Rooms.forceEndBatch e
                       (Rooms.activeBookings id (now e) s))))
  = existsb (fun d => Rooms.in_progress id (now e) (snd d)) (bookings s).
Proof.
  unfold Rooms.forceEndBatch. rewrite forced_end_selection, length_map.
  induction (bookings s) as [|d c IH]; simpl; [reflexivity|].
  destruct (Rooms.in_progress id (now e) (snd d)); simpl; [|exact IH].
  apply Z.ltb_lt. lia.
Qed.

Lemma apply_room (s : Store) (rid : DocId) (f : Room.t -> Room.t) :
  apply_writes s [UpdateRoom rid f]
  = match doc_get (rooms s) rid with
    | Some _ =>
        Some (mkStore (map (doc_set rid f) (rooms s)) (bookings s)
                      (payments s))
    | None => None
    end.
Proof.
  simpl. unfold doc_update.
  destruct (doc_get (rooms s) rid); reflexivity.
Qed.

(** What PUT /rooms/:id does when it sets the room Available or
    Maintenance: a first commit ends the stays in progress, when there are
    any, and a second commit writes the room. *)
Lemma put_room_run (e : Env) (id : DocId) (req : Rooms.UpdateBody)
      (s : Store) (room : Room.t) :
  NoDup (map fst (bookings s)) ->
  id <> "" ->
  doc_get (rooms s) id = Some room ->
  Rooms.duplicateNumber req room s = false ->
  Rooms.status req = Some "Available"
  \/ Rooms.status req = Some "Maintenance" ->
  let ended := mkStore (rooms s) (map (Rooms.force_end e id) (bookings s))
                       (payments s) in
  let written := mkStore (map (doc_set id (Rooms.cleanUpdates e req))
                              (rooms s))
                         (bookings ended) (payments s) in
  run (Rooms.put_room e id req) s
  = (Done Rooms.updated,
     mkWorld written
       (if existsb (fun d => Rooms.in_progress id (now e) (snd d))
                   (bookings s)
        then [written; ended] else [written])).
Proof.
  intros Hnd Hid Hroom Hdup Hstatus ended written. subst ended written.
  apply String.eqb_neq in Hid.
  assert (Hforced : is_str (Rooms.status req) "Available"
                    || is_str (Rooms.status req) "Maintenance" = true)
    by (destruct Hstatus as [-> | ->]; reflexivity).
  unfold Rooms.put_room. unfold_handler.
  rewrite Hid. cbn [current committed]. rewrite Hroom.
  cbn [current committed]. rewrite Hdup, Hforced.
  cbn [current committed]. rewrite batch_nonempty.
  destruct (existsb _ (bookings s)) eqn:Eany.
  - cbn [current committed]. rewrite (apply_forceEndBatch e id s Hnd).
    cbn [current committed]. rewrite apply_room. cbn [rooms].
    rewrite Hroom. reflexivity.
  - cbn [current committed]. rewrite apply_room, Hroom.
    cbn [bookings]. rewrite (force_end_nothing e id _ Eany). reflexivity.
Qed.

(** C9, as the code has it. Setting a room Available or Maintenance ends
    every stay of that room that is in progress, pending or confirmed with
    check-in <= now < check-out, by setting its check-out to now; all of
    them are written in one atomic batch, committed before the room update
    and apart from it; the lifecycle status of the ended bookings is kept
    and the bookings not in progress are untouched. *)
Theorem put_room_ends_stays_in_progress
        (e : Env) (id : DocId) (req : Rooms.UpdateBody) (s : Store)
        (room : Room.t) :
  NoDup (map fst (bookings s)) ->
  id <> "" ->
  doc_get (rooms s) id = Some room ->
  Rooms.duplicateNumber req room s = false ->
  Rooms.status req = Some "Available"
  \/ Rooms.status req = Some "Maintenance" ->
  let ended := mkStore (rooms s) (map (Rooms.force_end e id) (bookings s))
                       (payments s) in
  let written := mkStore (map (doc_set id (Rooms.cleanUpdates e req))
                              (rooms s))
                         (bookings ended) (payments s) in
  result (Rooms.put_room e id req) s = Done Rooms.updated
  /\ final (Rooms.put_room e id req) s = written
  /\ observable (Rooms.put_room e id req) s
     = (if existsb (fun d => Rooms.in_progress id (now e) (snd d))
                   (bookings s)
        then [s; ended; written] else [s; written])
  /\ (forall d,
        fst (Rooms.force_end e id d) = fst d
        /\ Booking.status (snd (Rooms.force_end e id d))
           = Booking.status (snd d)
        /\ (Rooms.in_progress id (now e) (snd d) = true ->
            Booking.checkOut (snd (Rooms.force_end e id d)) = now e
            /\ Booking.checkIn (snd (Rooms.force_end e id d))
               = Booking.checkIn (snd d))
        /\ (Rooms.in_progress id (now e) (snd d) = false ->
            Rooms.force_end e id d = d)).
Proof.
  intros Hnd Hid Hroom Hdup Hstatus ended written.
  pose proof (put_room_run e id req s room Hnd Hid Hroom Hdup Hstatus) as Hrun.
  cbv zeta in Hrun. fold ended in Hrun. fold written in Hrun.
  unfold result, final, observable. rewrite Hrun. cbn [fst snd current committed].
  split; [reflexivity|]. split; [reflexivity|]. split.
  - destruct (existsb _ (bookings s)); reflexivity.
  - intros d. unfold Rooms.force_end.
    destruct (Rooms.in_progress id (now e) (snd d)).
    + repeat split; try reflexivity. discriminate.
    + repeat split; try reflexivity; discriminate.
Qed.

(** The theorem at room 101 on Jan 6 at noon, set to Maintenance during a
    confirmed stay. *)
Lemma put_room_ends_stays_in_progress_witness :
  let e := Scenario.env Scenario.noon_jan_6 true in
  let put := Rooms.put_room e "r1" Scenario.to_maintenance in
  let s := Scenario.mid_stay in
  let ended := mkStore (rooms s) (map (Rooms.force_end e "r1") (bookings s))
                       (payments s) in
  let written := mkStore (map (doc_set "r1" (Rooms.cleanUpdates
                                               e Scenario.to_maintenance))
                              (rooms s))
                         (bookings ended) (payments s) in
  (result put s = Done Rooms.updated
   /\ final put s = written
   /\ observable put s
      = (if existsb (fun d => Rooms.in_progress "r1" (now e) (snd d))
                    (bookings s)
         then [s; ended; written] else [s; written])
   /\ (forall d,
         fst (Rooms.force_end e "r1" d) = fst d
         /\ Booking.status (snd (Rooms.force_end e "r1" d))
            = Booking.status (snd d)
         /\ (Rooms.in_progress "r1" (now e) (snd d) = true ->
             Booking.checkOut (snd (Rooms.force_end e "r1" d)) = now e
             /\ Booking.checkIn (snd (Rooms.force_end e "r1" d))
                = Booking.checkIn (snd d))
         /\ (Rooms.in_progress "r1" (now e) (snd d) = false ->
             Rooms.force_end e "r1" d = d)))
  /\ map (fun i => (booking_stay (final put s) i,
                    booking_status (final put s) i))
         ["b1"; "b2"; "b3"; "b4"]
     = [ (Some (Scenario.jan 5, Scenario.noon_jan_6),
          Some ("confirmed", "paid"));
         (Some (Scenario.jan 10, Scenario.jan 12),
          Some ("pending", "unpaid"));
         (Some (Scenario.jan 5, Scenario.jan 8),
          Some ("cancelled", "unpaid"));
         (Some (Scenario.jan 5, Scenario.jan 8),
          Some ("confirmed", "paid")) ].
Proof.
  split; [|reflexivity].
  apply (put_room_ends_stays_in_progress
           (Scenario.env Scenario.noon_jan_6 true) "r1"
           Scenario.to_maintenance Scenario.mid_stay Scenario.room101).
  - simpl. repeat constructor; simpl; intuition discriminate.
  - discriminate.
  - reflexivity.
  - reflexivity.
  - now right.
Defined.

(** C9, as stated, fails in one point: the batch that ends the stays does
    not hold the room update. Setting room 101 to Maintenance during a stay
    commits the shortened stay first, and a state in which the stay already
    ends now while the room is still Available is observable before the
    room is written. *)
Lemma put_room_ends_stays_before_room_update :
  let e := Scenario.env Scenario.noon_jan_6 true in
  let put := Rooms.put_room e "r1" Scenario.to_maintenance in
  map (fun s => (booking_stay s "b1", room_status s "r1"))
      (observable put Scenario.mid_stay)
  = [ (Some (Scenario.jan 5, Scenario.jan 8), Some "Available");
      (Some (Scenario.jan 5, Scenario.noon_jan_6), Some "Available");
      (Some (Scenario.jan 5, Scenario.noon_jan_6), Some "Maintenance") ].
Proof.
  reflexivity.
Qed.

(** * Further properties *)

(** ** Phone numbers *)

Lemma strip_phone_unseparated (s : string) :
  unseparated (strip_phone s) = true.
Proof.
  induction s as [|c r IH]; simpl; [reflexivity|].
  destruct (is_space c || Ascii.eqb c "-" || Ascii.eqb c "(" || Ascii.eqb c ")")
    eqn:E; [exact IH|].
  simpl. now rewrite E, IH.
Qed.

Lemma strip_phone_fixed (s : string) :
  unseparated s = true -> strip_phone s = s.
Proof.
  induction s as [|c r IH]; simpl; [reflexivity|].
  intros H. apply andb_true_iff in H as [Hc Hr].
  apply negb_true_iff in Hc. rewrite Hc. now rewrite IH.
Qed.

(** The three branches of [formatPhoneNumber], by the first character of
    the stripped number. *)
Lemma formatPhoneNumber_cases (p : string) :
  p <> "" ->
  formatPhoneNumber (Some p)
  = Some (match strip_phone p with
          | EmptyString => "+256"
          | String a r =>
              if Ascii.eqb a "0" then "+256" +++ r
              else if Ascii.eqb a "+" then String a r
              else "+256" +++ String a r
          end).
Proof.
  intros Hp. unfold formatPhoneNumber.
  assert (Ht : truthy (Some p) = true) by now apply truthy_some.
  rewrite Ht. cbn [negb].
  destruct (strip_phone p) as [|a r]; [reflexivity|].
  destruct a as [[] [] [] [] [] [] [] []]; reflexivity.
Qed.

Lemma formatPhoneNumber_falsy (phone : option string) :
  truthy phone = false -> formatPhoneNumber phone = None.
Proof. intros H. unfold formatPhoneNumber. now rewrite H. Qed.

Lemma formatted_shape (p : string) (f : string) :
  p <> "" -> formatPhoneNumber (Some p) = Some f ->
  unseparated f = true /\ exists r, f = String "+" r.
Proof.
  intros Hp. rewrite (formatPhoneNumber_cases p Hp). intros H.
  inversion H as [Hf]. clear H.
  pose proof (strip_phone_unseparated p) as Hclean.
  destruct (strip_phone p) as [|a r]; [split; [reflexivity|eauto]|].
  simpl in Hclean. apply andb_true_iff in Hclean as [Ha Hr].
  destruct (Ascii.eqb_spec a "0") as [E0|E0].
  - split; [simpl; exact Hr | simpl; eauto].
  - destruct (Ascii.eqb_spec a "+") as [E1|E1].
    + subst a. split; [simpl; exact Hr | eauto].
    + split; [simpl; now rewrite Ha, Hr | simpl; eauto].
Qed.

(** X1. [formatPhoneNumber] answers null exactly for a missing or empty
    phone; any other input yields a number that starts with a plus sign
    and holds no white space, dash or parenthesis. *)
Theorem formatPhoneNumber_canonical (phone : option string) :
  (formatPhoneNumber phone = None <-> truthy phone = false)
  /\ (forall f, formatPhoneNumber phone = Some f ->
                unseparated f = true /\ exists r, f = String "+" r).
Proof.
  destruct (truthy phone) eqn:Et.
  - destruct phone as [p|]; [|discriminate].
    apply truthy_some in Et. split.
    + rewrite (formatPhoneNumber_cases p Et). split; discriminate.
    + intros f. now apply formatted_shape.
  - rewrite (formatPhoneNumber_falsy phone Et). split.
    + split; reflexivity.
    + discriminate.
Qed.

(** X2. Formatting is idempotent: a number that [formatPhoneNumber]
    produced is returned unchanged when it is formatted again. *)
Theorem formatPhoneNumber_idempotent (phone : option string) :
  formatPhoneNumber (formatPhoneNumber phone) = formatPhoneNumber phone.
Proof.
  destruct (truthy phone) eqn:Et.
  - destruct phone as [p|]; [|discriminate].
    apply truthy_some in Et.
    destruct (formatPhoneNumber (Some p)) as [f|] eqn:Ef; [|reflexivity].
    destruct (formatted_shape p f Et Ef) as (Hclean & r & ->).
    rewrite formatPhoneNumber_cases by discriminate.
    now rewrite (strip_phone_fixed _ Hclean).
  - now rewrite (formatPhoneNumber_falsy phone Et).
Qed.

(** X3. A local number written with a leading 0 and the same number
    written with the country code +256 are formatted to the same result,
    whatever separators either holds. *)
Theorem formatPhoneNumber_local_is_international (rest : string) :
  formatPhoneNumber (Some (String "0" rest))
  = formatPhoneNumber (Some ("+256" +++ rest)).
Proof.
  rewrite !formatPhoneNumber_cases by discriminate. reflexivity.
Qed.

(** ** Prices *)

Lemma ceil_div_between (a b n : Z) :
  0 < b -> (n - 1) * b < a <= n * b -> ceil_div a b = n.
Proof.
  intros Hb [Hlo Hhi]. unfold ceil_div.
  assert (H : (- a) / b = - n).
  { symmetry. apply (Z.div_unique_pos (- a) b (- n) (n * b - a)); lia. }
  rewrite H. lia.
Qed.

Lemma ceil_div_nonpositive (a b : Z) :
  0 < b -> a <= 0 -> ceil_div a b <= 0.
Proof.
  intros Hb Ha. unfold ceil_div.
  assert (0 <= (- a) / b) by (apply Z.div_pos; lia). lia.
Qed.

(** X4. [calculateTotalPrice] charges the nightly price for every started
    night: a stay longer than n-1 days and at most n days costs n times the
    price, and a stay of at most one day, a same-day or reversed one
    included, is charged one night. This is the result of the JavaScript
    function as long as the length of the stay in milliseconds and the
    total are integers that a number holds exactly. *)
Theorem calculateTotalPrice_per_started_night
        (pricePerNight checkIn checkOut n : Z) :
  exact (checkOut - checkIn) ->
  exact (pricePerNight * n) ->
  1 <= n ->
  checkOut - checkIn <= n * MS_PER_DAY ->
  (n - 1) * MS_PER_DAY < checkOut - checkIn \/ n = 1 ->
  calculateTotalPrice pricePerNight checkIn checkOut = pricePerNight * n.
Proof.
  intros _ _ Hn Hhi Hlo. unfold calculateTotalPrice.
  destruct (Z.eqb_spec pricePerNight 0) as [-> | Hp]; [lia|].
  assert (Hday : 0 < MS_PER_DAY) by reflexivity.
  destruct (Z_lt_le_dec ((n - 1) * MS_PER_DAY) (checkOut - checkIn))
    as [Hin | Hout].
  - rewrite (ceil_div_between _ _ n Hday (conj Hin Hhi)).
    destruct (n >? 0) eqn:E; [reflexivity|].
    rewrite Z.gtb_ltb in E. apply Z.ltb_ge in E. lia.
  - destruct Hlo as [Hlo | ->]; [lia|].
    pose proof (ceil_div_nonpositive (checkOut - checkIn) MS_PER_DAY Hday)
      as Hle.
    destruct (ceil_div (checkOut - checkIn) MS_PER_DAY >? 0) eqn:E;
      [|reflexivity].
    rewrite Z.gtb_ltb in E. apply Z.ltb_lt in E. lia.
Qed.

(** Three nights at 100 cost 300. *)
Lemma calculateTotalPrice_per_started_night_witness :
  calculateTotalPrice 100 (Scenario.jan 1) (Scenario.jan 4) = 100 * 3.
Proof.
  apply (calculateTotalPrice_per_started_night
           100 (Scenario.jan 1) (Scenario.jan 4) 3).
  - unfold exact. vm_compute. discriminate.
  - unfold exact. vm_compute. discriminate.
  - lia.
  - vm_compute. discriminate.
  - left. vm_compute. reflexivity.
Defined.

(** ** The overlap checker, further *)

Lemma scan_overlap_true (docs : Coll Booking.t) (s e : Instant)
      (ex : option DocId) :
  ex <> Some "" ->
  (scan_overlap docs s e ex = true <->
   forall id b, In (id, b) docs -> ex <> Some id ->
                ~ (s < Booking.checkOut b /\ e > Booking.checkIn b)).
Proof.
  intros Hex. split.
  - intros Htrue id b Hin Hne Hov.
    assert (Hfalse : scan_overlap docs s e ex = false)
      by (apply (scan_overlap_false docs s e ex Hex); exists id, b; tauto).
    congruence.
  - intros Hnone. apply not_false_is_true. intros Hfalse.
    apply (scan_overlap_false docs s e ex Hex) in Hfalse
      as (id & b & Hin & Hne & H1 & H2).
    apply (Hnone id b Hin Hne). tauto.
Qed.

(** The room is free for an interval exactly when no blocking booking of
    the room, the excluded one apart, overlaps it. *)
Lemma checkAvailability_true (stored : Coll Booking.t) (room : DocId)
      (s e : Instant) (ex : option DocId) :
  ex <> Some "" ->
  (checkAvailability stored room s e ex = true <->
   forall id b, In (id, b) stored -> Booking.roomId b = room ->
                blocking_status (Booking.status b) = true ->
                ex <> Some id ->
                ~ (s < Booking.checkOut b /\ e > Booking.checkIn b)).
Proof.
  intros Hex. unfold checkAvailability.
  rewrite (scan_overlap_true _ s e ex Hex). split.
  - intros H id b Hin Hroom Hblock Hne. apply (H id b); [|assumption].
    apply filter_In. split; [assumption|]. cbn [snd].
    apply andb_true_iff. split; [now apply String.eqb_eq | assumption].
  - intros H id b Hin Hne. apply filter_In in Hin as [Hin Hq].
    cbn [snd] in Hq. apply andb_true_iff in Hq as [Hroom Hblock].
    apply String.eqb_eq in Hroom. now apply (H id b).
Qed.

(** X5. Availability is inherited by sub-intervals: when a room is free
    for an interval it is free for every interval inside it, with the same
    exclusion. *)
Theorem checkAvailability_subinterval
        (stored : Coll Booking.t) (room : DocId)
        (from to from' to' : Instant) (excludeBookingId : option DocId) :
  excludeBookingId <> Some "" ->
  from <= from' -> to' <= to ->
  checkAvailability stored room from to excludeBookingId = true ->
  checkAvailability stored room from' to' excludeBookingId = true.
Proof.
  intros Hex Hfrom Hto Hfree.
  apply (checkAvailability_true stored room from' to' _ Hex).
  intros id b Hin Hroom Hblock Hne [H1 H2].
  apply (proj1 (checkAvailability_true stored room from to _ Hex) Hfree
               id b Hin Hroom Hblock Hne).
  lia.
Qed.

Lemma checkAvailability_subinterval_witness :
  checkAvailability (bookings Scenario.back_to_back) "r1"
                    (Scenario.jan 15) (Scenario.jan 16) None = true.
Proof.
  apply (checkAvailability_subinterval
           (bookings Scenario.back_to_back) "r1"
           (Scenario.jan 14) (Scenario.jan 20)
           (Scenario.jan 15) (Scenario.jan 16) None).
  - discriminate.
  - vm_compute. discriminate.
  - vm_compute. discriminate.
  - reflexivity.
Defined.

(** ** Creating a booking, further *)

(** The three outcomes of POST /bookings: a refusal that commits nothing;
    for a request without payment method, the booking added and the answer
    500; or the booking and its payment added in two commits. *)
Lemma post_booking_outcome (e : Env) (req : Bookings.CreateBody)
      (s : Store) :
  (exists r, run (Bookings.post_booking e req) s = (Done r, mkWorld s [])
             /\ In (code r) [400; 404; 409; 500])
  \/ exists start end_ roomData userId b,
       getTime (Bookings.checkIn req) = Some start
       /\ getTime (Bookings.checkOut req) = Some end_
       /\ start < end_
       /\ doc_get (rooms s) (or_else (Bookings.roomId req) "")
          = Some roomData
       /\ checkAvailability (bookings s) (or_else (Bookings.roomId req) "")
                            start end_ None = true
       /\ resolvedUser e = Done userId
       /\ Bookings.guestName req <> None
       /\ (Booking.roomId b = or_else (Bookings.roomId req) ""
           /\ Booking.checkIn b = start
           /\ Booking.checkOut b = end_
           /\ Booking.status b = or_else (Bookings.status req) "pending"
           /\ Booking.paymentStatus b
              = or_else (Bookings.paymentStatus req) "unpaid"
           /\ Booking.totalPrice b
              = calculateTotalPrice (Room.price roomData) start end_
           /\ Booking.userId b = userId
           /\ Booking.createdBy b = uid e)
       /\ let s1 := mkStore (rooms s)
                            (doc_add (bookings s) (bookingDocId e) b)
                            (payments s) in
          (Bookings.paymentMethod req = None
           /\ run (Bookings.post_booking e req) s
              = (Done (Bookings.error 500 "INVALID_ARGUMENT"),
                 mkWorld s1 [s1]))
          \/ exists p msg,
               Bookings.paymentMethod req <> None
               /\ (Payment.bookingId p = bookingDocId e
                   /\ Payment.userId p = userId
                   /\ Payment.amount p = Booking.totalPrice b
                   /\ Payment.customer_reference p = generateReference e
                   /\ Payment.status p
                      = or_else (Bookings.paymentStatus req) "pending"
                   /\ Payment.externalReference p = None)
               /\ let s2 := mkStore (rooms s) (bookings s1)
                                    (doc_add (payments s) (paymentDocId e) p)
                  in
                  run (Bookings.post_booking e req) s
                  = (Done (mkResponse 201
                             (Json [("success", JBool true);
                                    ("id", JStr (bookingDocId e));
                                    ("message", JStr msg)])),
                     mkWorld s2 [s2; s1]).
Proof.
  unfold Bookings.post_booking, Bookings.error. unfold_handler.
  destruct (getTime (Bookings.checkIn req)) as [start|];
    [|left; eexists; split; [reflexivity | simpl; tauto]].
  destruct (getTime (Bookings.checkOut req)) as [end_|];
    [|left; eexists; split; [reflexivity | simpl; tauto]].
  destruct (start >=? end_) eqn:Eorder;
    [left; eexists; split; [reflexivity | simpl; tauto]|].
  destruct (is_str (Bookings.paymentMethod req) "Cash"
            && negb (truthy (Bookings.receivedBy req)));
    [left; eexists; split; [reflexivity | simpl; tauto]|].
  destruct (or_else (Bookings.roomId req) "" === "");
    [left; eexists; split; [reflexivity | simpl; tauto]|].
  cbn [current committed].
  destruct (doc_get (rooms s) _) as [roomData|] eqn:Eroom;
    [|left; eexists; split; [reflexivity | simpl; tauto]].
  cbn [current committed].
  destruct (checkAvailability (bookings s) _ start end_ None) eqn:Efree;
    [|left; eexists; split; [reflexivity | simpl; tauto]].
  cbn [negb].
  destruct (resolvedUser e) as [userId|err];
    [|left; eexists; split; [reflexivity | simpl; tauto]].
  destruct (Bookings.guestName req) as [name|];
    [|left; eexists; split; [reflexivity | simpl; tauto]].
  right. exists start, end_, roomData, userId.
  cbn [apply_writes apply_write current committed rooms bookings payments].
  rewrite Z.geb_leb in Eorder. apply Z.leb_gt in Eorder.
  destruct (Bookings.paymentMethod req) as [method|].
  - eexists. repeat apply conj; revgoals;
      [ right;
        cbn [apply_writes apply_write current committed rooms bookings
             payments];
        do 2 eexists; repeat apply conj; revgoals;
        first [reflexivity | discriminate]
      | .. ];
      first [reflexivity | assumption | discriminate].
  - eexists. repeat apply conj; revgoals;
      [ left; split; reflexivity | .. ];
      first [reflexivity | assumption | discriminate].
Qed.





Lemma overlap_sym (a b : Booking.t) : overlap a b -> overlap b a.
Proof. unfold overlap. lia. Qed.

(** The two stays of [Scenario.back_to_back] touch and do not overlap. *)
Lemma back_to_back_no_double_booking :
  no_double_booking (bookings Scenario.back_to_back).
Proof.
  intros i j a b [Hi | [Hi | []]] [Hj | [Hj | []]] Hij _ _ _;
    inversion Hi; inversion Hj; subst; try congruence;
    unfold overlap; vm_compute; intros [H1 H2]; discriminate.
Qed.

(** Adding a booking that the overlap checker has accepted keeps the
    bookings free of double bookings. *)
Lemma add_checked_booking (c : Coll Booking.t) (id : DocId)
      (nb : Booking.t) :
  no_double_booking c ->
  checkAvailability c (Booking.roomId nb) (Booking.checkIn nb)
                    (Booking.checkOut nb) None = true ->
  no_double_booking (doc_add c id nb).
Proof.
  intros Hinv Hfree. unfold doc_add.
  assert (Hnew : forall j b, In (j, b) c ->
            Booking.roomId b = Booking.roomId nb ->
            blocking_status (Booking.status b) = true ->
            ~ overlap nb b).
  { intros j b Hj Hroom Hblock [H1 H2].
    assert (Hnone : @None string <> Some "") by discriminate.
    apply (proj1 (checkAvailability_true _ _ _ _ None Hnone) Hfree
                 j b Hj); try assumption.
    - discriminate.
    - split; assumption. }
  intros i j a b Hi Hj Hne Hroom Ha Hb.
  apply in_app_or in Hi as [Hi | [Hi | []]];
    apply in_app_or in Hj as [Hj | [Hj | []]].
  - now apply (Hinv i j a b).
  - inversion Hj; subst. intros Hov. apply overlap_sym in Hov.
    now apply (Hnew i a Hi Hroom Ha).
  - inversion Hi; subst. now apply (Hnew j b Hj (eq_sym Hroom) Hb).
  - inversion Hi; inversion Hj; subst. congruence.
Qed.

(** X8. Creating bookings one request after the other keeps the rule that
    no two pending or confirmed bookings of a room overlap: if it holds
    before POST /bookings it holds after, whatever the request. *)
Theorem post_booking_keeps_no_double_booking
        (e : Env) (req : Bookings.CreateBody) (s : Store) :
  no_double_booking (bookings s) ->
  no_double_booking (bookings (final (Bookings.post_booking e req) s)).
Proof.
  intros Hinv. unfold final.
  destruct (post_booking_outcome e req s)
    as [(r & -> & Hcode)
       | (st & en & rd & u & nb & _ & _ & _ & _ & Hfree & _ & _ & Hb & H)];
    [exact Hinv|].
  destruct Hb as (Hrid & Hin & Hout & _).
  rewrite <- Hrid, <- Hin, <- Hout in Hfree.
  cbv zeta in H. destruct H as [[_ ->] | (p & msg & _ & _ & ->)];
    cbn [snd current bookings]; now apply add_checked_booking.
Qed.

(** A third reservation of room 101, for the two days after the two stays
    already booked: it is accepted, and the three stays do not overlap. *)
Lemma post_booking_keeps_no_double_booking_witness :
  no_double_booking
    (bookings (final (Bookings.post_booking
                        (Scenario.env (Scenario.jan 6) true)
                        Examples.later_reservation)
                     Scenario.back_to_back)).
Proof.
  apply (post_booking_keeps_no_double_booking
           (Scenario.env (Scenario.jan 6) true) Examples.later_reservation
           Scenario.back_to_back).
  exact back_to_back_no_double_booking.
Defined.

(** ** Editing a booking, further *)

(** The outcomes of PUT /bookings/:id: nothing written and an answer other
    than 200, or the one booking rewritten with the fields of the request
    and the answer 200. *)
Lemma put_booking_outcome (e : Env) (id : DocId)
      (req : Bookings.UpdateBody) (s : Store) :
  (exists r, run (Bookings.put_booking e id req) s = (Done r, mkWorld s [])
             /\ In (code r) [409; 500])
  \/ (id <> "" /\ doc_get (bookings s) id <> None
      /\ Bookings.u_checkIn req <> Unparsable
      /\ Bookings.u_checkOut req <> Unparsable
      /\ (forall room from to,
            Bookings.u_roomId req = Some room -> room <> "" ->
            Bookings.u_checkIn req = Parsed from ->
            Bookings.u_checkOut req = Parsed to ->
            checkAvailability (bookings s) room from to (Some id) = true)
      /\ let s' :=
           mkStore (rooms s)
                   (map (doc_set id
                           (Bookings.updates e req
                              (getTime (Bookings.u_checkIn req))
                              (getTime (Bookings.u_checkOut req))))
                        (bookings s))
                   (payments s) in
         run (Bookings.put_booking e id req) s
         = (Done (mkResponse 200 (Json [("success", JBool true)])),
            mkWorld s' [s'])).
Proof.
  unfold Bookings.put_booking, Bookings.error, fromDate. unfold_handler.
  assert (Hstop : forall c msg,
            In c [409; 500] ->
            exists r, (Done (mkResponse c (Json [("error", JStr msg)])),
                       mkWorld s [])
                      = (Done r, mkWorld s []) /\ In (code r) [409; 500])
    by (intros c msg Hc; eexists; split; [reflexivity | exact Hc]).
  destruct (Bookings.u_checkIn req) as [| |from] eqn:Ein;
    [ | left; apply Hstop; simpl; tauto | ];
    (destruct (Bookings.u_checkOut req) as [| |to] eqn:Eout;
     [ | left; apply Hstop; simpl; tauto | ]).
  all: cbn [given orb getTime].
  all: try rewrite !orb_true_r; try rewrite !orb_false_r.
  1-3: destruct (truthy (Bookings.u_roomId req)).
  7: destruct (truthy (Bookings.u_roomId req)) eqn:Eroom.
  7: cbn [current committed];
     destruct (checkAvailability (bookings s) _ from to (Some id)) eqn:Efree;
     [ | left; apply Hstop; simpl; tauto ].
  all: cbn [negb current committed].
  all: destruct (id === "") eqn:Eid; [left; apply Hstop; simpl; tauto|].
  all: cbn [current committed]; rewrite apply_booking.
  all: destruct (doc_get (bookings s) id) eqn:Edoc;
    [ | left; apply Hstop; simpl; tauto ].
  all: right; apply String.eqb_neq in Eid.
  all: (split; [exact Eid|]); (split; [discriminate|]);
       (split; [discriminate|]); (split; [discriminate|]).
  all: split; [ | reflexivity ].
  all: intros room from' to' Hroom Hne Hin Hout; try discriminate.
  - inversion Hin; inversion Hout; subst.
    rewrite Hroom in Efree. now rewrite (or_else_some room _ Hne) in Efree.
  - rewrite Hroom in Eroom.
    assert (truthy (Some room) = true) by now apply truthy_some.
    congruence.
Qed.

Lemma in_map_set {A : Type} (c : Coll A) (id : DocId) (f : A -> A)
      (i : DocId) (a' : A) :
  In (i, a') (map (doc_set id f) c) ->
  exists a, In (i, a) c /\ a' = if i === id then f a else a.
Proof.
  intros H. apply in_map_iff in H as ([j a] & Hset & Hin).
  unfold doc_set in Hset. cbn [fst snd] in Hset.
  destruct (j === id) eqn:E; injection Hset as Hj Ha; rewrite <- Hj;
    exists a; rewrite E; auto.
Qed.

(** X9. PUT /bookings/:id changes at most the booking it names: the
    rooms, the payments, the ids of the bookings and every other booking
    are as before, whatever the request and its answer. *)
Theorem put_booking_touches_only_its_booking
        (e : Env) (id : DocId) (req : Bookings.UpdateBody) (s : Store) :
  let s' := final (Bookings.put_booking e id req) s in
  rooms s' = rooms s
  /\ payments s' = payments s
  /\ map fst (bookings s') = map fst (bookings s)
  /\ forall j, j <> id -> doc_get (bookings s') j = doc_get (bookings s) j.
Proof.
  unfold final.
  destruct (put_booking_outcome e id req s)
    as [(r & -> & _) | (_ & _ & _ & _ & _ & ->)];
    cbn [snd current rooms bookings payments]; [auto|].
  repeat split.
  - rewrite map_map. apply map_ext. intros d. apply doc_set_id.
  - intros j Hj. rewrite doc_get_map_set.
    apply String.eqb_neq in Hj. rewrite Hj.
    now destruct (doc_get (bookings s) j).
Qed.

(** X10. An edit of a booking that does not exist writes nothing and is
    answered 409 or 500, never 404: the handler does not read the booking,
    and the rejected update surfaces as a server error. *)
Theorem put_booking_unknown_id
        (e : Env) (id : DocId) (req : Bookings.UpdateBody) (s : Store) :
  doc_get (bookings s) id = None ->
  final (Bookings.put_booking e id req) s = s
  /\ observable (Bookings.put_booking e id req) s = [s]
  /\ In (code_of (result (Bookings.put_booking e id req) s)) [409; 500].
Proof.
  intros Hnone. unfold result, final, observable.
  destruct (put_booking_outcome e id req s)
    as [(r & -> & Hc) | (_ & Hex & _)]; [|congruence].
  cbn [fst snd current committed rev app code_of]. auto.
Qed.

Lemma put_booking_unknown_id_witness :
  let put := Bookings.put_booking (Scenario.env (Scenario.jan 6) true) "b7"
               (Scenario.extend_to (Scenario.jan 13)) in
  final put Scenario.back_to_back = Scenario.back_to_back
  /\ observable put Scenario.back_to_back = [Scenario.back_to_back]
  /\ In (code_of (result put Scenario.back_to_back)) [409; 500].
Proof.
  apply (put_booking_unknown_id (Scenario.env (Scenario.jan 6) true) "b7"
           (Scenario.extend_to (Scenario.jan 13)) Scenario.back_to_back).
  reflexivity.
Defined.

(** The fields that an edit naming room and both dates gives the booking. *)
Lemma updates_full (e : Env) (req : Bookings.UpdateBody) (room : string)
      (from to : Instant) (b : Booking.t) :
  Bookings.u_roomId req = Some room -> room <> "" ->
  let b' := Bookings.updates e req (Some from) (Some to) b in
  Booking.roomId b' = room /\ Booking.checkIn b' = from
  /\ Booking.checkOut b' = to.
Proof.
  intros Hroom Hne. unfold Bookings.updates, assign_str, assign_opt.
  rewrite Hroom.
  assert (Ht : truthy (Some room) = true) by now apply truthy_some.
  rewrite Ht, (or_else_some room _ Hne).
  destruct (truthy (Bookings.u_paymentPhone req)),
    (Bookings.u_receivedBy req), (truthy (Bookings.u_paymentStatus req)),
    (truthy (Bookings.u_paymentMethod req)),
    (truthy (Bookings.u_status req)), (truthy (Bookings.u_guestPhone req)),
    (truthy (Bookings.u_guestName req)); repeat split; reflexivity.
Qed.

(** X11. An edit that names the room and both dates keeps the rule that no
    two pending or confirmed bookings of a room overlap: when it holds
    before the edit it holds after, whether the edit is stored or
    refused. *)
Theorem put_booking_full_edit_keeps_no_double_booking
        (e : Env) (id : DocId) (req : Bookings.UpdateBody) (s : Store)
        (room : string) (from to : Instant) :
  Bookings.u_roomId req = Some room -> room <> "" ->
  Bookings.u_checkIn req = Parsed from ->
  Bookings.u_checkOut req = Parsed to ->
  no_double_booking (bookings s) ->
  no_double_booking (bookings (final (Bookings.put_booking e id req) s)).
Proof.
  intros Hroom Hne Hin Hout Hinv. unfold final.
  destruct (put_booking_outcome e id req s)
    as [(r & -> & _) | (Hid & _ & _ & _ & Hfree & ->)]; [exact Hinv|].
  specialize (Hfree room from to Hroom Hne Hin Hout).
  rewrite Hin, Hout. cbn [snd current bookings getTime].
  assert (Hex : Some id <> Some "") by congruence.
  pose proof (proj1 (checkAvailability_true _ _ _ _ _ Hex) Hfree) as Hclear.
  intros i j a' b' Hi Hj Hij Hsame Ha Hb.
  apply in_map_set in Hi as (a & Hia & ->).
  apply in_map_set in Hj as (b & Hjb & ->).
  destruct (String.eqb_spec i id) as [Ei | Ei];
    destruct (String.eqb_spec j id) as [Ej | Ej].
  - congruence.
  - destruct (updates_full e req room from to a Hroom Hne)
      as (Hr & Hci & Hco).
    unfold overlap. rewrite Hci, Hco. rewrite Hr in Hsame.
    apply (Hclear j b Hjb); [now symmetry | assumption | congruence].
  - destruct (updates_full e req room from to b Hroom Hne)
      as (Hr & Hci & Hco).
    intros Hov. apply overlap_sym in Hov. revert Hov.
    unfold overlap. rewrite Hci, Hco. rewrite Hr in Hsame.
    apply (Hclear i a Hia); [assumption | assumption | congruence].
  - now apply (Hinv i j a b).
Qed.

(** The two back-to-back bookings of room 101 do not overlap. *)
Lemma put_booking_full_edit_keeps_no_double_booking_witness :
  no_double_booking
    (bookings (final (Bookings.put_booking
                        (Scenario.env (Scenario.jan 6) true) "b1"
                        (Scenario.move_to (Scenario.jan 9)
                                          (Scenario.jan 11)))
                     Scenario.back_to_back)).
Proof.
  apply (put_booking_full_edit_keeps_no_double_booking
           (Scenario.env (Scenario.jan 6) true) "b1"
           (Scenario.move_to (Scenario.jan 9) (Scenario.jan 11))
           Scenario.back_to_back "r1" (Scenario.jan 9) (Scenario.jan 11)).
  - reflexivity.
  - discriminate.
  - reflexivity.
  - reflexivity.
  - exact back_to_back_no_double_booking.
Defined.

(** ** Cancelling a booking *)

(** What a cancellation does, by cases on the caller and the store. *)
Lemma cancel_booking_run (e : Env) (role : option string) (id : DocId)
      (s : Store) :
  run (cancel_booking e role id) s
  = if id === "" then (Done (Bookings.error 500 "INVALID_ARGUMENT"),
                       mkWorld s [])
    else
      match doc_get (bookings s) id with
      | None => (Done (Bookings.error 404 "Booking not found"), mkWorld s [])
      | Some data =>
          if negb (is_str role "admin") && negb (is_str role "manager")
             && negb (Booking.userId data === uid e)
          then (Done (Bookings.error 403 "Unauthorized"), mkWorld s [])
          else
            let s' :=
              mkStore (rooms s)
                      (map (doc_set id
                              (fun b => Booking.set_updatedAt
                                          (Some (serverTime e))
                                          (Booking.set_status "cancelled" b)))
                           (bookings s))
                      (payments s) in
            (Done (mkResponse 200 (Json [("success", JBool true)])),
             mkWorld s' [s'])
      end.
Proof.
  unfold cancel_booking. unfold_handler.
  destruct (id === ""); [reflexivity|]. cbn [current committed].
  destruct (doc_get (bookings s) id) as [data|] eqn:Edoc; [|reflexivity].
  destruct (negb (is_str role "admin") && negb (is_str role "manager")
            && negb (Booking.userId data === uid e)); [reflexivity|].
  cbn [current committed]. rewrite apply_booking, Edoc. reflexivity.
Qed.

Lemma may_cancel (e : Env) (role : option string) (data : Booking.t) :
  role = Some "admin" \/ role = Some "manager"
  \/ Booking.userId data = uid e ->
  negb (is_str role "admin") && negb (is_str role "manager")
  && negb (Booking.userId data === uid e) = false.
Proof.
  intros [-> | [-> | Hown]]; [reflexivity | reflexivity |].
  rewrite Hown, String.eqb_refl. cbn [negb]. now rewrite andb_false_r.
Qed.

(** X12. A cancellation by an administrator, a manager or the guest who
    owns the booking is answered 200 and sets the lifecycle status of that
    booking to cancelled; its payment status, every other booking, the
    rooms and the payments are left as they were. *)
Theorem cancel_booking_sets_cancelled
        (e : Env) (role : option string) (id : DocId) (s : Store)
        (data : Booking.t) :
  id <> "" ->
  doc_get (bookings s) id = Some data ->
  role = Some "admin" \/ role = Some "manager"
  \/ Booking.userId data = uid e ->
  let s' := final (cancel_booking e role id) s in
  result (cancel_booking e role id) s
  = Done (mkResponse 200 (Json [("success", JBool true)]))
  /\ booking_status s' id = Some ("cancelled", Booking.paymentStatus data)
  /\ booking_stay s' id = booking_stay s id
  /\ (forall j, j <> id -> doc_get (bookings s') j = doc_get (bookings s) j)
  /\ rooms s' = rooms s /\ payments s' = payments s.
Proof.
  intros Hid Hdoc Hmay. unfold result, final.
  rewrite cancel_booking_run. apply String.eqb_neq in Hid.
  rewrite Hid, Hdoc, (may_cancel e role data Hmay).
  cbn [fst snd current rooms bookings payments].
  unfold booking_status, booking_stay. cbn [bookings].
  rewrite doc_get_map_set, Hdoc, String.eqb_refl. cbn [option_map].
  repeat split.
  intros j Hj. rewrite doc_get_map_set. apply String.eqb_neq in Hj.
  rewrite Hj. now destruct (doc_get (bookings s) j).
Qed.

Lemma cancel_booking_sets_cancelled_witness :
  let e := Scenario.env (Scenario.jan 6) true in
  let s := Scenario.back_to_back in
  let s' := final (cancel_booking e (Some "manager") "b2") s in
  result (cancel_booking e (Some "manager") "b2") s
  = Done (mkResponse 200 (Json [("success", JBool true)]))
  /\ booking_status s' "b2" = Some ("cancelled", "paid")
  /\ booking_stay s' "b2" = booking_stay s "b2"
  /\ (forall j, j <> "b2" ->
                doc_get (bookings s') j = doc_get (bookings s) j)
  /\ rooms s' = rooms s /\ payments s' = payments s.
Proof.
  apply (cancel_booking_sets_cancelled
           (Scenario.env (Scenario.jan 6) true) (Some "manager") "b2"
           Scenario.back_to_back
           (Scenario.stay "r1" "confirmed" "paid" (Scenario.jan 12)
                          (Scenario.jan 14))).
  - discriminate.
  - reflexivity.
  - right. now left.
Defined.

(** X13. A cancellation by a caller who is neither administrator nor
    manager nor the owner of the booking is answered 403, and one of a
    booking that does not exist 404; neither writes anything. *)
Theorem cancel_booking_refused
        (e : Env) (role : option string) (id : DocId) (s : Store) :
  id <> "" ->
  role <> Some "admin" -> role <> Some "manager" ->
  (forall data, doc_get (bookings s) id = Some data ->
                Booking.userId data <> uid e) ->
  final (cancel_booking e role id) s = s
  /\ observable (cancel_booking e role id) s = [s]
  /\ result (cancel_booking e role id) s
     = Done (match doc_get (bookings s) id with
             | Some _ => Bookings.error 403 "Unauthorized"
             | None => Bookings.error 404 "Booking not found"
             end).
Proof.
  intros Hid Hadmin Hmanager Hother. unfold result, final, observable.
  rewrite cancel_booking_run. apply String.eqb_neq in Hid. rewrite Hid.
  destruct (doc_get (bookings s) id) as [data|]; [|auto].
  assert (Ha : is_str role "admin" = false)
    by (apply not_true_is_false; intros H; now apply is_str_true in H).
  assert (Hm : is_str role "manager" = false)
    by (apply not_true_is_false; intros H; now apply is_str_true in H).
  assert (Ho : (Booking.userId data === uid e) = false)
    by (apply String.eqb_neq; now apply Hother).
  rewrite Ha, Hm, Ho. cbn [negb andb fst snd current committed rev app].
  auto.
Qed.

Lemma cancel_booking_refused_witness :
  let e := Scenario.env (Scenario.jan 6) true in
  let s := Scenario.back_to_back in
  final (cancel_booking e (Some "customer") "b2") s = s
  /\ observable (cancel_booking e (Some "customer") "b2") s = [s]
  /\ result (cancel_booking e (Some "customer") "b2") s
     = Done (match doc_get (bookings s) "b2" with
             | Some _ => Bookings.error 403 "Unauthorized"
             | None => Bookings.error 404 "Booking not found"
             end).
Proof.
  apply (cancel_booking_refused (Scenario.env (Scenario.jan 6) true)
           (Some "customer") "b2" Scenario.back_to_back).
  - discriminate.
  - discriminate.
  - discriminate.
  - intros data H. vm_compute in H. inversion H. vm_compute. discriminate.
Defined.

(** X14. Cancelling a booking frees exactly its own stay: after the
    cancellation the overlap checker answers, for every room and interval,
    what it answered before with that booking excluded. *)
Theorem cancel_booking_frees_its_stay
        (e : Env) (role : option string) (id : DocId) (s : Store)
        (data : Booking.t) (room : DocId) (from to : Instant) :
  id <> "" ->
  doc_get (bookings s) id = Some data ->
  role = Some "admin" \/ role = Some "manager"
  \/ Booking.userId data = uid e ->
  checkAvailability (bookings (final (cancel_booking e role id) s))
                    room from to None
  = checkAvailability (bookings s) room from to (Some id).
Proof.
  intros Hid Hdoc Hmay. unfold final. rewrite cancel_booking_run.
  pose proof Hid as Hid'. apply String.eqb_neq in Hid'.
  rewrite Hid', Hdoc, (may_cancel e role data Hmay).
  cbn [snd current bookings].
  assert (Hnone : @None string <> Some "") by discriminate.
  assert (Hsome : Some id <> Some "") by congruence.
  apply Bool.eq_iff_eq_true.
  rewrite (checkAvailability_true _ room from to None Hnone).
  rewrite (checkAvailability_true _ room from to (Some id) Hsome).
  split.
  - intros H j b Hin Hroom Hblock Hne.
    apply (H j b); try assumption; [|discriminate].
    apply in_map_iff. exists (j, b). split; [|assumption].
    unfold doc_set. cbn [fst snd].
    destruct (String.eqb_spec j id); [congruence | reflexivity].
  - intros H j b' Hin Hroom Hblock _.
    apply in_map_set in Hin as (b & Hin & ->).
    destruct (String.eqb_spec j id) as [Ej | Ej].
    + discriminate Hblock.
    + apply (H j b); try assumption. congruence.
Qed.

Lemma cancel_booking_frees_its_stay_witness :
  checkAvailability
    (bookings (final (cancel_booking (Scenario.env (Scenario.jan 6) true)
                                     (Some "admin") "b2")
                     Scenario.back_to_back))
    "r1" (Scenario.jan 12) (Scenario.jan 14) None
  = checkAvailability (bookings Scenario.back_to_back)
                      "r1" (Scenario.jan 12) (Scenario.jan 14) (Some "b2").
Proof.
  apply (cancel_booking_frees_its_stay
           (Scenario.env (Scenario.jan 6) true) (Some "admin") "b2"
           Scenario.back_to_back
           (Scenario.stay "r1" "confirmed" "paid" (Scenario.jan 12)
                          (Scenario.jan 14))).
  - discriminate.
  - reflexivity.
  - now left.
Defined.

(** ** The webhook and the payments, further *)

Lemma doc_get_some_in {A : Type} (c : Coll A) (id : DocId) (a : A) :
  doc_get c id = Some a -> In (id, a) c.
Proof.
  induction c as [|[j x] rest IH]; simpl; [discriminate|].
  destruct (String.eqb_spec j id) as [-> | Hne].
  - intros H. inversion H. now left.
  - intros H. right. now apply IH.
Qed.

(** X15. A cancellation is not final for the webhook: when the payment of
    a cancelled booking is later confirmed by a success delivery that
    carries a provider transaction id, the booking is set back to confirmed
    and paid, and it blocks its room again. *)
Theorem webhook_success_revives_cancelled_booking
        (e e' : Env) (role : option string) (req : Payments.WebhookBody)
        (s : Store) (ref : string) (pid : DocId) (pdata : Payment.t)
        (data : Booking.t) :
  Payments.customer_reference req = Some ref -> ref <> "" ->
  Payments.is_success (Payments.status req) = true ->
  Payments.provider_transaction_id req <> None ->
  Payments.find_by_reference ref s = [(pid, pdata)] ->
  Payment.bookingId pdata <> "" ->
  doc_get (bookings s) (Payment.bookingId pdata) = Some data ->
  role = Some "admin" \/ role = Some "manager"
  \/ Booking.userId data = uid e ->
  let id := Payment.bookingId pdata in
  let cancelled := final (cancel_booking e role id) s in
  let paid := final (Payments.webhook e' req) cancelled in
  booking_status cancelled id
  = Some ("cancelled", Booking.paymentStatus data)
  /\ booking_status paid id = Some ("confirmed", "paid")
  /\ booking_stay paid id = booking_stay s id
  /\ (forall from to,
        from < Booking.checkOut data -> to > Booking.checkIn data ->
        checkAvailability (bookings paid) (Booking.roomId data) from to None
        = false).
Proof.
  intros Href Hne Hok Htx Hfind Hbid Hdoc Hmay id cancelled paid.
  subst cancelled paid id.
  destruct (Payments.provider_transaction_id req) as [tx|] eqn:Etx;
    [clear Htx|congruence].
  assert (Ht : truthy (Some ref) = true) by now apply truthy_some.
  pose proof Hbid as Hbid'. apply String.eqb_neq in Hbid'.
  assert (Hc : final (cancel_booking e role (Payment.bookingId pdata)) s
               = mkStore (rooms s)
                   (map (doc_set (Payment.bookingId pdata)
                           (fun b => Booking.set_updatedAt
                                       (Some (serverTime e))
                                       (Booking.set_status "cancelled" b)))
                        (bookings s))
                   (payments s)).
  { unfold final. rewrite cancel_booking_run.
    now rewrite Hbid', Hdoc, (may_cancel e role data Hmay). }
  rewrite Hc. clear Hc.
  match goal with
  | |- context [final _ ?st] => set (s1 := st)
  end.
  assert (Hp : final (Payments.webhook e' req) s1
               = mkStore (rooms s)
                   (map (doc_set (Payment.bookingId pdata)
                                 (Payments.confirmBooking e'))
                        (bookings s1))
                   (map (doc_set pid (Payments.markSuccess e' req))
                        (payments s))).
  { unfold final. rewrite webhook_run, Href, Ht, (or_else_some ref _ Hne).
    change (Payments.find_by_reference ref s1)
      with (Payments.find_by_reference ref s).
    rewrite Hfind, Hok, Etx, Hbid'. cbv zeta.
    unfold Payments.successBatch. rewrite apply_payment_booking.
    destruct (find_by_reference_in _ _ _ _ _ Hfind) as (Hin & _ & _).
    apply doc_get_in in Hin. cbn [payments s1].
    destruct (doc_get (payments s) pid); [|congruence].
    cbn [bookings s1]. rewrite doc_get_map_set, Hdoc. reflexivity. }
  rewrite Hp. clear Hp. unfold booking_status, booking_stay.
  cbn [bookings s1].
  rewrite !doc_get_map_set, Hdoc, String.eqb_refl. cbn [option_map].
  split; [reflexivity|]. split; [reflexivity|]. split; [reflexivity|].
  intros from to Hfrom Hto. apply not_true_is_false. intros Hfree.
  assert (Hnone : @None string <> Some "") by discriminate.
  apply (proj1 (checkAvailability_true _ _ from to None Hnone) Hfree
               (Payment.bookingId pdata)
               (Payments.confirmBooking e'
                  (Booking.set_updatedAt (Some (serverTime e))
                     (Booking.set_status "cancelled" data)))).
  - apply doc_get_some_in in Hdoc.
    apply in_map_iff.
    exists (Payment.bookingId pdata,
            Booking.set_updatedAt (Some (serverTime e))
              (Booking.set_status "cancelled" data)).
    split.
    + unfold doc_set. cbn [fst snd]. now rewrite String.eqb_refl.
    + apply in_map_iff. exists (Payment.bookingId pdata, data).
      split; [|assumption].
      unfold doc_set. cbn [fst snd]. now rewrite String.eqb_refl.
  - reflexivity.
  - reflexivity.
  - discriminate.
  - split; assumption.
Qed.

Lemma webhook_success_revives_cancelled_booking_witness :
  let e := Scenario.env (Scenario.jan 6) true in
  let e' := Scenario.env (Scenario.jan 7) true in
  let cancelled := final (cancel_booking e (Some "admin") "b1")
                         Scenario.one_pending in
  let paid := final (Payments.webhook e' Scenario.success_delivery)
                    cancelled in
  booking_status cancelled "b1" = Some ("cancelled", "unpaid")
  /\ booking_status paid "b1" = Some ("confirmed", "paid")
  /\ booking_stay paid "b1" = booking_stay Scenario.one_pending "b1"
  /\ (forall from to,
        from < Scenario.jan 12 -> to > Scenario.jan 10 ->
        checkAvailability (bookings paid) "r1" from to None = false).
Proof.
  apply (webhook_success_revives_cancelled_booking
           (Scenario.env (Scenario.jan 6) true)
           (Scenario.env (Scenario.jan 7) true) (Some "admin")
           Scenario.success_delivery Scenario.one_pending "TX-1-1" "p1"
           (Scenario.charge "b1" "pending" "TX-1-1")
           (Scenario.stay "r1" "pending" "unpaid" (Scenario.jan 10)
                          (Scenario.jan 12))).
  - reflexivity.
  - discriminate.
  - reflexivity.
  - discriminate.
  - reflexivity.
  - discriminate.
  - reflexivity.
  - now left.
Defined.

Lemma references_map_set (rs : Coll Room.t) (bs : Coll Booking.t)
      (ps : Coll Payment.t) (pid : DocId) (f : Payment.t -> Payment.t) :
  (forall p, Payment.customer_reference (f p) = Payment.customer_reference p) ->
  references (mkStore rs bs (map (doc_set pid f) ps))
  = map (fun d => (fst d, Payment.customer_reference (snd d))) ps.
Proof.
  intros Hf. unfold references. cbn [payments]. rewrite map_map.
  apply map_ext. intros [j p]. unfold doc_set. cbn [fst snd].
  destruct (j === pid); cbn [fst snd]; now rewrite ?Hf.
Qed.

Lemma ids_map_set {A : Type} (c : Coll A) (id : DocId) (f : A -> A) :
  map fst (map (doc_set id f) c) = map fst c.
Proof. rewrite map_map. apply map_ext. intros d. apply doc_set_id. Qed.

(** X16. The webhook creates and deletes nothing and never rewrites a
    reference: after any delivery the payments have the same ids and the
    same customer references, in the same order, the bookings have the
    same ids, and the rooms are untouched. *)
Theorem webhook_keeps_ids_and_references
        (e : Env) (req : Payments.WebhookBody) (s : Store) :
  let s' := final (Payments.webhook e req) s in
  references s' = references s
  /\ map fst (bookings s') = map fst (bookings s)
  /\ rooms s' = rooms s.
Proof.
  unfold final. rewrite webhook_run.
  destruct (negb (truthy (Payments.customer_reference req))); [auto|].
  destruct (Payments.find_by_reference _ s) as [|[doc_id data] rest];
    [auto|].
  destruct (Payments.is_success (Payments.status req)); cbv zeta.
  - destruct (Payments.provider_transaction_id req); [|auto].
    destruct (Payment.bookingId data === EmptyString); [auto|].
    unfold Payments.successBatch. rewrite apply_payment_booking.
    destruct (doc_get (payments s) doc_id); [|auto].
    destruct (doc_get (bookings s) (Payment.bookingId data)); [|auto].
    cbn [snd current rooms bookings]. repeat split.
    + now apply references_map_set.
    + apply ids_map_set.
  - destruct (Payments.message req); [|auto].
    unfold Payments.failureUpdate. rewrite apply_payment.
    destruct (doc_get (payments s) doc_id); [|auto].
    cbn [snd current rooms bookings]. repeat split.
    now apply references_map_set.
Qed.

(** X17. A success delivery for a payment whose booking does not exist is
    answered 500 and writes nothing: the batch is refused as a whole, so
    the payment is not marked success either. *)
Theorem webhook_success_missing_booking
        (e : Env) (req : Payments.WebhookBody) (s : Store)
        (ref : string) (pid : DocId) (pdata : Payment.t) :
  Payments.customer_reference req = Some ref -> ref <> "" ->
  Payments.is_success (Payments.status req) = true ->
  Payments.find_by_reference ref s = [(pid, pdata)] ->
  doc_get (bookings s) (Payment.bookingId pdata) = None ->
  result (Payments.webhook e req) s = Done (mkResponse 500 (Text "Error"))
  /\ final (Payments.webhook e req) s = s
  /\ observable (Payments.webhook e req) s = [s].
Proof.
  intros Href Hne Hok Hfind Hmissing.
  assert (Ht : truthy (Some ref) = true) by now apply truthy_some.
  unfold result, final, observable.
  rewrite webhook_run, Href, Ht, (or_else_some ref _ Hne), Hfind, Hok.
  cbv zeta.
  destruct (Payments.provider_transaction_id req); [|auto].
  destruct (Payment.bookingId pdata === EmptyString); [auto|].
  unfold Payments.successBatch. rewrite apply_payment_booking, Hmissing.
  destruct (doc_get (payments s) pid); auto.
Qed.

Lemma webhook_success_missing_booking_witness :
  let deliver := Payments.webhook (Scenario.env (Scenario.jan 6) true)
                                  Scenario.success_delivery in
  result deliver Examples.orphan_payment
  = Done (mkResponse 500 (Text "Error"))
  /\ final deliver Examples.orphan_payment = Examples.orphan_payment
  /\ observable deliver Examples.orphan_payment = [Examples.orphan_payment].
Proof.
  apply (webhook_success_missing_booking
           (Scenario.env (Scenario.jan 6) true) Scenario.success_delivery
           Examples.orphan_payment "TX-1-1" "p1"
           (Scenario.charge "b1" "pending" "TX-1-1")).
  - reflexivity.
  - discriminate.
  - reflexivity.
  - reflexivity.
  - reflexivity.
Defined.

Lemma map_set_absent {A : Type} (c : Coll A) (id : DocId) (f : A -> A) :
  doc_get c id = None -> map (doc_set id f) c = c.
Proof.
  induction c as [|[j a] rest IH]; simpl; [reflexivity|].
  unfold doc_set at 1. cbn [fst snd].
  destruct (j === id); [discriminate|]. intros H. now rewrite IH.
Qed.

Lemma doc_get_add {A : Type} (c : Coll A) (id : DocId) (a : A) :
  doc_get (doc_add c id a) id <> None.
Proof.
  apply (doc_get_in _ _ a). unfold doc_add. apply in_or_app. right.
  now left.
Qed.

Lemma apply_add_payment (s : Store) (id : DocId) (p : Payment.t) :
  apply_writes s [AddPayment id p]
  = Some (mkStore (rooms s) (bookings s) (doc_add (payments s) id p)).
Proof. reflexivity. Qed.

(** X18. A retry creates a new payment and mutates none: for a complete
    request and a fresh document id, POST /payments/initiate appends one
    payment for the named booking with the generated reference and leaves
    the existing payments, the bookings and the rooms as they were. The new
    payment is pending and the answer 200 when the gateway accepts; it is
    failed with a reason and the answer 502 when the gateway refuses. *)
Theorem initiate_appends_payment
        (e : Env) (req : Payments.InitiateBody) (s : Store)
        (bid : string) (amt : Z) :
  Payments.bookingId req = Some bid -> bid <> "" ->
  truthy (Payments.phoneNumber req) = true ->
  Payments.amount req = Some amt -> amt <> 0 ->
  doc_get (payments s) (paymentDocId e) = None ->
  let s' := final (Payments.initiate e req) s in
  exists p,
    payments s' = payments s ++ [(paymentDocId e, p)]
    /\ bookings s' = bookings s /\ rooms s' = rooms s
    /\ Payment.bookingId p = bid /\ Payment.amount p = amt
    /\ Payment.customer_reference p = generateReference e
    /\ Payment.phone p = formatPhoneNumber (Payments.phoneNumber req)
    /\ (Payment.status p, Payment.failureReason p,
        code_of (result (Payments.initiate e req) s))
       = if gatewayAccepts e then ("pending", None, 200)
         else ("failed", Some "API Call Failed", 502).
Proof.
  intros Hbid Hne Hphone Hamt Hnz Hfresh.
  unfold result, final, Payments.initiate. unfold_handler.
  rewrite Hbid, Hamt, Hphone.
  apply String.eqb_neq in Hne. apply Z.eqb_neq in Hnz.
  rewrite Hne, Hnz. cbn [negb orb current committed].
  rewrite apply_add_payment.
  destruct (gatewayAccepts e).
  - cbn [fst snd current payments bookings rooms]. eexists.
    unfold doc_add. repeat split.
  - cbn [current committed]. rewrite apply_payment.
    cbn [payments bookings rooms].
    destruct (doc_get (doc_add (payments s) (paymentDocId e) _)
                      (paymentDocId e)) eqn:Eadd;
      [|now apply doc_get_add in Eadd].
    cbn [fst snd current payments bookings rooms]. eexists.
    unfold doc_add. rewrite map_app, (map_set_absent _ _ _ Hfresh).
    cbn [map]. unfold doc_set. cbn [fst snd]. rewrite String.eqb_refl.
    repeat split.
Qed.

Lemma initiate_appends_payment_witness :
  let e := Scenario.env (Scenario.jan 6) false in
  let s' := final (Payments.initiate e Scenario.retry)
                  Scenario.one_pending in
  exists p,
    payments s' = payments Scenario.one_pending ++ [(paymentDocId e, p)]
    /\ bookings s' = bookings Scenario.one_pending
    /\ rooms s' = rooms Scenario.one_pending
    /\ Payment.bookingId p = "b1" /\ Payment.amount p = 200
    /\ Payment.customer_reference p = generateReference e
    /\ Payment.phone p
       = formatPhoneNumber (Payments.phoneNumber Scenario.retry)
    /\ (Payment.status p, Payment.failureReason p,
        code_of (result (Payments.initiate e Scenario.retry)
                        Scenario.one_pending))
       = if gatewayAccepts e then ("pending", None, 200)
         else ("failed", Some "API Call Failed", 502).
Proof.
  apply (initiate_appends_payment
           (Scenario.env (Scenario.jan 6) false) Scenario.retry
           Scenario.one_pending "b1" 200).
  - reflexivity.
  - discriminate.
  - reflexivity.
  - reflexivity.
  - discriminate.
  - reflexivity.
Defined.

Lemma put_payment_run (e : Env) (id st : string) (s : Store)
      (data : Payment.t) (b : Booking.t) :
  id <> "" -> st <> "" ->
  doc_get (payments s) id = Some data ->
  Payment.bookingId data <> "" ->
  doc_get (bookings s) (Payment.bookingId data) = Some b ->
  let s1 :=
    mkStore (rooms s) (bookings s)
            (map (doc_set id (fun p => Payment.set_updatedAt
                                         (Some (serverTime e))
                                         (Payment.set_status st p)))
                 (payments s)) in
  let s2 :=
    mkStore (rooms s)
            (map (doc_set (Payment.bookingId data)
                          (Payments.bookingUpdates st)) (bookings s))
            (payments s1) in
  run (Payments.put_payment e id (Some st)) s
  = if Payments.syncs st
    then (Done (mkResponse 200
                  (Json [("success", JBool true);
                         ("message", JStr "Payment status updated")])),
          mkWorld s2 [s2; s1])
    else (Done (mkResponse 500 (Json [("error", JStr "INVALID_ARGUMENT")])),
          mkWorld s1 [s1]).
Proof.
  intros Hid Hst Hp Hbid Hb s1 s2. subst s1 s2.
  apply String.eqb_neq in Hid, Hbid.
  unfold Payments.put_payment.
  assert (Ht : truthy (Some st) = true) by now apply truthy_some.
  rewrite Ht, (or_else_some st _ Hst). unfold_handler.
  cbn [negb]. rewrite Hid. cbn [current committed]. rewrite Hp.
  cbn [current committed]. rewrite apply_payment, Hp, Hbid.
  cbn [negb current committed].
  destruct (Payments.syncs st); [|reflexivity].
  cbn [current committed]. rewrite apply_booking.
  cbn [bookings]. rewrite Hb. reflexivity.
Qed.

(** X19. The status update of a payment writes the given status, whatever
    string it is, and syncs the booking by it: success or paid confirm the
    booking and mark it paid, failed marks its payment status failed and
    keeps its lifecycle status, and any other status leaves the booking as
    it was. *)
Theorem put_payment_syncs_booking
        (e : Env) (id st : string) (s : Store) (data : Payment.t)
        (b : Booking.t) :
  id <> "" -> st <> "" ->
  doc_get (payments s) id = Some data ->
  Payment.bookingId data <> "" ->
  doc_get (bookings s) (Payment.bookingId data) = Some b ->
  let s' := final (Payments.put_payment e id (Some st)) s in
  payment_status s' id = Some st
  /\ booking_status s' (Payment.bookingId data)
     = Some (if (st === "success") || (st === "paid")
             then ("confirmed", "paid")
             else if st === "failed"
                  then (Booking.status b, "failed")
                  else (Booking.status b, Booking.paymentStatus b))
  /\ booking_stay s' (Payment.bookingId data)
     = booking_stay s (Payment.bookingId data).
Proof.
  intros Hid Hst Hp Hbid Hb s'. subst s'.
  unfold final. rewrite (put_payment_run e id st s data b Hid Hst Hp Hbid Hb).
  unfold payment_status, booking_status, booking_stay.
  destruct (Payments.syncs st) eqn:Esync;
    cbn [snd current payments bookings];
    rewrite ?doc_get_map_set, Hp, Hb, ?String.eqb_refl; cbn [option_map].
  - unfold Payments.bookingUpdates.
    destruct ((st === "success") || (st === "paid")); [repeat split|].
    destruct (st === "failed"); repeat split.
  - unfold Payments.syncs in Esync.
    apply orb_false_iff in Esync as [-> ->]. repeat split.
Qed.

Lemma put_payment_syncs_booking_witness :
  let s' := final (Payments.put_payment (Scenario.env (Scenario.jan 6) true)
                                        "p1" (Some "failed"))
                  Scenario.one_pending in
  payment_status s' "p1" = Some "failed"
  /\ booking_status s' "b1"
     = Some (if ("failed" === "success") || ("failed" === "paid")
             then ("confirmed", "paid")
             else if "failed" === "failed"
                  then ("pending", "failed")
                  else ("pending", "unpaid"))
  /\ booking_stay s' "b1" = booking_stay Scenario.one_pending "b1".
Proof.
  apply (put_payment_syncs_booking
           (Scenario.env (Scenario.jan 6) true) "p1" "failed"
           Scenario.one_pending (Scenario.charge "b1" "pending" "TX-1-1")
           (Scenario.stay "r1" "pending" "unpaid" (Scenario.jan 10)
                          (Scenario.jan 12))).
  - discriminate.
  - discriminate.
  - reflexivity.
  - discriminate.
  - reflexivity.
Defined.

(** X20. A status update without status is answered 400 and one of an
    unknown payment 404; neither writes anything. *)
Theorem put_payment_refused
        (e : Env) (id : DocId) (status : option string) (s : Store) :
  id <> "" ->
  truthy status = false \/ doc_get (payments s) id = None ->
  final (Payments.put_payment e id status) s = s
  /\ observable (Payments.put_payment e id status) s = [s]
  /\ code_of (result (Payments.put_payment e id status) s)
     = if truthy status then 404 else 400.
Proof.
  intros Hid Hwhy. apply String.eqb_neq in Hid.
  unfold Payments.put_payment. unfold_handler.
  destruct (truthy status); cbn [negb].
  - destruct Hwhy as [Hwhy | Hnone]; [discriminate|].
    rewrite Hid. cbn [current committed]. rewrite Hnone.
    cbn [fst snd current committed rev app code_of code]. auto.
  - cbn [fst snd current committed rev app code_of code]. auto.
Qed.

Lemma put_payment_refused_witness :
  let put := Payments.put_payment (Scenario.env (Scenario.jan 6) true)
                                  "p7" (Some "success") in
  final put Scenario.one_pending = Scenario.one_pending
  /\ observable put Scenario.one_pending = [Scenario.one_pending]
  /\ code_of (result put Scenario.one_pending)
     = if truthy (Some "success") then 404 else 400.
Proof.
  apply (put_payment_refused (Scenario.env (Scenario.jan 6) true) "p7"
           (Some "success") Scenario.one_pending).
  - discriminate.
  - right. reflexivity.
Defined.

(** ** The availability search, further *)

(** X21. On stays that end after they start, the three-way date test of
    the search is the half-open overlap test of the overlap checker: a
    stored stay is counted exactly when the requested stay starts before
    it ends and ends after it starts. *)
Theorem search_overlaps_is_half_open
        (checkInDate checkOutDate : Instant) (booking : Booking.t) :
  checkInDate < checkOutDate ->
  Booking.checkIn booking < Booking.checkOut booking ->
  Availability.overlaps (Some checkInDate) (Some checkOutDate) booking
  = (checkInDate <? Booking.checkOut booking)
    && (checkOutDate >? Booking.checkIn booking).
Proof.
  intros Hreq Hstay. unfold Availability.overlaps, Availability.date_le,
    Availability.date_lt.
  rewrite Z.gtb_ltb.
  destruct (Z.leb_spec (Booking.checkIn booking) checkInDate),
    (Z.ltb_spec checkInDate (Booking.checkOut booking)),
    (Z.ltb_spec (Booking.checkIn booking) checkOutDate),
    (Z.leb_spec checkOutDate (Booking.checkOut booking)),
    (Z.leb_spec checkInDate (Booking.checkIn booking)),
    (Z.leb_spec (Booking.checkOut booking) checkOutDate);
    cbn [andb orb]; try reflexivity; lia.
Qed.

Lemma search_overlaps_is_half_open_witness :
  Availability.overlaps (Some (Scenario.jan 11)) (Some (Scenario.jan 13))
    (Scenario.stay "r1" "confirmed" "paid" (Scenario.jan 10)
                   (Scenario.jan 12))
  = (Scenario.jan 11 <? Scenario.jan 12)
    && (Scenario.jan 13 >? Scenario.jan 10).
Proof.
  apply (search_overlaps_is_half_open (Scenario.jan 11) (Scenario.jan 13)
           (Scenario.stay "r1" "confirmed" "paid" (Scenario.jan 10)
                          (Scenario.jan 12))).
  - vm_compute. reflexivity.
  - vm_compute. reflexivity.
Defined.

(** What the search answers: it decides by the dates of the request, and
    past the date checks its first query fails. *)
Lemma search_run (e : Env) (req : Availability.SearchBody) (s : Store) :
  run (Availability.search e req) s
  = (Done
       (if negb (given (Availability.checkIn req))
           || negb (given (Availability.checkOut req))
        then Availability.failure 400
               "Check-in and check-out dates are required" "VALIDATION_ERROR"
        else if Availability.date_lt (getTime (Availability.checkIn req))
                                     (Some (today e))
        then Availability.failure 400 "Check-in date cannot be in the past"
                                  "INVALID_CHECKIN"
        else if Availability.date_le (getTime (Availability.checkOut req))
                                     (getTime (Availability.checkIn req))
        then Availability.failure 400
               "Check-out date must be after check-in date" "INVALID_CHECKOUT"
        else Availability.failure 500 "Failed to check availability"
                                  "AVAILABILITY_CHECK_FAILED"),
     mkWorld s []).
Proof.
  unfold Availability.search, Server.db. unfold_handler.
  destruct (negb (given (Availability.checkIn req))
            || negb (given (Availability.checkOut req))); [reflexivity|].
  destruct (Availability.date_lt _ _); [reflexivity|].
  destruct (Availability.date_le _ _); reflexivity.
Qed.

(** X22. As the route is wired, no search finds a room: a request with two
    valid dates, the check-in not before today and the check-out after it,
    is answered 500, AVAILABILITY_CHECK_FAILED, whatever rooms and bookings
    are stored; it lists no room and writes nothing. *)
Theorem search_fails_on_every_valid_request
        (e : Env) (req : Availability.SearchBody) (s : Store)
        (from to : Instant) :
  Availability.checkIn req = Parsed from ->
  Availability.checkOut req = Parsed to ->
  today e <= from -> from < to ->
  result (Availability.search e req) s
  = Done (Availability.failure 500 "Failed to check availability"
                               "AVAILABILITY_CHECK_FAILED")
  /\ (forall id,
        Availability.lists_room (result (Availability.search e req) s) id
        = false)
  /\ final (Availability.search e req) s = s
  /\ observable (Availability.search e req) s = [s].
Proof.
  intros Hin Hout Htoday Horder.
  unfold result, final, observable. rewrite search_run, Hin, Hout.
  cbn [given negb orb getTime Availability.date_lt Availability.date_le].
  apply Z.ltb_ge in Htoday. rewrite Htoday.
  assert (Hle : (to <=? from) = false) by (apply Z.leb_gt; lia).
  rewrite Hle. cbn [fst snd current committed rev app].
  repeat split.
Qed.

(** A search for [Jan 12, Jan 14), made on Jan 6, in a hotel whose one room
    is active and free on those days. *)
Lemma search_fails_on_every_valid_request_witness :
  let e := Scenario.env (Scenario.jan 6) true in
  let req := Scenario.search_for (Scenario.jan 12) (Scenario.jan 14) in
  let s := Scenario.one_pending in
  result (Availability.search e req) s
  = Done (Availability.failure 500 "Failed to check availability"
                               "AVAILABILITY_CHECK_FAILED")
  /\ (forall id,
        Availability.lists_room (result (Availability.search e req) s) id
        = false)
  /\ final (Availability.search e req) s = s
  /\ observable (Availability.search e req) s = [s].
Proof.
  apply (search_fails_on_every_valid_request
           (Scenario.env (Scenario.jan 6) true)
           (Scenario.search_for (Scenario.jan 12) (Scenario.jan 14))
           Scenario.one_pending (Scenario.jan 12) (Scenario.jan 14)).
  - reflexivity.
  - reflexivity.
  - vm_compute. discriminate.
  - vm_compute. reflexivity.
Defined.

(** ** The status of a room *)

Lemma insert_by_checkIn_in (d x : DocId * Booking.t) (l : Coll Booking.t) :
  In x (insert_by_checkIn d l) <-> x = d \/ In x l.
Proof.
  induction l as [|y l IH]; simpl; [intuition congruence|].
  destruct (Booking.checkIn (snd d) <=? Booking.checkIn (snd y)); simpl.
  - intuition congruence.
  - rewrite IH. intuition congruence.
Qed.

Lemma orderBy_checkIn_in (x : DocId * Booking.t) (l : Coll Booking.t) :
  In x (orderBy_checkIn l) <-> In x l.
Proof.
  induction l as [|y l IH]; simpl; [tauto|].
  rewrite insert_by_checkIn_in, IH. intuition congruence.
Qed.

Lemma insert_by_checkIn_sorted (d : DocId * Booking.t)
      (l : Coll Booking.t) :
  by_checkIn l -> by_checkIn (insert_by_checkIn d l).
Proof.
  induction l as [|x l IH]; simpl; [tauto|].
  intros [Hx Hl].
  destruct (Z.leb_spec (Booking.checkIn (snd d)) (Booking.checkIn (snd x)))
    as [Hle | Hgt]; simpl.
  - split; [|tauto]. intros y [<- | Hy]; [assumption|].
    specialize (Hx y Hy). lia.
  - split; [|now apply IH]. intros y Hy.
    apply insert_by_checkIn_in in Hy as [-> | Hy]; [lia | now apply Hx].
Qed.

Lemma orderBy_checkIn_sorted (l : Coll Booking.t) :
  by_checkIn (orderBy_checkIn l).
Proof.
  induction l as [|x l IH]; simpl; [exact I|].
  now apply insert_by_checkIn_sorted.
Qed.

(** The first match in a list ordered by check-in is a match with the
    least check-in. *)
Lemma find_first_by_checkIn (p : DocId * Booking.t -> bool)
      (l : Coll Booking.t) (x : DocId * Booking.t) :
  by_checkIn l -> find p l = Some x ->
  forall y, In y l -> p y = true ->
            Booking.checkIn (snd x) <= Booking.checkIn (snd y).
Proof.
  induction l as [|a l IH]; simpl; [discriminate|].
  intros [Ha Hl]. destruct (p a) eqn:Ep.
  - intros E y [<- | Hy] _; inversion E; subst; [lia | now apply Ha].
  - intros E y [<- | Hy] Hp; [congruence | now apply IH].
Qed.

(** The loop of the status routes finds a booking exactly among the
    bookings in progress. *)
Lemma active_and_started (e : Env) (id : DocId) (s : Store)
      (d : DocId * Booking.t) :
  In d (orderBy_checkIn (Rooms.activeBookings id (now e) s))
  /\ (Booking.checkIn (snd d) <=? now e)
     && (now e <? Booking.checkOut (snd d)) = true
  <-> In d (bookings s) /\ Rooms.in_progress id (now e) (snd d) = true.
Proof.
  rewrite orderBy_checkIn_in. unfold Rooms.activeBookings, Rooms.in_progress.
  rewrite filter_In, Z.gtb_ltb.
  destruct (Booking.roomId (snd d) === id),
    (blocking_status (Booking.status (snd d))),
    (now e <? Booking.checkOut (snd d)),
    (Booking.checkIn (snd d) <=? now e); cbn [andb]; intuition congruence.
Qed.

(** X24. GET /rooms/:id reports a room in Maintenance as it is stored.
    Any other room is reported Occupied exactly when one of its pending or
    confirmed bookings is in progress, with the check-out of the one that
    checked in first as the instant it is next available, and Available
    with no such instant otherwise; the stored status plays no part. *)
Theorem get_room_reports_stay_in_progress
        (e : Env) (id : DocId) (s : Store) (room : Room.t) :
  id <> "" ->
  doc_get (rooms s) id = Some room ->
  final (get_room e id) s = s
  /\ if Room.status room === "Maintenance"
     then result (get_room e id) s = Done (RoomFound id room None)
     else
       ((forall j b, In (j, b) (bookings s) ->
                     Rooms.in_progress id (now e) b = false)
        /\ result (get_room e id) s
           = Done (RoomFound id (Room.set_status "Available" room) None))
       \/ exists j b,
            In (j, b) (bookings s)
            /\ Rooms.in_progress id (now e) b = true
            /\ (forall j' b', In (j', b') (bookings s) ->
                              Rooms.in_progress id (now e) b' = true ->
                              Booking.checkIn b <= Booking.checkIn b')
            /\ result (get_room e id) s
               = Done (RoomFound id (Room.set_status "Occupied" room)
                                 (Some (Booking.checkOut b))).
Proof.
  intros Hid Hroom. apply String.eqb_neq in Hid.
  unfold get_room. unfold_handler.
  rewrite Hid. cbn [current committed]. rewrite Hroom.
  cbn [current committed].
  destruct (Room.status room === "Maintenance"); cbn [negb];
    [split; reflexivity|].
  destruct (find _ (orderBy_checkIn (Rooms.activeBookings id (now e) s)))
    as [[j b]|] eqn:Efind.
  - split; [reflexivity|]. right. exists j, b.
    pose proof (find_some _ _ Efind) as Hfound.
    apply (active_and_started e id s (j, b)) in Hfound as [Hin Hprog].
    split; [exact Hin|]. split; [exact Hprog|]. split; [|reflexivity].
    intros j' b' Hin' Hprog'.
    apply (find_first_by_checkIn _ _ (j, b)
             (orderBy_checkIn_sorted _) Efind (j', b')).
    + now apply (active_and_started e id s (j', b')).
    + now apply (active_and_started e id s (j', b')).
  - split; [reflexivity|]. left. split; [|reflexivity].
    intros j b Hin. apply not_true_is_false. intros Hprog.
    assert (Hd : In (j, b) (orderBy_checkIn
                              (Rooms.activeBookings id (now e) s))
                 /\ (Booking.checkIn b <=? now e)
                    && (now e <? Booking.checkOut b) = true)
      by (apply (active_and_started e id s (j, b)); auto).
    destruct Hd as [Hd Hc].
    pose proof (find_none _ _ Efind (j, b) Hd) as Hno.
    cbn [snd] in Hno. congruence.
Qed.

Lemma get_room_reports_stay_in_progress_witness :
  let e := Scenario.env Scenario.noon_jan_6 true in
  let s := Scenario.mid_stay in
  final (get_room e "r1") s = s
  /\ if Room.status Scenario.room101 === "Maintenance"
     then result (get_room e "r1") s
          = Done (RoomFound "r1" Scenario.room101 None)
     else
       ((forall j b, In (j, b) (bookings s) ->
                     Rooms.in_progress "r1" (now e) b = false)
        /\ result (get_room e "r1") s
           = Done (RoomFound "r1"
                     (Room.set_status "Available" Scenario.room101) None))
       \/ exists j b,
            In (j, b) (bookings s)
            /\ Rooms.in_progress "r1" (now e) b = true
            /\ (forall j' b', In (j', b') (bookings s) ->
                              Rooms.in_progress "r1" (now e) b' = true ->
                              Booking.checkIn b <= Booking.checkIn b')
            /\ result (get_room e "r1") s
               = Done (RoomFound "r1"
                         (Room.set_status "Occupied" Scenario.room101)
                         (Some (Booking.checkOut b))).
Proof.
  apply (get_room_reports_stay_in_progress
           (Scenario.env Scenario.noon_jan_6 true) "r1" Scenario.mid_stay
           Scenario.room101).
  - discriminate.
  - reflexivity.
Defined.

Lemma cleanUpdates_status (e : Env) (req : Rooms.UpdateBody) (st : string)
      (r : Room.t) :
  Rooms.status req = Some st -> st <> "" ->
  Room.status (Rooms.cleanUpdates e req r) = st.
Proof.
  intros Hst Hne. unfold Rooms.cleanUpdates, assign_str. rewrite Hst.
  assert (Ht : truthy (Some st) = true) by now apply truthy_some.
  rewrite Ht, (or_else_some st _ Hne).
  destruct (truthy (Rooms.description req)), (Rooms.amenities req),
    (Rooms.price req) as [[| |]|], (truthy (Rooms.type req)),
    (truthy (Rooms.roomNumber req)); reflexivity.
Qed.

Lemma find_none_all {A : Type} (p : A -> bool) (l : list A) :
  (forall x, In x l -> p x = false) -> find p l = None.
Proof.
  induction l as [|a l IH]; simpl; [reflexivity|].
  intros H. rewrite (H a) by now left. apply IH. intros x Hx.
  apply H. now right.
Qed.

(** After the forced end no booking of the room is in progress. *)
Lemma force_end_none_in_progress (e : Env) (id : DocId)
      (c : Coll Booking.t) (d : DocId * Booking.t) :
  In d (map (Rooms.force_end e id) c) ->
  Rooms.in_progress id (now e) (snd d) = false.
Proof.
  intros Hin. apply in_map_iff in Hin as (d0 & <- & _).
  unfold Rooms.force_end.
  destruct (Rooms.in_progress id (now e) (snd d0)) eqn:E; [|exact E].
  unfold Rooms.in_progress. cbn [snd fst Rooms.endNow Booking.checkOut
    Booking.set_updatedAt Booking.set_checkOut].
  rewrite Z.ltb_irrefl. now rewrite andb_false_r.
Qed.

(** X25. The forced end does what it is for: right after PUT /rooms/:id
    has set a room Available or Maintenance, GET /rooms/:id at the same
    instant reports the room with that status and no next-available
    instant, whatever stays were in progress before. *)
Theorem get_room_after_forced_end
        (e : Env) (id : DocId) (req : Rooms.UpdateBody) (s : Store)
        (room : Room.t) (st : string) :
  NoDup (map fst (bookings s)) ->
  id <> "" ->
  doc_get (rooms s) id = Some room ->
  Rooms.duplicateNumber req room s = false ->
  Rooms.status req = Some st ->
  st = "Available" \/ st = "Maintenance" ->
  result (get_room e id) (final (Rooms.put_room e id req) s)
  = Done (RoomFound id (Rooms.cleanUpdates e req room) None)
  /\ Room.status (Rooms.cleanUpdates e req room) = st.
Proof.
  intros Hnd Hid Hroom Hdup Hst Hforced.
  assert (Hne : st <> "") by (destruct Hforced; subst; discriminate).
  assert (Hstatus : Rooms.status req = Some "Available"
                    \/ Rooms.status req = Some "Maintenance")
    by (destruct Hforced; subst; auto).
  pose proof (cleanUpdates_status e req st room Hst Hne) as Hclean.
  split; [|exact Hclean].
  unfold final.
  rewrite (put_room_run e id req s room Hnd Hid Hroom Hdup Hstatus).
  cbn [snd current]. apply String.eqb_neq in Hid.
  unfold get_room. unfold_handler.
  rewrite Hid. cbn [current committed rooms].
  rewrite doc_get_map_set, Hroom, String.eqb_refl. cbn [option_map].
  cbn [current committed]. rewrite Hclean.
  destruct Hforced as [-> | ->]; cbn [String.eqb Ascii.eqb Bool.eqb negb];
    [|reflexivity].
  rewrite find_none_all.
  - cbn [fst]. do 2 f_equal.
    destruct (Rooms.cleanUpdates e req room). cbn in Hclean. subst.
    reflexivity.
  - intros d Hd. apply (proj1 (orderBy_checkIn_in d _)) in Hd.
    unfold Rooms.activeBookings in Hd. cbn [bookings] in Hd.
    apply filter_In in Hd as [Hd Hq].
    apply force_end_none_in_progress in Hd.
    unfold Rooms.in_progress in Hd. rewrite Z.gtb_ltb in Hq.
    destruct (Booking.roomId (snd d) === id),
      (blocking_status (Booking.status (snd d))),
      (now e <? Booking.checkOut (snd d)),
      (Booking.checkIn (snd d) <=? now e); cbn [andb] in *; congruence.
Qed.

Lemma get_room_after_forced_end_witness :
  let e := Scenario.env Scenario.noon_jan_6 true in
  result (get_room e "r1")
         (final (Rooms.put_room e "r1" Examples.to_available)
                Scenario.mid_stay)
  = Done (RoomFound "r1"
            (Rooms.cleanUpdates e Examples.to_available Scenario.room101)
            None)
  /\ Room.status (Rooms.cleanUpdates e Examples.to_available
                                     Scenario.room101) = "Available".
Proof.
  apply (get_room_after_forced_end
           (Scenario.env Scenario.noon_jan_6 true) "r1"
           Examples.to_available Scenario.mid_stay Scenario.room101
           "Available").
  - simpl. repeat constructor; simpl; intuition discriminate.
  - discriminate.
  - reflexivity.
  - reflexivity.
  - reflexivity.
  - now left.
Defined.

(** ** Updating and deleting a room *)

Lemma cleanUpdates_roomNumber (e : Env) (req : Rooms.UpdateBody)
      (r : Room.t) :
  Room.roomNumber (Rooms.cleanUpdates e req r)
  = if truthy (Rooms.roomNumber req)
    then or_else (Rooms.roomNumber req) EmptyString
    else Room.roomNumber r.
Proof.
  unfold Rooms.cleanUpdates, assign_str.
  destruct (truthy (Rooms.description req)), (Rooms.amenities req),
    (truthy (Rooms.status req)), (Rooms.price req) as [[| |]|],
    (truthy (Rooms.type req)), (truthy (Rooms.roomNumber req));
    reflexivity.
Qed.

(** The batch of the forced end is never refused: the bookings it names
    were just read. *)
Lemma forceEndBatch_applies (e : Env) (id : DocId) (s : Store) :
  exists bs,
    apply_writes s (Rooms.forceEndBatch e (Rooms.activeBookings id (now e) s))
    = Some (mkStore (rooms s) bs (payments s)).
Proof.
  unfold Rooms.forceEndBatch. eexists. apply apply_booking_updates.
  - intros []. reflexivity.
  - intros [j a] Hin. apply filter_In in Hin as [Hin _].
    unfold Rooms.activeBookings in Hin. apply filter_In in Hin as [Hin _].
    now apply (doc_get_in _ _ a).
Qed.

(** The rooms after PUT /rooms/:id: untouched, or the one room rewritten
    after the duplicate check has passed. *)
Lemma put_room_rooms (e : Env) (id : DocId) (req : Rooms.UpdateBody)
      (s : Store) :
  rooms (final (Rooms.put_room e id req) s) = rooms s
  \/ exists room,
       doc_get (rooms s) id = Some room
       /\ Rooms.duplicateNumber req room s = false
       /\ rooms (final (Rooms.put_room e id req) s)
          = map (doc_set id (Rooms.cleanUpdates e req)) (rooms s).
Proof.
  unfold Rooms.put_room. unfold_handler.
  destruct (id === ""); [now left|]. cbn [current committed].
  destruct (doc_get (rooms s) id) as [room|] eqn:Eroom; [|now left].
  cbn [current committed].
  destruct (Rooms.duplicateNumber req room s) eqn:Edup; [now left|].
  right. exists room. split; [reflexivity|].
  split; [first [reflexivity | assumption]|].
  destruct (is_str (Rooms.status req) "Available"
            || is_str (Rooms.status req) "Maintenance").
  - cbn [current committed].
    destruct (0 <? Z.of_nat (List.length _)).
    + cbn [current committed].
      destruct (forceEndBatch_applies e id s) as (bs & ->).
      cbn [current committed]. rewrite apply_room. cbn [rooms].
      rewrite Eroom. reflexivity.
    + cbn [current committed]. rewrite apply_room, Eroom. reflexivity.
  - cbn [current committed]. rewrite apply_room, Eroom. reflexivity.
Qed.

(** X26. Room numbers stay unique under PUT /rooms/:id: when no two rooms
    share a number before the update, none do after it, whatever the
    request. *)
Theorem put_room_keeps_unique_numbers
        (e : Env) (id : DocId) (req : Rooms.UpdateBody) (s : Store) :
  NoDup (map fst (rooms s)) ->
  unique_room_numbers (rooms s) ->
  unique_room_numbers (rooms (final (Rooms.put_room e id req) s)).
Proof.
  intros Hnd Hinv.
  destruct (put_room_rooms e id req s) as [-> | (room & Hroom & Hdup & ->)];
    [exact Hinv|].
  assert (Hother : forall j b,
            In (j, b) (rooms s) -> j <> id ->
            Room.roomNumber (Rooms.cleanUpdates e req room)
            <> Room.roomNumber b).
  { intros j b Hj Hne. rewrite cleanUpdates_roomNumber.
    apply doc_get_some_in in Hroom.
    unfold Rooms.duplicateNumber in Hdup.
    destruct (truthy (Rooms.roomNumber req));
      [|apply (Hinv id j room b); auto].
    cbn [andb] in Hdup.
    destruct (String.eqb_spec (or_else (Rooms.roomNumber req) EmptyString)
                              (Room.roomNumber room)) as [-> | Hnew].
    - apply (Hinv id j room b); auto.
    - cbn [negb andb] in Hdup. intros Heq.
      assert (Hyes : existsb (fun d => Room.roomNumber (snd d)
                                === or_else (Rooms.roomNumber req)
                                            EmptyString) (rooms s) = true).
      { apply existsb_exists. exists (j, b). split; [assumption|].
        cbn [snd]. rewrite Heq. apply String.eqb_refl. }
      congruence. }
  intros i j a' b' Hi Hj Hij.
  apply in_map_set in Hi as (a & Hia & ->).
  apply in_map_set in Hj as (b & Hjb & ->).
  pose proof (doc_get_some_in _ _ _ Hroom) as Hin.
  destruct (String.eqb_spec i id) as [Ei | Ei];
    destruct (String.eqb_spec j id) as [Ej | Ej].
  - congruence.
  - subst i. rewrite (ids_unique _ id a room Hnd Hia Hin).
    now apply (Hother j b).
  - subst j. rewrite (ids_unique _ id b room Hnd Hjb Hin).
    intros Heq. symmetry in Heq. revert Heq. now apply (Hother i a).
  - now apply (Hinv i j a b).
Qed.

(** Room 101 is given the number 103 while room 102 stands beside it. *)
Lemma put_room_keeps_unique_numbers_witness :
  unique_room_numbers
    (rooms (final (Rooms.put_room (Scenario.env Scenario.noon_jan_6 true)
                                  "r1" Examples.renumber)
                  Examples.two_rooms)).
Proof.
  apply (put_room_keeps_unique_numbers
           (Scenario.env Scenario.noon_jan_6 true) "r1"
           Examples.renumber Examples.two_rooms).
  - simpl. repeat constructor; simpl; intuition discriminate.
  - intros i j a b [Hi | [Hi | []]] [Hj | [Hj | []]] Hij;
      inversion Hi; inversion Hj; subst; try congruence;
      cbn [Room.roomNumber Scenario.room101 Examples.room102]; discriminate.
Defined.

Lemma force_end_shrinks (e : Env) (id : DocId) (d : DocId * Booking.t) :
  let d' := Rooms.force_end e id d in
  fst d' = fst d
  /\ Booking.roomId (snd d') = Booking.roomId (snd d)
  /\ Booking.status (snd d') = Booking.status (snd d)
  /\ Booking.checkIn (snd d') = Booking.checkIn (snd d)
  /\ Booking.checkOut (snd d') <= Booking.checkOut (snd d).
Proof.
  unfold Rooms.force_end.
  destruct (Rooms.in_progress id (now e) (snd d)) eqn:E;
    cbn [fst snd]; repeat split; try reflexivity; try lia.
  cbn [Rooms.endNow Booking.checkOut Booking.set_updatedAt
       Booking.set_checkOut].
  unfold Rooms.in_progress in E. apply andb_true_iff in E as [_ E].
  apply Z.ltb_lt in E. lia.
Qed.

(** X27. The forced end only shortens stays, so it creates no overlap:
    when no two pending or confirmed bookings of a room overlap before a
    room is set Available or Maintenance, none do after. *)
Theorem put_room_forced_end_keeps_no_double_booking
        (e : Env) (id : DocId) (req : Rooms.UpdateBody) (s : Store)
        (room : Room.t) :
  NoDup (map fst (bookings s)) ->
  id <> "" ->
  doc_get (rooms s) id = Some room ->
  Rooms.duplicateNumber req room s = false ->
  Rooms.status req = Some "Available"
  \/ Rooms.status req = Some "Maintenance" ->
  no_double_booking (bookings s) ->
  no_double_booking (bookings (final (Rooms.put_room e id req) s)).
Proof.
  intros Hnd Hid Hroom Hdup Hstatus Hinv. unfold final.
  rewrite (put_room_run e id req s room Hnd Hid Hroom Hdup Hstatus).
  cbn [snd current bookings].
  intros i j a' b' Hi Hj Hij Hsame Ha Hb [H1 H2].
  apply in_map_iff in Hi as (da & Ea & Hia).
  apply in_map_iff in Hj as (db & Eb & Hjb).
  destruct (force_end_shrinks e id da) as (Fa & Ra & Sa & Ia & Oa).
  destruct (force_end_shrinks e id db) as (Fb & Rb & Sb & Ib & Ob).
  rewrite Ea in Fa, Ra, Sa, Ia, Oa. rewrite Eb in Fb, Rb, Sb, Ib, Ob.
  cbn [fst snd] in *.
  destruct da as [i0 a], db as [j0 b]. cbn [fst snd] in *. subst i0 j0.
  apply (Hinv i j a b Hia Hjb Hij); try congruence.
  unfold overlap. lia.
Qed.

(** The bookings of [Scenario.mid_stay]: the two blocking stays of room 101
    are days apart, the third is cancelled, the fourth is in another room. *)
Lemma mid_stay_no_double_booking :
  no_double_booking (bookings Scenario.mid_stay).
Proof.
  intros i j a b [Hi | [Hi | [Hi | [Hi | []]]]] [Hj | [Hj | [Hj | [Hj | []]]]]
         Hij Hroom Ha Hb;
    inversion Hi; inversion Hj; subst; try congruence;
    try discriminate;
    unfold overlap; vm_compute; intros [H1 H2]; discriminate.
Qed.

(** Room 101 is set to Maintenance on Jan 6 at noon, in the middle of the
    stay b1, which is ended at that instant. *)
Lemma put_room_forced_end_keeps_no_double_booking_witness :
  no_double_booking
    (bookings (final (Rooms.put_room (Scenario.env Scenario.noon_jan_6 true)
                                     "r1" Scenario.to_maintenance)
                     Scenario.mid_stay)).
Proof.
  apply (put_room_forced_end_keeps_no_double_booking
           (Scenario.env Scenario.noon_jan_6 true) "r1"
           Scenario.to_maintenance Scenario.mid_stay Scenario.room101).
  - simpl. repeat constructor; simpl; intuition discriminate.
  - discriminate.
  - reflexivity.
  - reflexivity.
  - now right.
  - exact mid_stay_no_double_booking.
Defined.

(** X28. A room update that sets neither Available nor Maintenance never
    touches a booking or a payment: editing the number, type, price,
    amenities or description, or setting the room Occupied, leaves the
    stays as they are. *)
Theorem put_room_other_updates_leave_bookings
        (e : Env) (id : DocId) (req : Rooms.UpdateBody) (s : Store) :
  Rooms.status req <> Some "Available" ->
  Rooms.status req <> Some "Maintenance" ->
  bookings (final (Rooms.put_room e id req) s) = bookings s
  /\ payments (final (Rooms.put_room e id req) s) = payments s.
Proof.
  intros Ha Hm.
  assert (Ea : is_str (Rooms.status req) "Available" = false)
    by (apply not_true_is_false; intros H; now apply is_str_true in H).
  assert (Em : is_str (Rooms.status req) "Maintenance" = false)
    by (apply not_true_is_false; intros H; now apply is_str_true in H).
  unfold Rooms.put_room. unfold_handler. rewrite Ea, Em. cbn [orb].
  destruct (id === ""); [auto|]. cbn [current committed].
  destruct (doc_get (rooms s) id) as [room|] eqn:Eroom; [|auto].
  cbn [current committed].
  destruct (Rooms.duplicateNumber req room s); [auto|].
  cbn [current committed]. rewrite apply_room, Eroom. auto.
Qed.

Lemma put_room_other_updates_leave_bookings_witness :
  let put := Rooms.put_room (Scenario.env Scenario.noon_jan_6 true) "r1"
               Examples.to_occupied in
  bookings (final put Scenario.mid_stay) = bookings Scenario.mid_stay
  /\ payments (final put Scenario.mid_stay) = payments Scenario.mid_stay.
Proof.
  apply (put_room_other_updates_leave_bookings
           (Scenario.env Scenario.noon_jan_6 true) "r1"
           Examples.to_occupied Scenario.mid_stay).
  - discriminate.
  - discriminate.
Defined.

Lemma doc_get_without {A : Type} (c : Coll A) (id j : DocId) :
  doc_get (filter (fun d => negb (fst d === id)) c) j
  = if j === id then None else doc_get c j.
Proof.
  induction c as [|[i a] rest IH]; cbn [filter doc_get fst].
  - now destruct (j === id).
  - destruct (String.eqb_spec i id) as [-> | Hi]; cbn [negb doc_get].
    + rewrite IH. rewrite (String.eqb_sym id j).
      now destruct (j === id).
    + rewrite IH. destruct (String.eqb_spec i j) as [-> | Hj];
        [|reflexivity].
      destruct (String.eqb_spec j id); [congruence | reflexivity].
Qed.

(** X29. DELETE /rooms/:id removes the room and nothing else: the other
    rooms, every booking, those of the deleted room included, and the
    payments stay; an unknown room is answered 404 with nothing written.
    A later booking request for the deleted room is refused with 400 or
    404 and writes nothing. *)
Theorem delete_room_leaves_bookings (id : DocId) (s : Store) :
  id <> "" ->
  let s' := final (delete_room id) s in
  code_of (result (delete_room id) s)
  = match doc_get (rooms s) id with Some _ => 200 | None => 404 end
  /\ doc_get (rooms s') id = None
  /\ (forall j, j <> id -> doc_get (rooms s') j = doc_get (rooms s) j)
  /\ bookings s' = bookings s
  /\ payments s' = payments s
  /\ forall e req,
       or_else (Bookings.roomId req) "" = id ->
       In (code_of (result (Bookings.post_booking e req) s')) [400; 404]
       /\ final (Bookings.post_booking e req) s' = s'.
Proof.
  intros Hid s'.
  assert (Hs' : s' = match doc_get (rooms s) id with
                     | Some _ =>
                         mkStore (filter (fun d => negb (fst d === id))
                                         (rooms s))
                                 (bookings s) (payments s)
                     | None => s
                     end
                /\ code_of (result (delete_room id) s)
                   = match doc_get (rooms s) id with
                     | Some _ => 200
                     | None => 404
                     end).
  { subst s'. unfold delete_room, delete_room_doc. unfold_handler.
    pose proof Hid as Hid'. apply String.eqb_neq in Hid'. rewrite Hid'.
    cbn [current committed].
    destruct (doc_get (rooms s) id); split; reflexivity. }
  destruct Hs' as [Hs' Hcode].
  assert (Hgone : doc_get (rooms s') id = None).
  { rewrite Hs'. destruct (doc_get (rooms s) id) eqn:E; [|exact E].
    cbn [rooms]. rewrite doc_get_without. now rewrite String.eqb_refl. }
  split; [exact Hcode|]. split; [exact Hgone|]. repeat split.
  - intros j Hj. rewrite Hs'.
    destruct (doc_get (rooms s) id); [|reflexivity].
    cbn [rooms]. rewrite doc_get_without. apply String.eqb_neq in Hj.
    now rewrite Hj.
  - rewrite Hs'. now destruct (doc_get (rooms s) id).
  - rewrite Hs'. now destruct (doc_get (rooms s) id).
  - unfold result.
    destruct (post_booking_outcome e req s')
      as [(r & Hrun & Hc) | (st & en & rd & u & b & Hr)].
    + revert Hrun Hc. clear -H Hgone Hid.
      unfold Bookings.post_booking, Bookings.error. unfold_handler.
      rewrite H.
      destruct (getTime (Bookings.checkIn req));
        [|intros _ _; simpl; tauto].
      destruct (getTime (Bookings.checkOut req));
        [|intros _ _; simpl; tauto].
      destruct (_ >=? _); [intros _ _; simpl; tauto|].
      destruct (is_str (Bookings.paymentMethod req) "Cash"
                && negb (truthy (Bookings.receivedBy req)));
        [intros _ _; simpl; tauto|].
      apply String.eqb_neq in Hid. rewrite Hid. cbn [current committed].
      rewrite Hgone. intros _ _. simpl. tauto.
    + destruct Hr as (_ & _ & _ & Hroom & _). rewrite H in Hroom.
      congruence.
  - unfold final.
    destruct (post_booking_outcome e req s')
      as [(r & -> & Hc) | (st & en & rd & u & b & Hr)];
      [reflexivity|].
    destruct Hr as (_ & _ & _ & Hroom & _). rewrite H in Hroom.
    congruence.
Qed.

Lemma delete_room_leaves_bookings_witness :
  let s' := final (delete_room "r1") Scenario.mid_stay in
  code_of (result (delete_room "r1") Scenario.mid_stay)
  = match doc_get (rooms Scenario.mid_stay) "r1" with
    | Some _ => 200
    | None => 404
    end
  /\ doc_get (rooms s') "r1" = None
  /\ (forall j, j <> "r1" ->
                doc_get (rooms s') j = doc_get (rooms Scenario.mid_stay) j)
  /\ bookings s' = bookings Scenario.mid_stay
  /\ payments s' = payments Scenario.mid_stay
  /\ forall e req,
       or_else (Bookings.roomId req) "" = "r1" ->
       In (code_of (result (Bookings.post_booking e req) s')) [400; 404]
       /\ final (Bookings.post_booking e req) s' = s'.
Proof.
  apply (delete_room_leaves_bookings "r1" Scenario.mid_stay).
  discriminate.
Defined.

(** ** The user lookup *)

Lemma first_with_put (users : Coll Users.t) (uid : DocId) (data : Users.t)
      (v : string) :
  Users.first_with Users.phoneNumber v users = None ->
  Users.phoneNumber data = Some v ->
  Users.first_with Users.phoneNumber v (Users.doc_put users uid data)
  = Some uid.
Proof.
  unfold Users.first_with. intros Hnone Hdata.
  induction users as [|[i x] rest IH]; cbn [Users.doc_put find snd].
  - rewrite Hdata, String.eqb_refl. reflexivity.
  - cbn [find snd] in Hnone.
    destruct (match Users.phoneNumber x with
              | Some y => y === v
              | None => false
              end) eqn:Ex; [discriminate|].
    destruct (String.eqb_spec i uid) as [-> | Hi]; cbn [find snd].
    + rewrite Hdata, String.eqb_refl. reflexivity.
    + rewrite Ex. now apply IH.
Qed.

(** A stored user with the formatted phone number is returned before
    anything else is looked at, and nothing is written. *)
Lemma findOrCreateUser_phone_first
      (auth : Users.createUser) (serverTime : Instant)
      (users : Coll Users.t) (name phone email : option string)
      (f : string) (uid : DocId) :
  formatPhoneNumber phone = Some f ->
  Users.first_with Users.phoneNumber f users = Some uid ->
  Users.findOrCreateUser auth serverTime users name phone email
  = (Done uid, users).
Proof.
  intros Hf Hfound.
  assert (Ht : truthy (Some f) = true).
  { apply truthy_some. intros ->.
    destruct (truthy phone) eqn:Etp.
    - destruct phone as [p|]; [|discriminate]. apply truthy_some in Etp.
      destruct (formatted_shape p "" Etp Hf) as (_ & r & Hr). discriminate.
    - rewrite (formatPhoneNumber_falsy phone Etp) in Hf. discriminate. }
  assert (Hor : or_else (Some f) "" = f).
  { apply or_else_some. now apply truthy_some. }
  unfold Users.findOrCreateUser. now rewrite Hf, Ht, Hor, Hfound.
Qed.

(** X30. [findOrCreateUser] creates a guest who is found neither by the
    formatted phone number nor by the email, provided a name is given: the
    new user is stored under the uid of the new account, and from then on
    every call with a phone number that formats alike returns that uid and
    writes nothing, whatever name and email it is given and whatever the
    identity provider would answer. Without a name the user document is
    rejected: the call throws and stores no user. *)
Theorem findOrCreateUser_by_phone
        (serverTime : Instant) (users : Coll Users.t)
        (name phone email : option string) (f : string) (uid : DocId) :
  formatPhoneNumber phone = Some f ->
  Users.first_with Users.phoneNumber f users = None ->
  (truthy email = true ->
   Users.first_with Users.email (or_else email "") users = None) ->
  let created :=
    Users.findOrCreateUser (Users.Created uid) serverTime users
                           name phone email in
  match name with
  | Some _ =>
      fst created = Done uid
      /\ Users.first_with Users.phoneNumber f (snd created) = Some uid
      /\ forall auth' serverTime' name' phone' email',
           formatPhoneNumber phone' = Some f ->
           Users.findOrCreateUser auth' serverTime' (snd created)
                                  name' phone' email'
           = (Done uid, snd created)
  | None => created = (Thrown "INVALID_ARGUMENT", users)
  end.
Proof.
  intros Hf Hnone Hemail created. subst created.
  assert (Ht : truthy (Some f) = true).
  { apply truthy_some. intros ->.
    destruct (truthy phone) eqn:Etp.
    - destruct phone as [p|]; [|discriminate]. apply truthy_some in Etp.
      destruct (formatted_shape p "" Etp Hf) as (_ & r & Hr). discriminate.
    - rewrite (formatPhoneNumber_falsy phone Etp) in Hf. discriminate. }
  assert (Hor : or_else (Some f) "" = f).
  { apply or_else_some. now apply truthy_some. }
  assert (Hcreated :
    Users.findOrCreateUser (Users.Created uid) serverTime users
                           name phone email
    = match name with
      | Some _ =>
          (Done uid,
           Users.doc_put users uid
             (Users.mk name (if truthy email then email else None)
                       (Some f) "customer" serverTime))
      | None => (Thrown "INVALID_ARGUMENT", users)
      end).
  { unfold Users.findOrCreateUser. rewrite Hf, Ht, Hor, Hnone.
    destruct (truthy email); [now rewrite Hemail|reflexivity]. }
  rewrite Hcreated. destruct name as [n|]; [|reflexivity].
  cbn [fst snd].
  assert (Hfound :
    Users.first_with Users.phoneNumber f
      (Users.doc_put users uid
         (Users.mk (Some n) (if truthy email then email else None)
                   (Some f) "customer" serverTime))
    = Some uid) by now apply first_with_put.
  split; [reflexivity|]. split; [exact Hfound|].
  intros auth' serverTime' name' phone' email' Hf'.
  now apply (findOrCreateUser_phone_first auth' serverTime' _ name' phone'
               email' f uid).
Qed.

(** Bob books by phone in a hotel that knows only Ada: he is created as
    u2, and found again when his number is written without separators. *)
Lemma findOrCreateUser_by_phone_witness :
  let created :=
    Users.findOrCreateUser (Users.Created "u2") (Scenario.jan 6)
                           Examples.one_user (Some "Bob")
                           (Some "0700 000-002") (Some "bob@example.com") in
  fst created = Done "u2"
  /\ Users.first_with Users.phoneNumber "+256700000002" (snd created)
     = Some "u2"
  /\ forall auth' serverTime' name' phone' email',
       formatPhoneNumber phone' = Some "+256700000002" ->
       Users.findOrCreateUser auth' serverTime' (snd created)
                              name' phone' email'
       = (Done "u2", snd created).
Proof.
  apply (findOrCreateUser_by_phone
           (Scenario.jan 6) Examples.one_user
           (Some "Bob") (Some "0700 000-002") (Some "bob@example.com")
           "+256700000002" "u2").
  - reflexivity.
  - reflexivity.
  - intros _. reflexivity.
Defined.
